(** * dfbuilder: backend of the i2b2 data builder plug-in

    A shallow embedding of [heron_extract/cdr2edc/dfbuilder.py]: the
    metadata-key resolution, the staging of concepts in the source
    repository, the SQL selections built with SQLAlchemy (read as the
    relational operations they denote on tables held as lists of rows), the
    export into the destination database, the orchestration entry point and
    the completion mail. *)

From Stdlib Require Import ZArith String Ascii List Bool Lia.
From Stdlib Require Import Sorting.Sorted Sorting.Permutation.
From stdpp Require Import base gmap strings pretty.
Import ListNotations.
Open Scope string_scope.
Open Scope list_scope.

(** ** Python string primitives *)

Module Py.

(** [s.split(sep)] for a one-character separator: always at least one
    field, empty fields kept. *)
Fixpoint split (sep : ascii) (s : string) : list string :=
  match s with
  | EmptyString => [""]
  | String c s' =>
      if Ascii.eqb c sep then "" :: split sep s'
      else match split sep s' with
           | h :: t => String c h :: t
           | [] => [String c ""]
           end
  end.

(** [sep.join(l)] *)
Fixpoint join (sep : string) (l : list string) : string :=
  match l with
  | [] => ""
  | x :: t =>
      match t with
      | [] => x
      | _ :: _ => x +:+ sep +:+ join sep t
      end
  end.

(** [c in s] for a character [c] *)
Fixpoint contains (c : ascii) (s : string) : bool :=
  match s with
  | EmptyString => false
  | String a s' => Ascii.eqb a c || contains c s'
  end.

(** [s.ljust(n)] and [s.rjust(n)], the paddings of [%-40s] and [%10s]. *)
Fixpoint spaces (n : nat) : string :=
  match n with
  | O => ""
  | S n' => String " " (spaces n')
  end.

Definition ljust (n : nat) (s : string) : string :=
  s +:+ spaces (n - String.length s).

Definition rjust (n : nat) (s : string) : string :=
  spaces (n - String.length s) +:+ s.

End Py.

(** ** I2B2MetaData *)

Module I2B2MetaData.

Definition bs : ascii := "\"%char.

(** [keys_to_paths]: strip the TABLE_ACCESS key off keys.
    [[bs + bs.join(key.split(bs)[3:]) for key in keys]] *)
Definition keys_to_paths (keys : list string) : list string :=
  map (fun key => String bs (Py.join (String bs "") (skipn 3 (Py.split bs key))))
      keys.

End I2B2MetaData.

(** ** SQL primitives

    The statements SQLAlchemy builds are read as what they denote on tables
    held as lists of rows: a join is a nested iteration with its ON
    condition, WHERE a filter, DISTINCT the removal of repeated rows, GROUP
    BY the aggregation over the rows sharing a key. *)

Module Sql.

(** [s LIKE p ESCAPE escape], with [eqc] the comparison of characters of
    the engine.  [%] stands for any run of characters and [_] for one
    character; after the escape character, when one is given, the next
    character stands for itself.  A pattern that ends in a lone escape
    character matches nothing. *)
Fixpoint like_with (eqc : ascii -> ascii -> bool) (escape : option ascii)
    (p : string) : string -> bool :=
  match p with
  | EmptyString => fun s => match s with EmptyString => true | _ => false end
  | String c p' =>
      if bool_decide (escape = Some c) then
        match p' with
        | String d p'' =>
            fun s => match s with
                     | String a s' => eqc a d && like_with eqc escape p'' s'
                     | EmptyString => false
                     end
        | EmptyString => fun _ => false
        end
      else if Ascii.eqb c "%" then
        fix any (s : string) : bool :=
          like_with eqc escape p' s
          || match s with
             | String _ s' => any s'
             | EmptyString => false
             end
      else if Ascii.eqb c "_" then
        fun s => match s with
                 | String _ s' => like_with eqc escape p' s'
                 | EmptyString => false
                 end
      else
        fun s => match s with
                 | String a s' => eqc a c && like_with eqc escape p' s'
                 | EmptyString => false
                 end
  end.

(** LIKE of the source repository (Oracle): characters compared as they
    are. *)
Definition like (s p : string) (escape : option ascii) : bool :=
  like_with Ascii.eqb escape p s.

(** [max(col)] over the rows of a group; a group is never empty. *)
Definition max_of (l : list Z) : option Z :=
  match l with
  | [] => None
  | x :: t => Some (fold_left Z.max t x)
  end.

(** [GROUP BY key]: the keys that occur, each with the rows that carry it. *)
Definition group_by {R K : Type} `{EqDecision K} (key : R -> K)
    (rows : list R) : list (K * list R) :=
  map (fun k => (k, List.filter (fun r => bool_decide (key r = k)) rows))
      (remove_dups (map key rows)).

(** [ORDER BY col] on a text column: a stable insertion sort. *)
Fixpoint insert_by {R : Type} (col : R -> string) (r : R) (l : list R)
    : list R :=
  match l with
  | [] => [r]
  | x :: t => if String.leb (col r) (col x) then r :: l
              else x :: insert_by col r t
  end.

Definition order_by {R : Type} (col : R -> string) (l : list R) : list R :=
  fold_right (insert_by col) [] l.

End Sql.

(** ** i2b2_star: the tables of the star schema *)

Module I2b2Star.

(** Modelled from the spec: the table declarations of [i2b2_star] are not
    among the sources.  Each table is taken with the columns the queries of
    [dfbuilder.py] name; the columns a query only carries along are kept in
    one field of values.  Key columns hold values, never NULL. *)
Record param_row := {
  char_param1 : string;
  char_param2 : string }.

(** Modelled from the spec: a DictionaryEntry of the concept dictionary,
    (path, code, label). *)
Record concept_row := {
  cd_concept_path : string;
  cd_concept_cd : string;
  cd_name_char : string }.

(** Modelled from the spec: a DictionaryEntry of the modifier dictionary,
    (path, code, label). *)
Record modifier_row := {
  md_modifier_path : string;
  md_modifier_cd : string;
  md_name_char : string }.

(** Modelled from the spec: a FactRow, (encounter id, patient id, code,
    timestamp, value fields). *)
Record fact_row := {
  f_encounter_num : Z;
  f_patient_num : Z;
  f_concept_cd : string;
  f_start_date : Z;
  f_values : list string }.

(** Modelled from the spec: a patient-dimension row. *)
Record patient_row := {
  pd_patient_num : Z;
  pd_values : list string }.

(** Modelled from the spec: a visit record with its start time. *)
Record visit_row := {
  vd_encounter_num : Z;
  vd_patient_num : Z;
  vd_start_date : Z;
  vd_values : list string }.

(** Modelled from the spec: PatientSet membership, a set identifier with a
    patient id. *)
Record pset_row := {
  pset_result_instance_id : Z;
  pset_patient_num : Z }.

#[global] Instance param_row_eq_dec : EqDecision param_row.
Proof. solve_decision. Defined.
#[global] Instance concept_row_eq_dec : EqDecision concept_row.
Proof. solve_decision. Defined.
#[global] Instance modifier_row_eq_dec : EqDecision modifier_row.
Proof. solve_decision. Defined.
#[global] Instance fact_row_eq_dec : EqDecision fact_row.
Proof. solve_decision. Defined.
#[global] Instance patient_row_eq_dec : EqDecision patient_row.
Proof. solve_decision. Defined.
#[global] Instance visit_row_eq_dec : EqDecision visit_row.
Proof. solve_decision. Defined.
#[global] Instance pset_row_eq_dec : EqDecision pset_row.
Proof. solve_decision. Defined.

(** The source repository the account executes statements on. *)
Record cdw := {
  global_temp_fact_param_table : list param_row;
  query_global_temp : list string;
  concept_dimension : list concept_row;
  modifier_dimension : list modifier_row;
  observation_fact : list fact_row;
  patient_dimension : list patient_row;
  visit_dimension : list visit_row;
  qt_patient_set_collection : list pset_row }.

(** A table the code writes to: how to read its rows and how to replace
    them. *)
Record table (R : Type) := {
  rows : cdw -> list R;
  with_rows : list R -> cdw -> cdw }.
Arguments rows {R} _ _.
Arguments with_rows {R} _ _ _.

Definition t_global_temp_fact_param_table : table param_row := {|
  rows := global_temp_fact_param_table;
  with_rows l db := {|
    global_temp_fact_param_table := l;
    query_global_temp := query_global_temp db;
    concept_dimension := concept_dimension db;
    modifier_dimension := modifier_dimension db;
    observation_fact := observation_fact db;
    patient_dimension := patient_dimension db;
    visit_dimension := visit_dimension db;
    qt_patient_set_collection := qt_patient_set_collection db |} |}.

Definition t_query_global_temp : table string := {|
  rows := query_global_temp;
  with_rows l db := {|
    global_temp_fact_param_table := global_temp_fact_param_table db;
    query_global_temp := l;
    concept_dimension := concept_dimension db;
    modifier_dimension := modifier_dimension db;
    observation_fact := observation_fact db;
    patient_dimension := patient_dimension db;
    visit_dimension := visit_dimension db;
    qt_patient_set_collection := qt_patient_set_collection db |} |}.

(** [account.execute(t.delete())] *)
Definition delete {R} (t : table R) (db : cdw) : cdw := with_rows t [] db.

(** [account.execute(t.insert(), bind)] and
    [account.execute(t.insert().from_select(...))] *)
Definition insert {R} (t : table R) (new : list R) (db : cdw) : cdw :=
  with_rows t (rows t db ++ new) db.

End I2b2Star.

(** ** DataExtract: the queries against the source repository *)

Module DataExtract.
Import I2b2Star.

(** [concepts]: the parallel lists of display names and of keys. *)
Record concepts := {
  names : list string;
  keys : list string }.

Record job := {
  user_id : string;
  label : string;
  job_concepts : concepts;
  patient_set : Z;
  filename : string }.

Definition data_tables : list string :=
  ["patient_dimension"; "visit_dimension"; "concept_dimension";
   "modifier_dimension"; "observation_fact"].

(** A selection, to be executed on the repository; a row of the two term
    selections is (path, code, label). *)
Definition query (R : Type) : Type := cdw -> list R.
Definition term : Type := string * string * string.
Definition term_path (r : term) : string := fst (fst r).
Definition term_code (r : term) : string := snd (fst r).

(** [l JOIN r ON on] *)
Definition join {A B : Type} (l : list A) (r : list B) (on : A -> B -> bool)
    : list (A * B) :=
  flat_map (fun a => map (fun b => (a, b)) (List.filter (on a) r)) l.

(** [_save_concepts]: the staging table, the insertion of the bound rows
    into it, and the rows to bind, one per (path, name) pair. *)
Record bind_row := {
  name : string;
  path : string }.

Definition _save_concepts (c : concepts)
    : table param_row * (list bind_row -> cdw -> cdw) * list bind_row :=
  let names := names c in
  let paths := I2B2MetaData.keys_to_paths (keys c) in
  let bind := map (fun '(path, name) => {| name := name; path := path |})
                  (combine paths names) in
  let tmp := t_global_temp_fact_param_table in
  let ins := fun bind =>
    insert tmp (map (fun b => {| char_param1 := path b;
                                 char_param2 := name b |}) bind) in
  (tmp, ins, bind).

(** [_term_query]: the concept-dictionary and the modifier-dictionary
    selections, each with its first column. *)
Definition _term_query (tmp : table param_row) (escape : ascii)
    : (query term * (term -> string)) * (query term * (term -> string)) :=
  let q_cd : query term := fun db =>
    remove_dups
      (map (fun '(_, cd) =>
              (cd_concept_path cd, cd_concept_cd cd, cd_name_char cd))
           (join (rows tmp db) (concept_dimension db)
                 (fun t cd => Sql.like (cd_concept_path cd)
                                       (char_param1 t +:+ "%")
                                       (Some escape)))) in
  let q_md : query term := fun db =>
    remove_dups
      (map (fun '(_, md) =>
              (md_modifier_path md, md_modifier_cd md, md_name_char md))
           (join (rows tmp db) (modifier_dimension db)
                 (fun t md => Sql.like (char_param1 t)
                                       (md_modifier_path md)
                                       None))) in
  ((q_cd, term_path), (q_md, term_path)).

(** The default of the [escape] argument. *)
Definition escape_default : ascii := "|"%char.

(** [patient_data_queries]: the table of staged codes, the insertion that
    fills it with the distinct codes of the concept-dictionary selection,
    and the selection of facts, with [id] bound by the caller. *)
Definition patient_data_queries (tmp : table param_row)
    : table string * (cdw -> cdw) * (Z -> query fact_row) :=
  let '((tq_sql, _sortcol), _modifier_stuff) :=
    _term_query tmp escape_default in
  let code_tmp := t_query_global_temp in
  let ins := fun db =>
    insert code_tmp (remove_dups (map term_code (tq_sql db))) db in
  let s_facts := fun (id : Z) db =>
    map (fun '(f, _, _) => f)
        (List.filter
           (fun '(_, _, pset) => (pset_result_instance_id pset =? id)%Z)
           (join
              (join (observation_fact db) (rows code_tmp db)
                    (fun f c => String.eqb (f_concept_cd f) c))
              (qt_patient_set_collection db)
              (fun '(f, _) pset =>
                 (pset_patient_num pset =? f_patient_num f)%Z))) in
  (code_tmp, ins, s_facts).

(** [patients_query]: the selection of patients and the selection of one
    visit per patient, each with the patient-set identifier bound by the
    caller. *)
Definition last (patient_set : Z) : query (Z * Z) := fun db =>
  flat_map
    (fun '(patient_num, g) =>
       match Sql.max_of (map vd_start_date g) with
       | Some last_visit => [(patient_num, last_visit)]
       | None => []
       end)
    (Sql.group_by vd_patient_num
       (map (fun '(vd, _, _) => vd)
          (List.filter
             (fun '(_, _, pset) =>
                (pset_result_instance_id pset =? patient_set)%Z)
             (join
                (join (visit_dimension db) (patient_dimension db)
                      (fun vd pd =>
                         (pd_patient_num pd =? vd_patient_num vd)%Z))
                (qt_patient_set_collection db)
                (fun '(_, pd) pset =>
                   (pset_patient_num pset =? pd_patient_num pd)%Z))))).

Definition arb_visit (patient_set : Z) : query (Z * Z) := fun db =>
  flat_map
    (fun '(patient_num, g) =>
       match Sql.max_of (map vd_encounter_num g) with
       | Some encounter_num => [(encounter_num, patient_num)]
       | None => []
       end)
    (Sql.group_by vd_patient_num
       (map fst
          (join (visit_dimension db) (last patient_set db)
                (fun vd l =>
                   (vd_patient_num vd =? fst l)%Z
                   && (vd_start_date vd =? snd l)%Z)))).

Definition patients_query
    : (Z -> query patient_row) * (Z -> query visit_row) :=
  let pat_q := fun (patient_set : Z) db =>
    map fst
      (List.filter
         (fun '(_, pset) => (pset_result_instance_id pset =? patient_set)%Z)
         (join (patient_dimension db) (qt_patient_set_collection db)
               (fun pd pset =>
                  (pset_patient_num pset =? pd_patient_num pd)%Z))) in
  let enc_q := fun (patient_set : Z) db =>
    map fst
      (join (visit_dimension db) (arb_visit patient_set db)
            (fun vd a => (fst a =? vd_encounter_num vd)%Z)) in
  (pat_q, enc_q).

(** A result cursor: the rows not fetched yet. *)
Definition cursor (R : Type) : Type := list R.

(** [demographics], [term_info] and [patient_data], the closures made by
    [__init__] over the account; each returns the cursors of the statements
    it executed, with the repository as it leaves it. *)
Definition demographics (j : job) (account : cdw)
    : cursor patient_row * cursor visit_row :=
  let '(pat_q, enc_q) := patients_query in
  (pat_q (patient_set j) account, enc_q (patient_set j) account).

Definition term_info (j : job) (account : cdw)
    : (cursor term * cursor term) * cdw :=
  let '(tmp, ins, bind) := _save_concepts (job_concepts j) in
  let account := delete tmp account in
  let account := if (0 <? length bind)%nat then ins bind account
                 else account in
  let '((q_cd, col_cd), (q_md, col_md)) := _term_query tmp escape_default in
  let ordered_cd := fun db => Sql.order_by col_cd (q_cd db) in
  let ordered_md := fun db => Sql.order_by col_md (q_md db) in
  ((ordered_cd account, ordered_md account), account).

Definition patient_data (j : job) (account : cdw) : cursor fact_row * cdw :=
  let '(var_tmp, var_ins, var_bind) := _save_concepts (job_concepts j) in
  let account := delete var_tmp account in
  let account := if (0 <? length var_bind)%nat then var_ins var_bind account
                 else account in
  let '(code_tmp, ins, sel) := patient_data_queries var_tmp in
  let account := delete code_tmp account in
  let account := ins account in
  (sel (patient_set j) account, account).

End DataExtract.

(** ** Regular expressions, as far as [strip_counts] uses them *)

Module Re.

(** A pattern is a sequence of character classes, each taken once, one or
    more times ([+]) or any number of times ([*]); [+] and [*] are greedy
    and give characters back when the rest of the pattern fails. *)
Inductive quantifier := One | Plus | Star.

Definition pattern : Type := list ((ascii -> bool) * quantifier).

Definition chr (c : ascii) : ascii -> bool := fun a => Ascii.eqb a c.

(** [\d] *)
Definition digit : ascii -> bool := fun a =>
  let n := nat_of_ascii a in (48 <=? n)%nat && (n <=? 57)%nat.

(** [.]: any character but the line feed. *)
Definition dot : ascii -> bool := fun a => negb (Ascii.eqb a "010").

(** The longest run of [cls] after which [k] succeeds. *)
Fixpoint star_loop (cls : ascii -> bool) (k : string -> option string)
    (s : string) : option string :=
  match s with
  | String a s' =>
      if cls a then
        match star_loop cls k s' with
        | Some r => Some r
        | None => k s
        end
      else k s
  | EmptyString => k s
  end.

(** A match of [p] at the start of [s]: what is left of [s] after it. *)
Fixpoint match_here (p : pattern) (s : string) : option string :=
  match p with
  | [] => Some s
  | (cls, One) :: p' =>
      match s with
      | String a s' => if cls a then match_here p' s' else None
      | EmptyString => None
      end
  | (cls, Plus) :: p' =>
      match s with
      | String a s' => if cls a then star_loop cls (match_here p') s'
                       else None
      | EmptyString => None
      end
  | (cls, Star) :: p' => star_loop cls (match_here p') s
  end.

(** [re.sub(p, repl, s)] for a pattern that matches no empty string: the
    leftmost matches, each replaced by [repl].  Every step takes at least
    one character, so [length s] steps are enough. *)
Fixpoint sub_from (fuel : nat) (p : pattern) (repl s : string) : string :=
  match fuel with
  | O => s
  | S fuel' =>
      match s with
      | EmptyString => ""
      | String a s' =>
          match match_here p s with
          | Some rest =>
              if (String.length rest <? String.length s)%nat
              then repl +:+ sub_from fuel' p repl rest
              else String a (sub_from fuel' p repl s')
          | None => String a (sub_from fuel' p repl s')
          end
      end
  end.

Definition sub (p : pattern) (repl s : string) : string :=
  sub_from (String.length s) p repl s.

End Re.

(** [strip_counts]: [re.sub(r' \[\d+.*\]', '', txt)] *)
Definition strip_counts_pattern : Re.pattern :=
  [(Re.chr " ", Re.One); (Re.chr "[", Re.One); (Re.digit, Re.Plus);
   (Re.dot, Re.Star); (Re.chr "]", Re.One)].

Definition strip_counts (txt : string) : string :=
  Re.sub strip_counts_pattern "" txt.

(** ** Exceptions and results *)

Inductive exn_class :=
  | IOError
  | OSError
  | OperationalError
  | OtherError (name : string).

Record exn := Exn {
  exn_class_of : exn_class;
  exn_str : string }.

(** [isinstance(ex, IOError)] *)
Definition isinstance_IOError (ex : exn) : bool :=
  match exn_class_of ex with
  | IOError => true
  | _ => false
  end.

Inductive result (A : Type) :=
  | Ok (a : A)
  | Raise (ex : exn).
Arguments Ok {A} a.
Arguments Raise {A} ex.

#[global] Instance result_ret : MRet result := fun A a => Ok a.
#[global] Instance result_bind : MBind result := fun A B f m =>
  match m with
  | Ok a => f a
  | Raise ex => Raise ex
  end.

(** ** The destination database *)

Module DestDb.
Import I2b2Star.

Record job_row := {
  job_pset : Z;
  job_label : string;
  job_concepts_json : string;
  job_name : string }.

Record variable_row := {
  v_id : nat;
  v_item_key : string;
  v_concept_path : string;
  v_name_char : string;
  v_name : string }.

(** A row of a table of the destination; [RowNull] is the row that has
    NULL in every column. *)
Inductive row :=
  | RowPatient (r : patient_row)
  | RowVisit (r : visit_row)
  | RowTerm (r : DataExtract.term)
  | RowFact (r : fact_row)
  | RowJob (r : job_row)
  | RowVariable (r : variable_row)
  | RowNull.

(** The tables that exist, each with its rows, and the views that exist. *)
Record db := {
  tables : gmap string (list row);
  views : gset string }.

Definition empty : db := {| tables := ∅; views := ∅ |}.

Definition already_exists (name : string) : exn :=
  Exn OperationalError ("table " +:+ name +:+ " already exists").
Definition no_such_table (name : string) : exn :=
  Exn OperationalError ("no such table: " +:+ name).

(** [t.create(bind=dest_db)]: CREATE TABLE, an error when the name is
    taken. *)
Definition create (name : string) (d : db) : result db :=
  if bool_decide (name ∈ dom (tables d)) || bool_decide (name ∈ views d)
  then Raise (already_exists name)
  else Ok {| tables := <[name := []]> (tables d); views := views d |}.

(** [t.drop(bind=dest_db, checkfirst=True)]: dropped when it exists. *)
Definition drop_checkfirst (name : string) (d : db) : db :=
  {| tables := base.delete name (tables d); views := views d |}.

(** [meta.drop_all(dest_db)] and [meta.create_all(dest_db)] check first:
    only the tables that exist are dropped, only the missing ones
    created. *)
Definition drop_all (names : list string) (d : db) : db :=
  fold_left (fun d name => drop_checkfirst name d) names d.

Definition create_all (names : list string) (d : db) : db :=
  fold_left
    (fun d name =>
       match tables d !! name with
       | Some _ => d
       | None => {| tables := <[name := []]> (tables d); views := views d |}
       end)
    names d.

(** [dest_db.execute(t.insert(), rows)]: with an empty list of rows the
    statement is executed once without values, and the table receives one
    row of defaults; the tables of the destination declare no default, so
    the row has NULL in every column. *)
Definition inserted (new : list row) : list row :=
  match new with
  | [] => [RowNull]
  | _ :: _ => new
  end.

Definition insert (name : string) (new : list row) (d : db) : result db :=
  match tables d !! name with
  | Some old => Ok {| tables := <[name := old ++ inserted new]> (tables d);
                      views := views d |}
  | None => Raise (no_such_table name)
  end.

(** A Python integer bound to a column of type [Integer]: the destination
    engine stores signed integers of 64 bits and the driver raises
    [OverflowError] for any other. *)
Definition int64 (z : Z) : bool :=
  (- 2 ^ 63 <=? z)%Z && (z <? 2 ^ 63)%Z.

Definition overflow : exn :=
  Exn (OtherError "OverflowError")
      "Python int too large to convert to SQLite INTEGER".

Definition bind_integer (z : Z) : result Z :=
  if int64 z then Ok z else Raise overflow.

(** [dest_db.execute(t.delete())] *)
Definition delete_from (name : string) (d : db) : result db :=
  match tables d !! name with
  | Some _ => Ok {| tables := <[name := []]> (tables d); views := views d |}
  | None => Raise (no_such_table name)
  end.

(** [dest_db.execute('create view name as ...')]: an error when the name
    is taken; the tables the view names are not looked up. *)
Definition create_view (name : string) (d : db) : result db :=
  if bool_decide (name ∈ dom (tables d)) || bool_decide (name ∈ views d)
  then Raise (already_exists name)
  else Ok {| tables := tables d; views := {[name]} ∪ views d |}.

(** The tables named in the FROM clause of a selection are looked up when
    the selection is executed, in the order of the clause: the first that
    does not exist is the error.  (The views of the destination hold no
    rows here; every relation the export reads is a table.) *)
Fixpoint from_tables (names : list string) (d : db) : result unit :=
  match names with
  | [] => Ok tt
  | name :: names' =>
      match tables d !! name with
      | Some _ => from_tables names' d
      | None => Raise (no_such_table ("main." +:+ name))
      end
  end.

(** The rows of a table; none when it does not exist. *)
Definition rows_of (name : string) (d : db) : list row :=
  default [] (tables d !! name).

(** LIKE of the destination engine (SQLite): ASCII letters compare without
    regard to case, and there is no escape character. *)
Definition lower (a : ascii) : ascii :=
  let n := nat_of_ascii a in
  if (65 <=? n)%nat && (n <=? 90)%nat then ascii_of_nat (n + 32) else a.

Definition like (s p : string) : bool :=
  Sql.like_with (fun a b => Ascii.eqb (lower a) (lower b)) None p s.

(** [instr(x, y)] of SQLite: one more than the number of characters before
    the first occurrence of [y] in [x], and 0 when there is none. *)
Fixpoint instr (x y : string) : nat :=
  if String.prefix y x then 1
  else match x with
       | EmptyString => 0
       | String _ x' =>
           match instr x' y with
           | O => 0
           | S n => S (S n)
           end
       end.

(** [substr(x, 1, z)] of SQLite: the first [z] characters of [x]; for a
    negative [z], the characters before the first one, that is none. *)
Definition substr_1 (x : string) (z : Z) : string :=
  if (0 <=? z)%Z then String.substring 0 (Z.to_nat z) x else "".

End DestDb.

(** ** table_copy *)

Module TableCopy.

(** Modelled from the spec: [table_copy.copy_in_chunks] is not among the
    sources.  It pulls rows from the source cursor in fixed-size batches and
    inserts each batch into the destination table as a single batched write,
    until the cursor is exhausted; a failing insert aborts the copy.  The
    cursor is returned as the copy leaves it. *)
Fixpoint copy_loop {R : Type} (fuel : nat) (batch : nat)
    (inj : R -> DestDb.row) (d : DestDb.db) (data : DataExtract.cursor R)
    (table : string) : result (DestDb.db * DataExtract.cursor R) :=
  match fuel with
  | O => Ok (d, data)
  | S fuel' =>
      match firstn batch data with
      | [] => Ok (d, data)
      | chunk =>
          d' ← DestDb.insert table (map inj chunk) d;
          copy_loop fuel' batch inj d' (skipn batch data) table
      end
  end.

(** Modelled from the spec: the copy of a whole cursor, in batches of
    [chunk_size] rows. *)
Definition copy_in_chunks {R : Type} (chunk_size : positive)
    (inj : R -> DestDb.row) (d : DestDb.db) (data : DataExtract.cursor R)
    (table : string) : result (DestDb.db * DataExtract.cursor R) :=
  copy_loop (S (length data)) (Pos.to_nat chunk_size) inj d data table.

End TableCopy.

(** ** DataDest: the export into the destination database *)

Module DataDest.
Import I2b2Star.

(** The result of an export: [dict(id=..., n_patient=..., filename=...,
    str=...)]. *)
Record out := {
  id : Z;
  n_patient : nat;
  out_filename : string;
  str : string }.

Record summary_row := {
  s_concept_path : string;
  s_name_char : string;
  pat_qty : nat;
  fact_qty : nat }.

Definition job_table : string := "job".
Definition variable_table : string := "variable".

(** Each step in turn, stopping at the first that raises. *)
Fixpoint for_each {A S : Type} (f : S -> A -> result S) (l : list A) (s : S)
    : result S :=
  match l with
  | [] => Ok s
  | a :: l' => s' ← f s a; for_each f l' s'
  end.

(** The typed rows held by the tables of the destination. *)
Definition facts_of (d : DestDb.db) : list fact_row :=
  flat_map (fun r => match r with DestDb.RowFact f => [f] | _ => [] end)
           (DestDb.rows_of "observation_fact" d).
Definition concepts_of (d : DestDb.db) : list DataExtract.term :=
  flat_map (fun r => match r with DestDb.RowTerm t => [t] | _ => [] end)
           (DestDb.rows_of "concept_dimension" d).
Definition variables_of (d : DestDb.db) : list DestDb.variable_row :=
  flat_map (fun r => match r with DestDb.RowVariable v => [v] | _ => [] end)
           (DestDb.rows_of "variable" d).

(** The selection behind the view [data_summary]: for each variable, the
    number of distinct patients and of facts whose code is a code of a
    dictionary path under the variable's path. *)
Definition data_summary (d : DestDb.db) : list summary_row :=
  map (fun '((concept_path, name_char), g) =>
         {| s_concept_path := concept_path;
            s_name_char := name_char;
            pat_qty := length (remove_dups (map (fun r => f_patient_num (fst r))
                                               g));
            fact_qty := length g |})
      (Sql.group_by
         (fun f => snd f)
         (map (fun '(f, _, v) =>
                 (f, (DestDb.v_concept_path v, DestDb.v_name_char v)))
            (DataExtract.join
               (DataExtract.join (facts_of d) (concepts_of d)
                  (fun f cd => String.eqb (DataExtract.term_code cd)
                                          (f_concept_cd f)))
               (variables_of d)
               (fun '(_, cd) v =>
                  DestDb.like (DataExtract.term_path cd)
                              (DestDb.v_concept_path v +:+ "%"))))).

Definition summary_line (v : summary_row) : string :=
  Py.ljust 40 (String.substring 0 40 (s_name_char v)) +:+ " "
  +:+ Py.rjust 10 (pretty (pat_qty v)) +:+ " "
  +:+ Py.rjust 10 (pretty (fact_qty v)).

Definition summary_head : string :=
  Py.ljust 40 "Variable" +:+ " " +:+ Py.rjust 10 "N. Patient" +:+ " "
  +:+ Py.rjust 10 "N. Obs.".

Section Steps.

(** [sqla_float_date.create_unpacked_view] is not among the sources and the
    spec does not describe it: it is a parameter of the export. *)
Variable create_unpacked_view : DestDb.db -> string -> result DestDb.db.

(** The batch size of [copy_in_chunks] and [json.dumps] on the concepts. *)
Variable chunk_size : positive.
Variable json_dumps_concepts : DataExtract.concepts -> string.

(** [init_tables]: the tables of the star schema are dropped and created
    anew, then a view is made for each.  [_dumb_down_schema] changes the
    declared column types only. *)
Definition init_tables (job : DataExtract.job) (dest_db : DestDb.db)
    : result (list string * DestDb.db) :=
  let dest_star := DataExtract.data_tables in
  let dest_db := DestDb.drop_all dest_star dest_db in
  let dest_db := DestDb.create_all dest_star dest_db in
  dest_db ← for_each create_unpacked_view dest_star dest_db;
  Ok (dest_star, dest_db).

(** [export_job]: the job table is dropped where it exists and created,
    and the row of the job inserted; [pset] is a column of type
    [Integer]. *)
Definition export_job (dest_star : list string) (job : DataExtract.job)
    (dest_db : DestDb.db) : result DestDb.db :=
  let jobt := job_table in
  let dest_db := DestDb.drop_checkfirst jobt dest_db in
  dest_db ← DestDb.create jobt dest_db;
  pset ← DestDb.bind_integer (DataExtract.patient_set job);
  DestDb.insert jobt
    [DestDb.RowJob
       {| DestDb.job_pset := pset;
          DestDb.job_label := DataExtract.label job;
          DestDb.job_concepts_json :=
            json_dumps_concepts (DataExtract.job_concepts job);
          DestDb.job_name := DataExtract.filename job |}]
    dest_db.

Definition export_patients (dest_star : list string) (job : DataExtract.job)
    (account : cdw) (dest_db : DestDb.db) : result (nat * DestDb.db) :=
  let pd := "patient_dimension" in
  let vd := "visit_dimension" in
  let '(pat_data, enc_data) := DataExtract.demographics job account in
  '(dest_db, _) ← TableCopy.copy_in_chunks chunk_size DestDb.RowPatient
                     dest_db pat_data pd;
  '(dest_db, _) ← TableCopy.copy_in_chunks chunk_size DestDb.RowVisit
                     dest_db enc_data vd;
  Ok (length (DestDb.rows_of "patient_dimension" dest_db), dest_db).

(** [export_terms]: the table of variables is created and the rows of the
    variables inserted with one [execute] on the list of them, whatever its
    length; the cursor [result_cd] is handed to both copies; [result_md] is
    not used. *)
Definition export_terms (dest_star : list string) (job : DataExtract.job)
    (account : cdw) (dest_db : DestDb.db) : result (cdw * DestDb.db) :=
  let v := variable_table in
  let keys := DataExtract.keys (DataExtract.job_concepts job) in
  let names := DataExtract.names (DataExtract.job_concepts job) in
  let paths := I2B2MetaData.keys_to_paths keys in
  dest_db ← DestDb.create v dest_db;
  dest_db ← DestDb.insert v
               (imap (fun id '(path, (key, name)) =>
                        DestDb.RowVariable
                          {| DestDb.v_id := id;
                             DestDb.v_item_key := key;
                             DestDb.v_concept_path := path;
                             DestDb.v_name_char := name;
                             DestDb.v_name := strip_counts name |})
                     (combine paths (combine keys names)))
               dest_db;
  let '((result_cd, result_md), account) :=
    DataExtract.term_info job account in
  let cd := "concept_dimension" in
  let md := "modifier_dimension" in
  '(dest_db, result_cd) ← TableCopy.copy_in_chunks chunk_size DestDb.RowTerm
                             dest_db result_cd cd;
  '(dest_db, result_cd) ← TableCopy.copy_in_chunks chunk_size DestDb.RowTerm
                             dest_db result_cd md;
  Ok (account, dest_db).

Definition export_data (dest_star : list string) (job : DataExtract.job)
    (account : cdw) (dest_db : DestDb.db) : result (cdw * DestDb.db) :=
  let '(data, account) := DataExtract.patient_data job account in
  let obs := "observation_fact" in
  dest_db ← DestDb.delete_from obs dest_db;
  '(dest_db, _) ← TableCopy.copy_in_chunks chunk_size DestDb.RowFact
                     dest_db data obs;
  Ok (account, dest_db).

(** [export_summary]: the view is created, then read; the read is what
    looks up the three tables of the view's FROM clause. *)
Definition export_summary (dest_db : DestDb.db)
    : result (list summary_row * DestDb.db) :=
  dest_db ← DestDb.create_view "data_summary" dest_db;
  _ ← DestDb.from_tables
        ["observation_fact"; "concept_dimension"; "variable"] dest_db;
  Ok (data_summary dest_db, dest_db).

(** [export]: the steps in order; the repository and the destination are
    returned as the export leaves them. *)
Definition export (full_path : string) (job : DataExtract.job)
    (account : cdw) (dest_db : DestDb.db)
    : result (out * cdw * DestDb.db) :=
  '(dest_star, dest_db) ← init_tables job dest_db;
  dest_db ← export_job dest_star job dest_db;
  '(account, dest_db) ← export_data dest_star job account dest_db;
  '(account, dest_db) ← export_terms dest_star job account dest_db;
  '(pat_qty, dest_db) ← export_patients dest_star job account dest_db;
  '(rows, dest_db) ← export_summary dest_db;
  let summary :=
    Py.join (String "010" "") (summary_head :: map summary_line rows) in
  Ok ({| id := DataExtract.patient_set job;
         n_patient := pat_qty;
         out_filename := full_path;
         str := summary |}, account, dest_db).

End Steps.

(** [variable_strip_counts]: the four columns are added where they are
    missing (a failure to add one is logged, and the rows held here carry
    the name column already); then the name of every variable is set to
    [substr(name_char, 1, instr(name_char, ' [') - 1)] and the rows of the
    table are returned. *)
Definition strip_name (r : DestDb.row) : DestDb.row :=
  match r with
  | DestDb.RowVariable v =>
      DestDb.RowVariable
        {| DestDb.v_id := DestDb.v_id v;
           DestDb.v_item_key := DestDb.v_item_key v;
           DestDb.v_concept_path := DestDb.v_concept_path v;
           DestDb.v_name_char := DestDb.v_name_char v;
           DestDb.v_name :=
             DestDb.substr_1 (DestDb.v_name_char v)
               (Z.of_nat (DestDb.instr (DestDb.v_name_char v) " [") - 1) |}
  | _ => r
  end.

Definition variable_strip_counts (db : DestDb.db)
    : result (list DestDb.row * DestDb.db) :=
  match DestDb.tables db !! "variable" with
  | Some rows =>
      let rows := map strip_name rows in
      Ok (rows, {| DestDb.tables := <["variable" := rows]> (DestDb.tables db);
                   DestDb.views := DestDb.views db |})
  | None => Raise (DestDb.no_such_table "variable")
  end.

End DataDest.

(** ** BuilderApp *)

Module BuilderApp.

(** The access the app is made with: for a user, the account on the
    repository and the storage of a job, which gives the destination
    database with its full path. *)
Record app := {
  _access : string ->
            result (I2b2Star.cdw
                    * (string -> result (DestDb.db * string))) }.

Section Call.

Variable create_unpacked_view : DestDb.db -> string -> result DestDb.db.
Variable chunk_size : positive.
Variable json_dumps_concepts : DataExtract.concepts -> string.
Variable json_dumps : DataDest.out -> string.

(** [__call__]: of what [DataExtract(...)] and [dest.export(job)] raise,
    [except IOError] catches the instances of [IOError]. *)
Definition __call__ (self : app) (username label : string)
    (concepts : DataExtract.concepts) (filename : string) (patient_set : Z)
    : result (list string) :=
  '(account, job_storage) ← _access self username;
  '(db, storage) ← job_storage filename;
  let job := {| DataExtract.user_id := username;
                DataExtract.label := label;
                DataExtract.job_concepts := concepts;
                DataExtract.patient_set := patient_set;
                DataExtract.filename := filename |} in
  match DataDest.export create_unpacked_view chunk_size json_dumps_concepts
          storage job account db with
  | Ok (out, _, _) => Ok [json_dumps out]
  | Raise ex =>
      if isinstance_IOError ex then Ok ["error:"; exn_str ex]
      else Raise ex
  end.

End Call.

End BuilderApp.

(** ** The completion mail *)

Module Mail.

(** [email_config]: whether the section exists, and its options. *)
Record email_config := {
  cfg_exists : bool;
  cfg_get : string -> result string }.

(** What is handed to [smtp.sendmail]. *)
Record mail := {
  mail_to : list string;
  mail_from : string;
  mail_subject : string;
  mail_body : string }.

(** The SMTP capability: whether it accepts a mail or raises.  Every mail
    handed to it is kept in the outbox, accepted or not. *)
Record smtp := {
  accepts : mail -> result unit }.

Definition sendmail (s : smtp) (m : mail) (outbox : list mail)
    : result unit * list mail :=
  (accepts s m, outbox ++ [m]).

(** Modelled from the spec: [emailer.Emailer] is not among the sources.
    The notification collaborator receives (recipient, subject, body): an
    emailer holds the SMTP capability and a function that gives the
    recipients, asked when the mail is sent. *)
Record emailer := {
  em_smtp : smtp;
  em_recipients : unit -> list string }.

Definition sendEmail (e : emailer) (body subject sender : string)
    (outbox : list mail) : result unit * list mail :=
  sendmail (em_smtp e)
    {| mail_to := em_recipients e tt;
       mail_from := sender;
       mail_subject := subject;
       mail_body := body |}
    outbox.

(** [send_completion_mail]: the outbox as the call leaves it.  A failure
    to send is logged and goes no further. *)
Definition send_completion_mail (smtp : smtp) (email_config : email_config)
    (username : string) (gethostname : unit -> string)
    (filename home_dirs summary : string) (outbox : list mail)
    : result (list mail) :=
  if cfg_exists email_config then
    domain ← cfg_get email_config "user_domain";
    let recipient := username +:+ "@" +:+ domain in
    let recipient := "bos@uthscsa.edu" in
    let emailer := {| em_smtp := smtp;
                      em_recipients := fun _ => [recipient] |} in
    let hostname := gethostname tt in
    let location := home_dirs +:+ "/" +:+ username in
    let body := "The dataset " +:+ filename +:+ " is now available on "
                +:+ hostname +:+ " at '" +:+ location +:+ "'"
                +:+ String "010" (String "010" "====DATA SUMMARY====")
                +:+ String "010" summary in
    let subject := "The dataset '" +:+ filename +:+ "' is now available" in
    sender ← cfg_get email_config "sender";
    let '(sent, outbox) := sendEmail emailer body subject sender outbox in
    match sent with
    | Ok _ => Ok outbox
    | Raise _ => Ok outbox
    end
  else Ok outbox.

End Mail.

(** ** Vocabulary of the statements *)

Module Spec.
Import I2b2Star.

(** How many staged rows carry the code [c]. *)
Definition staged_code_count (codes : list string) (c : string) : nat :=
  length (List.filter (String.eqb c) codes).

(** How many membership rows put patient [p] into the set [id]. *)
Definition member_count (pset : list pset_row) (id p : Z) : nat :=
  length (List.filter
            (fun m => (pset_patient_num m =? p)%Z
                      && (pset_result_instance_id m =? id)%Z)
            pset).

(** Patient [p] is a member of the set [id]. *)
Definition member (pset : list pset_row) (id p : Z) : Prop :=
  exists m, In m pset /\ pset_patient_num m = p
            /\ pset_result_instance_id m = id.

(** Patient [p] has a patient-dimension row and is a member of the set
    [id]. *)
Definition patient_in_set (db : cdw) (id p : Z) : Prop :=
  (exists pd, In pd (patient_dimension db) /\ pd_patient_num pd = p)
  /\ member (qt_patient_set_collection db) id p.

(** [v] is a latest visit of patient [p]: a visit of [p] with the greatest
    start time among the visits of [p] and, among those at that time, the
    greatest encounter number. *)
Definition latest_visit (db : cdw) (p : Z) (v : visit_row) : Prop :=
  In v (visit_dimension db)
  /\ vd_patient_num v = p
  /\ (forall w, In w (visit_dimension db) -> vd_patient_num w = p ->
                (vd_start_date w <= vd_start_date v)%Z)
  /\ (forall w, In w (visit_dimension db) -> vd_patient_num w = p ->
                vd_start_date w = vd_start_date v ->
                (vd_encounter_num w <= vd_encounter_num v)%Z).

(** C5 in the claim's words: for every patient [p] in the patient set [id],
    the encounter selection returns the latest visit of [p], and that visit
    is the one it returns for [p]. *)
Definition latest_visit_claim (db : cdw) (id p : Z) : Prop :=
  member (qt_patient_set_collection db) id p ->
  forall v, latest_visit db p v ->
    In v (snd DataExtract.patients_query id db)
    /\ (forall v', In v' (snd DataExtract.patients_query id db) ->
                   vd_patient_num v' = p -> v' = v).

(** The row [f] carries a staged code and its patient is in the set [id]. *)
Definition selected (db : cdw) (id : Z) (f : fact_row) : bool :=
  existsb (String.eqb (f_concept_cd f)) (query_global_temp db)
  && existsb (fun m => (pset_patient_num m =? f_patient_num f)%Z
                       && (pset_result_instance_id m =? id)%Z)
             (qt_patient_set_collection db).

(** The rows one call stages: a (path, display name) row per concept. *)
Definition staged_rows (c : DataExtract.concepts) : list param_row :=
  map (fun '(path, name) => {| char_param1 := path; char_param2 := name |})
      (combine (I2B2MetaData.keys_to_paths (DataExtract.keys c))
               (DataExtract.names c)).

(** A LIKE pattern without wildcard. *)
Definition plain (p : string) : bool :=
  negb (Py.contains "%" p) && negb (Py.contains "_" p).

(** [s] starts with a space, an opening bracket and a digit; and [s] has
    such a start somewhere. *)
Definition starts_count (s : string) : bool :=
  match s with
  | String a (String b (String d _)) =>
      Ascii.eqb a " " && Ascii.eqb b "[" && Re.digit d
  | _ => false
  end.

Fixpoint has_count (s : string) : bool :=
  starts_count s
  || match s with
     | String _ s' => has_count s'
     | EmptyString => false
     end.

(** [s] ends with a closing bracket that has an opening bracket before it. *)
Fixpoint last_char (s : string) : option ascii :=
  match s with
  | EmptyString => None
  | String a EmptyString => Some a
  | String _ s' => last_char s'
  end.

Definition bracketed_suffix (s : string) : bool :=
  bool_decide (last_char s = Some "]"%char) && Py.contains "[" s.

(** The destination has a table of that name. *)
Definition has_table (name : string) (d : DestDb.db) : Prop :=
  is_Some (DestDb.tables d !! name).

(** The (path, code, label) row selected from a dictionary row. *)
Definition concept_term (cd : concept_row) : DataExtract.term :=
  (cd_concept_path cd, cd_concept_cd cd, cd_name_char cd).
Definition modifier_term (md : modifier_row) : DataExtract.term :=
  (md_modifier_path md, md_modifier_cd md, md_name_char md).

End Spec.

(** ** Sample repositories *)

Module Sample.
Import I2b2Star.

Definition empty_cdw : cdw := {|
  global_temp_fact_param_table := [];
  query_global_temp := [];
  concept_dimension := [];
  modifier_dimension := [];
  observation_fact := [];
  patient_dimension := [];
  visit_dimension := [];
  qt_patient_set_collection := [] |}.

(** One staged path below the path of one modifier. *)
Definition modifier_above : cdw := {|
  global_temp_fact_param_table :=
    [{| char_param1 := "\a\b\"; char_param2 := "n" |}];
  query_global_temp := [];
  concept_dimension := [];
  modifier_dimension :=
    [{| md_modifier_path := "\a\"; md_modifier_cd := "M";
        md_name_char := "m" |}];
  observation_fact := [];
  patient_dimension := [];
  visit_dimension := [];
  qt_patient_set_collection := [] |}.

(** A repository with three patients, two of them in the set 123, and a
    job for one concept. *)
Definition repo : cdw := {|
  global_temp_fact_param_table :=
    [{| char_param1 := "old"; char_param2 := "old" |}];
  query_global_temp := ["stale"];
  concept_dimension :=
    [{| cd_concept_path := "\a\b\"; cd_concept_cd := "A";
        cd_name_char := "ab" |};
     {| cd_concept_path := "\a\b\c\"; cd_concept_cd := "C";
        cd_name_char := "abc" |};
     {| cd_concept_path := "\z\"; cd_concept_cd := "Z";
        cd_name_char := "z" |}];
  modifier_dimension :=
    [{| md_modifier_path := "\a\b\"; md_modifier_cd := "M";
        md_name_char := "m" |}];
  observation_fact :=
    [{| f_encounter_num := 1; f_patient_num := 1; f_concept_cd := "A";
        f_start_date := 5; f_values := [] |};
     {| f_encounter_num := 2; f_patient_num := 2; f_concept_cd := "C";
        f_start_date := 5; f_values := [] |};
     {| f_encounter_num := 3; f_patient_num := 1; f_concept_cd := "Z";
        f_start_date := 5; f_values := [] |};
     {| f_encounter_num := 4; f_patient_num := 3; f_concept_cd := "A";
        f_start_date := 5; f_values := [] |}];
  patient_dimension :=
    [{| pd_patient_num := 1; pd_values := [] |};
     {| pd_patient_num := 2; pd_values := [] |};
     {| pd_patient_num := 3; pd_values := [] |}];
  visit_dimension :=
    [{| vd_encounter_num := 1; vd_patient_num := 1; vd_start_date := 10;
        vd_values := [] |};
     {| vd_encounter_num := 5; vd_patient_num := 1; vd_start_date := 10;
        vd_values := [] |};
     {| vd_encounter_num := 7; vd_patient_num := 1; vd_start_date := 3;
        vd_values := [] |};
     {| vd_encounter_num := 2; vd_patient_num := 2; vd_start_date := 4;
        vd_values := [] |}];
  qt_patient_set_collection :=
    [{| pset_result_instance_id := 123; pset_patient_num := 1 |};
     {| pset_result_instance_id := 123; pset_patient_num := 2 |}] |}.

(** Patient 1 is a member of the set 7 and has a visit, and has no
    patient-dimension row. *)
Definition member_unlisted : cdw := {|
  global_temp_fact_param_table := [];
  query_global_temp := [];
  concept_dimension := [];
  modifier_dimension := [];
  observation_fact := [];
  patient_dimension := [];
  visit_dimension :=
    [{| vd_encounter_num := 5; vd_patient_num := 1; vd_start_date := 10;
        vd_values := [] |}];
  qt_patient_set_collection :=
    [{| pset_result_instance_id := 7; pset_patient_num := 1 |}] |}.

(** Patients 1 and 2 are members of the set 7; the older visit of patient
    1 has the encounter number of the latest visit of patient 2. *)
Definition shared_encounter : cdw := {|
  global_temp_fact_param_table := [];
  query_global_temp := [];
  concept_dimension := [];
  modifier_dimension := [];
  observation_fact := [];
  patient_dimension :=
    [{| pd_patient_num := 1; pd_values := [] |};
     {| pd_patient_num := 2; pd_values := [] |}];
  visit_dimension :=
    [{| vd_encounter_num := 5; vd_patient_num := 1; vd_start_date := 10;
        vd_values := [] |};
     {| vd_encounter_num := 7; vd_patient_num := 1; vd_start_date := 3;
        vd_values := [] |};
     {| vd_encounter_num := 7; vd_patient_num := 2; vd_start_date := 20;
        vd_values := [] |}];
  qt_patient_set_collection :=
    [{| pset_result_instance_id := 7; pset_patient_num := 1 |};
     {| pset_result_instance_id := 7; pset_patient_num := 2 |}] |}.

Definition concepts1 : DataExtract.concepts := {|
  DataExtract.names := ["n1 [3 facts]"];
  DataExtract.keys := ["\\tk\a\b\"] |}.

Definition job1 : DataExtract.job := {|
  DataExtract.user_id := "me";
  DataExtract.label := "Interesting Query";
  DataExtract.job_concepts := concepts1;
  DataExtract.patient_set := 123;
  DataExtract.filename := "job1" |}.

(** A job without concepts. *)
Definition job_no_concepts : DataExtract.job := {|
  DataExtract.user_id := "me";
  DataExtract.label := "Interesting Query";
  DataExtract.job_concepts :=
    {| DataExtract.names := []; DataExtract.keys := [] |};
  DataExtract.patient_set := 123;
  DataExtract.filename := "job1" |}.

(** A view maker that adds the view of a table, replacing an older one, and
    one that fails on the disk. *)
Definition views_dt (d : DestDb.db) (t : string) : result DestDb.db :=
  Ok {| DestDb.tables := DestDb.tables d;
        DestDb.views := {[t +:+ "_dt"]} ∪ DestDb.views d |}.

Definition views_io_error (d : DestDb.db) (t : string) : result DestDb.db :=
  Raise (Exn IOError "disk I/O error").

Definition dumps_concepts (c : DataExtract.concepts) : string := "{}".
Definition dumps_out (o : DataDest.out) : string := DataDest.str o.

(** The first export of [job1] into an empty destination, and the
    repository and the destination as it leaves them. *)
Definition first_export
    : result (DataDest.out * cdw * DestDb.db) :=
  DataDest.export views_dt 2 dumps_concepts "/home/me/job1.db" job1 repo
    DestDb.empty.

Definition after_first_export : cdw * DestDb.db :=
  match first_export with
  | Ok (_, account, dest_db) => (account, dest_db)
  | Raise _ => (repo, DestDb.empty)
  end.

(** A destination that has the tables of the star schema, empty. *)
Definition dest_ready : DestDb.db :=
  DestDb.create_all DataExtract.data_tables DestDb.empty.

(** The destination of the first export as it is before the summary
    step: every table written, the summary view not yet made. *)
Definition dest_before_summary : DestDb.db :=
  {| DestDb.tables := DestDb.tables (snd after_first_export);
     DestDb.views := DestDb.views (snd after_first_export)
                     ∖ {["data_summary"]} |}.

(** The app whose access gives the repository and the destination as the
    first export left them. *)
Definition app_after_first_export : BuilderApp.app := {|
  BuilderApp._access := fun _ =>
    Ok (fst after_first_export,
        fun _ => Ok (snd after_first_export, "/home/me/job1.db")) |}.

(** The app on the sample repository and an empty destination. *)
Definition app_fresh : BuilderApp.app := {|
  BuilderApp._access := fun _ =>
    Ok (repo, fun _ => Ok (DestDb.empty, "/home/me/job1.db")) |}.

(** The app whose access is refused with an [IOError]. *)
Definition app_no_access : BuilderApp.app := {|
  BuilderApp._access := fun _ => Raise (Exn IOError "no home directory") |}.

(** A mail configuration, and an SMTP capability that accepts. *)
Definition email_kumc : Mail.email_config := {|
  Mail.cfg_exists := true;
  Mail.cfg_get := fun k =>
    if String.eqb k "user_domain" then Ok "kumc.edu"
    else if String.eqb k "sender" then Ok "nobody@kumc.edu"
    else Raise (Exn (OtherError "NoOptionError") k) |}.

Definition smtp_ok : Mail.smtp := {| Mail.accepts := fun _ => Ok tt |}.

End Sample.

(** ** Vocabulary of the further statements *)

Module SpecX.
Import I2b2Star.

(** The repository with the rows of the concepts [c] staged. *)
Definition staged (c : DataExtract.concepts) (db : cdw) : cdw :=
  with_rows t_global_temp_fact_param_table (Spec.staged_rows c) db.

(** The concept-dictionary and the modifier-dictionary selection over the
    staging table, with the default escape character. *)
Definition q_cd : DataExtract.query DataExtract.term :=
  fst (fst (DataExtract._term_query t_global_temp_fact_param_table
              DataExtract.escape_default)).
Definition q_md : DataExtract.query DataExtract.term :=
  fst (snd (DataExtract._term_query t_global_temp_fact_param_table
              DataExtract.escape_default)).

(** Nondecreasing in the path column. *)
Definition by_path (a b : DataExtract.term) : Prop :=
  String.leb (DataExtract.term_path a) (DataExtract.term_path b) = true.

(** The row of the job table and the rows of the table of variables that
    an export of the job writes. *)
Definition job_row_of (json_dumps_concepts : DataExtract.concepts -> string)
    (j : DataExtract.job) : DestDb.row :=
  DestDb.RowJob
    {| DestDb.job_pset := DataExtract.patient_set j;
       DestDb.job_label := DataExtract.label j;
       DestDb.job_concepts_json :=
         json_dumps_concepts (DataExtract.job_concepts j);
       DestDb.job_name := DataExtract.filename j |}.

Definition variable_row_of (i : nat) (key name : string) : DestDb.row :=
  DestDb.RowVariable
    {| DestDb.v_id := i;
       DestDb.v_item_key := key;
       DestDb.v_concept_path :=
         String I2B2MetaData.bs
           (Py.join (String I2B2MetaData.bs "")
                    (skipn 3 (Py.split I2B2MetaData.bs key)));
       DestDb.v_name_char := name;
       DestDb.v_name := strip_counts name |}.

(** The number of separators in a key. *)
Fixpoint separators (key : string) : nat :=
  match key with
  | EmptyString => 0
  | String c key' =>
      (if Ascii.eqb c I2B2MetaData.bs then 1 else 0) + separators key'
  end.

(** The destination has neither a table nor a view of that name. *)
Definition name_free (name : string) (d : DestDb.db) : Prop :=
  ~ Spec.has_table name d /\ name ∉ DestDb.views d.

(** A view maker that succeeds, leaves the tables alone and adds at most
    the view named after the table. *)
Definition makes_views
    (create_unpacked_view : DestDb.db -> string -> result DestDb.db) : Prop :=
  forall d t, exists d',
    create_unpacked_view d t = Ok d'
    /\ DestDb.tables d' = DestDb.tables d
    /\ forall n, n ∈ DestDb.views d' ->
                 n ∈ DestDb.views d \/ n = t +:+ "_dt".

End SpecX.

(** ** Properties of the string primitives *)

Lemma split_nonempty sep s : Py.split sep s <> [].
Proof.
  destruct s as [|c s]; simpl; [discriminate|].
  destruct (Ascii.eqb c sep); [discriminate|].
  destruct (Py.split sep s); discriminate.
Qed.

Lemma split_sep_free sep s :
  Py.contains sep s = false -> Py.split sep s = [s].
Proof.
  induction s as [|c s IH]; simpl; intros H; [reflexivity|].
  apply orb_false_iff in H as [Hc Hs].
  rewrite Hc, (IH Hs). reflexivity.
Qed.

Lemma split_field_sep sep s t :
  Py.contains sep s = false ->
  Py.split sep (s +:+ String sep t) = s :: Py.split sep t.
Proof.
  induction s as [|c s IH]; simpl; intros H.
  - rewrite Ascii.eqb_refl. reflexivity.
  - apply orb_false_iff in H as [Hc Hs].
    rewrite Hc, (IH Hs). reflexivity.
Qed.

(** Splitting undoes joining when no field contains the separator. *)
Lemma split_join sep (l : list string) :
  l <> [] ->
  Forall (fun s => Py.contains sep s = false) l ->
  Py.split sep (Py.join (String sep "") l) = l.
Proof.
  induction l as [|x t IH]; intros Hne Hall; [congruence|].
  inversion Hall as [|? ? Hx Ht]; subst.
  destruct t as [|y t'].
  - simpl. apply split_sep_free, Hx.
  - change (Py.join (String sep "") (x :: y :: t'))
      with (x +:+ String sep (Py.join (String sep "") (y :: t'))).
    rewrite split_field_sep by exact Hx.
    rewrite IH; [reflexivity|discriminate|exact Ht].
Qed.

Example keys_to_paths_doc :
  I2B2MetaData.keys_to_paths ["\\t1\a\b\"; "\\t2\c\d\"] = ["\a\b\"; "\c\d\"].
Proof. reflexivity. Qed.

Example keys_to_paths_doc_radius :
  I2B2MetaData.keys_to_paths ["\\i2b2\i2b2\Demographics\KUMC radius\"]
  = ["\i2b2\Demographics\KUMC radius\"].
Proof. reflexivity. Qed.

(** C4: for keys given by their separator-free segments, of which the first
    three are the table-access prefix, [keys_to_paths] returns for each key
    the separator followed by the remaining segments joined in order with
    the separator; the empty sequence of keys gives the empty sequence. *)
Theorem keys_to_paths_strips_prefix (segss : list (list string)) :
  Forall (fun segs => 3 <= length segs) segss ->
  Forall (Forall (fun s => Py.contains I2B2MetaData.bs s = false)) segss ->
  I2B2MetaData.keys_to_paths
    (map (Py.join (String I2B2MetaData.bs "")) segss)
  = map (fun segs =>
           String I2B2MetaData.bs
                  (Py.join (String I2B2MetaData.bs "") (skipn 3 segs)))
        segss
  /\ I2B2MetaData.keys_to_paths [] = [].
Proof.
  intros Hlen Hfree. split; [|reflexivity].
  unfold I2B2MetaData.keys_to_paths. rewrite map_map.
  apply map_ext_in. intros segs Hin.
  rewrite List.Forall_forall in Hlen, Hfree.
  specialize (Hlen _ Hin). specialize (Hfree _ Hin).
  rewrite split_join; [reflexivity| |exact Hfree].
  destruct segs; [simpl in Hlen; lia|discriminate].
Qed.

Lemma keys_to_paths_strips_prefix_witness :
  I2B2MetaData.keys_to_paths
    (map (Py.join (String I2B2MetaData.bs ""))
         [[""; ""; "t1"; "a"; "b"; ""]])
  = ["\a\b\"]
  /\ I2B2MetaData.keys_to_paths [] = [].
Proof.
  apply (keys_to_paths_strips_prefix [[""; ""; "t1"; "a"; "b"; ""]]).
  - repeat constructor.
  - repeat constructor.
Defined.

(** ** Properties of the SQL primitives *)

Lemma in_join {A B : Type} (l : list A) (r : list B) on a b :
  In (a, b) (DataExtract.join l r on) <-> In a l /\ In b r /\ on a b = true.
Proof.
  unfold DataExtract.join. rewrite in_flat_map. split.
  - intros (a' & Ha & Hin). apply in_map_iff in Hin as (b' & Heq & Hb).
    inversion Heq; subst. apply filter_In in Hb as [Hb Hon]. auto.
  - intros (Ha & Hb & Hon). exists a. split; [exact Ha|].
    apply in_map_iff. exists b. split; [reflexivity|].
    apply filter_In. auto.
Qed.

Lemma in_remove_dups {A : Type} `{EqDecision A} (l : list A) x :
  In x (remove_dups l) <-> In x l.
Proof. rewrite <- !list_elem_of_In. apply elem_of_remove_dups. Qed.

Lemma fold_max_spec (l : list Z) (x : Z) :
  In (fold_left Z.max l x) (x :: l)
  /\ forall y, In y (x :: l) -> (y <= fold_left Z.max l x)%Z.
Proof.
  revert x. induction l as [|a l IH]; intros x; simpl.
  - split; [auto|]. intros y [<-|[]]. lia.
  - destruct (IH (Z.max x a)) as [Hin Hle]. split.
    + destruct Hin as [Heq|Hin]; [|auto].
      rewrite <- Heq. destruct (Z.max_spec x a) as [[_ ->]|[_ ->]]; auto.
    + intros y Hy.
      assert (Hm : (y <= Z.max x a)%Z \/ In y l).
      { destruct Hy as [<-|[<-|Hy]]; [left; lia|left; lia|right; exact Hy]. }
      destruct Hm as [Hm|Hm].
      * specialize (Hle (Z.max x a) (or_introl eq_refl)). lia.
      * apply Hle. right. exact Hm.
Qed.

Lemma max_of_spec (l : list Z) (m : Z) :
  Sql.max_of l = Some m <-> In m l /\ forall y, In y l -> (y <= m)%Z.
Proof.
  destruct l as [|x l]; unfold Sql.max_of.
  - split; [discriminate|intros [[] _]].
  - destruct (fold_max_spec l x) as [Hin Hle]. split.
    + intros [= <-]. auto.
    + intros [Hm Hmax]. f_equal.
      specialize (Hle m Hm). specialize (Hmax _ Hin). lia.
Qed.

Lemma in_group_by {R K : Type} `{EqDecision K} (key : R -> K) rows k g :
  In (k, g) (Sql.group_by key rows)
  <-> In k (map key rows)
      /\ g = List.filter (fun r => bool_decide (key r = k)) rows.
Proof.
  unfold Sql.group_by. rewrite in_map_iff. split.
  - intros (k' & Heq & Hin). inversion Heq; subst.
    apply (proj1 (in_remove_dups _ _)) in Hin.
    split; [exact Hin|reflexivity].
  - intros [Hin ->]. exists k. split; [reflexivity|].
    apply in_remove_dups. exact Hin.
Qed.

(** ** The selection of facts *)

Lemma in_sel (tmp : I2b2Star.table I2b2Star.param_row) (id : Z)
    (db : I2b2Star.cdw) (f : I2b2Star.fact_row) :
  In f (snd (DataExtract.patient_data_queries tmp) id db)
  <-> In f (I2b2Star.observation_fact db)
      /\ In (I2b2Star.f_concept_cd f) (I2b2Star.query_global_temp db)
      /\ Spec.member (I2b2Star.qt_patient_set_collection db) id
                     (I2b2Star.f_patient_num f).
Proof.
  unfold DataExtract.patient_data_queries, Spec.member; simpl.
  rewrite in_map_iff. split.
  - intros ([[f' c] pset] & <- & Hin).
    apply filter_In in Hin as [Hin Hid].
    apply in_join in Hin as (Hfc & Hp & Hon).
    apply in_join in Hfc as (Hf & Hc & Hcd).
    apply String.eqb_eq in Hcd. apply Z.eqb_eq in Hon, Hid. subst c.
    split; [exact Hf|]. split; [exact Hc|]. exists pset. auto.
  - intros (Hf & Hc & pset & Hp & Hpn & Hid).
    exists (f, I2b2Star.f_concept_cd f, pset). split; [reflexivity|].
    apply filter_In. split; [|apply Z.eqb_eq; exact Hid].
    apply in_join. split; [|split; [exact Hp|apply Z.eqb_eq; exact Hpn]].
    apply in_join. split; [exact Hf|]. split; [exact Hc|].
    apply String.eqb_refl.
Qed.

(** One fact row joined with the membership rows: as many copies as there
    are rows that put its patient into the set. *)
Lemma sel_one_code (id : Z) (P : list I2b2Star.pset_row)
    (f : I2b2Star.fact_row) (c : string) :
  map (fun '(f, _, _) => f)
      (List.filter
         (fun '(_, _, pset) =>
            (I2b2Star.pset_result_instance_id pset =? id)%Z)
         (map (fun b => ((f, c), b))
              (List.filter
                 (fun pset => (I2b2Star.pset_patient_num pset
                               =? I2b2Star.f_patient_num f)%Z) P)))
  = repeat f (Spec.member_count P id (I2b2Star.f_patient_num f)).
Proof.
  unfold Spec.member_count.
  induction P as [|p P IH]; [reflexivity|]. simpl.
  destruct (I2b2Star.pset_patient_num p =? I2b2Star.f_patient_num f)%Z;
    simpl; [|exact IH].
  destruct (I2b2Star.pset_result_instance_id p =? id)%Z; simpl;
    [f_equal|]; exact IH.
Qed.

Lemma sel_one_fact (id : Z) (P : list I2b2Star.pset_row)
    (f : I2b2Star.fact_row) (L : list string) :
  map (fun '(f, _, _) => f)
      (List.filter
         (fun '(_, _, pset) =>
            (I2b2Star.pset_result_instance_id pset =? id)%Z)
         (DataExtract.join (map (fun c => (f, c)) L) P
            (fun '(f, _) pset =>
               (I2b2Star.pset_patient_num pset
                =? I2b2Star.f_patient_num f)%Z)))
  = repeat f (length L * Spec.member_count P id (I2b2Star.f_patient_num f)).
Proof.
  induction L as [|c L IH]; [reflexivity|].
  unfold DataExtract.join in *. simpl.
  rewrite List.filter_app, map_app, IH, repeat_app.
  f_equal. apply sel_one_code.
Qed.

(** The selection as a bag: every fact row, once for each pair of a staged
    row with its code and a membership row with its patient. *)
Lemma sel_multiplicity (tmp : I2b2Star.table I2b2Star.param_row) (id : Z)
    (db : I2b2Star.cdw) :
  snd (DataExtract.patient_data_queries tmp) id db
  = flat_map
      (fun f =>
         repeat f
           (Spec.staged_code_count (I2b2Star.query_global_temp db)
                                   (I2b2Star.f_concept_cd f)
            * Spec.member_count (I2b2Star.qt_patient_set_collection db) id
                                (I2b2Star.f_patient_num f)))
      (I2b2Star.observation_fact db).
Proof.
  unfold DataExtract.patient_data_queries; simpl.
  generalize (I2b2Star.query_global_temp db) as C.
  generalize (I2b2Star.qt_patient_set_collection db) as P.
  generalize (I2b2Star.observation_fact db) as F.
  intros F P C. induction F as [|f F IH]; [reflexivity|].
  unfold DataExtract.join in *. simpl.
  rewrite flat_map_app, List.filter_app, map_app, IH.
  f_equal. apply sel_one_fact.
Qed.

Lemma count_existsb {A : Type} (p : A -> bool) (l : list A) :
  length (List.filter p l) <= 1 ->
  length (List.filter p l) = if existsb p l then 1 else 0.
Proof.
  induction l as [|a l IH]; simpl; [reflexivity|].
  destruct (p a); simpl; [|exact IH].
  intros Hle. destruct (existsb p l); lia.
Qed.

Lemma filter_absent (c : string) (l : list string) :
  ~ In c l -> List.filter (String.eqb c) l = [].
Proof.
  induction l as [|x l IH]; simpl; intros Hn; [reflexivity|].
  destruct (String.eqb_spec c x) as [->|_]; [tauto|].
  apply IH. tauto.
Qed.

Lemma distinct_code_count (codes : list string) (c : string) :
  List.NoDup codes -> Spec.staged_code_count codes c <= 1.
Proof.
  unfold Spec.staged_code_count.
  induction 1 as [|x l Hx _ IH]; simpl; [lia|].
  destruct (String.eqb_spec c x) as [->|_]; [|exact IH].
  rewrite filter_absent by exact Hx. simpl. lia.
Qed.

Lemma flat_map_if {A : Type} (p : A -> bool) (l : list A) :
  flat_map (fun x => if p x then [x] else []) l = List.filter p l.
Proof.
  induction l as [|a l IH]; simpl; [reflexivity|].
  rewrite IH. destruct (p a); reflexivity.
Qed.

(** C1: the selection of facts built by [patient_data_queries] returns a
    fact row exactly when the row is in the fact table, its code is in the
    table of staged codes and its patient is in the membership rows of the
    bound patient set; a set without members gives no row; and when the
    staged codes are distinct and no patient is twice in the set, the result
    is the fact table filtered by that condition, each row once and in
    order. *)
Theorem fact_selection_exact (tmp : I2b2Star.table I2b2Star.param_row)
    (id : Z) (db : I2b2Star.cdw) :
  (forall f,
      In f (snd (DataExtract.patient_data_queries tmp) id db)
      <-> In f (I2b2Star.observation_fact db)
          /\ In (I2b2Star.f_concept_cd f) (I2b2Star.query_global_temp db)
          /\ Spec.member (I2b2Star.qt_patient_set_collection db) id
                         (I2b2Star.f_patient_num f))
  /\ ((forall p, ~ Spec.member (I2b2Star.qt_patient_set_collection db) id p)
      -> snd (DataExtract.patient_data_queries tmp) id db = [])
  /\ (List.NoDup (I2b2Star.query_global_temp db) ->
      (forall p,
          Spec.member_count (I2b2Star.qt_patient_set_collection db) id p
          <= 1) ->
      snd (DataExtract.patient_data_queries tmp) id db
      = List.filter (Spec.selected db id) (I2b2Star.observation_fact db)).
Proof.
  split; [intros f; apply in_sel|]. split.
  - intros Hnone.
    destruct (snd (DataExtract.patient_data_queries tmp) id db)
      as [|f l] eqn:E; [reflexivity|].
    assert (Hin : In f (snd (DataExtract.patient_data_queries tmp) id db))
      by (rewrite E; left; reflexivity).
    apply in_sel in Hin as (_ & _ & Hm). destruct (Hnone _ Hm).
  - intros Hcodes Hmem. rewrite sel_multiplicity, <- flat_map_if.
    apply flat_map_ext. intros f. unfold Spec.selected.
    pose proof (distinct_code_count _ (I2b2Star.f_concept_cd f) Hcodes) as Hc.
    specialize (Hmem (I2b2Star.f_patient_num f)).
    unfold Spec.staged_code_count, Spec.member_count in *.
    rewrite (count_existsb _ _ Hc), (count_existsb _ _ Hmem).
    destruct (existsb _ (I2b2Star.query_global_temp db));
      destruct (existsb _ (I2b2Star.qt_patient_set_collection db));
      reflexivity.
Qed.

(** The staged codes are distinct after [patient_data] has staged them. *)
Lemma patient_data_codes_distinct (j : DataExtract.job) (db : I2b2Star.cdw) :
  List.NoDup (I2b2Star.query_global_temp (snd (DataExtract.patient_data j db))).
Proof.
  unfold DataExtract.patient_data; simpl.
  apply NoDup_ListNoDup, NoDup_remove_dups.
Qed.

(** ** Staging *)

(** C3: whatever the staging table held before, and also for an empty list
    of concepts, after [term_info] (and after [patient_data], which stages
    the same way) the staging table holds exactly the (path, display name)
    rows of this call. *)
Theorem staging_holds_current_rows (j : DataExtract.job) (db : I2b2Star.cdw) :
  I2b2Star.global_temp_fact_param_table (snd (DataExtract.term_info j db))
  = Spec.staged_rows (DataExtract.job_concepts j)
  /\ I2b2Star.global_temp_fact_param_table
       (snd (DataExtract.patient_data j db))
     = Spec.staged_rows (DataExtract.job_concepts j).
Proof.
  unfold DataExtract.term_info, DataExtract.patient_data,
    DataExtract._save_concepts, Spec.staged_rows.
  destruct (combine _ _) as [|[p n] l]; simpl; [split; reflexivity|].
  rewrite map_map.
  split; f_equal; apply map_ext; intros [p' n']; reflexivity.
Qed.

Example staging_empty_concepts (db : I2b2Star.cdw) :
  I2b2Star.global_temp_fact_param_table
    (snd (DataExtract.term_info
            {| DataExtract.user_id := "me"; DataExtract.label := "l";
               DataExtract.job_concepts :=
                 {| DataExtract.names := []; DataExtract.keys := [] |};
               DataExtract.patient_set := 123;
               DataExtract.filename := "job1" |} db)) = [].
Proof. reflexivity. Qed.

(** ** LIKE and the two term selections *)

Lemma like_percent_last eqc (escape : option ascii) (s : string) :
  escape <> Some "%"%char -> Sql.like_with eqc escape "%" s = true.
Proof.
  intros He. simpl. rewrite bool_decide_eq_false_2 by exact He. simpl.
  induction s as [|a s IH]; [reflexivity|]. simpl. exact IH.
Qed.

Lemma plain_cons (c : ascii) (p : string) :
  Spec.plain (String c p) = true ->
  Ascii.eqb c "%" = false /\ Ascii.eqb c "_" = false /\ Spec.plain p = true.
Proof.
  unfold Spec.plain. simpl. rewrite !negb_orb, !andb_true_iff, !negb_true_iff.
  tauto.
Qed.

(** Without wildcard and without escape character, LIKE is equality. *)
Lemma like_plain (p s : string) :
  Spec.plain p = true -> (Sql.like s p None = true <-> s = p).
Proof.
  unfold Sql.like. revert s.
  induction p as [|c p IH]; intros s Hp.
  - destruct s; simpl; split; congruence.
  - apply plain_cons in Hp as (Hpc & Hus & Hp). simpl.
    rewrite Hpc, Hus. destruct s as [|a s]; [split; discriminate|].
    rewrite andb_true_iff, Ascii.eqb_eq, (IH s Hp).
    split; [intros [-> ->]; reflexivity|intros [= -> ->]; auto].
Qed.

(** With the wildcard appended to a path without wildcard and without the
    escape character, LIKE is the prefix test. *)
Lemma like_prefix (escape : ascii) (p s : string) :
  Spec.plain p = true ->
  Py.contains escape p = false ->
  escape <> "%"%char ->
  Sql.like s (p +:+ "%") (Some escape) = String.prefix p s.
Proof.
  intros Hp He Hesc. unfold Sql.like. revert s Hp He.
  induction p as [|c p IH]; intros s Hp He.
  - rewrite like_percent_last by congruence. destruct s; reflexivity.
  - apply plain_cons in Hp as (Hpc & Hus & Hp).
    simpl in He. apply orb_false_iff in He as [Hce He].
    apply Ascii.eqb_neq in Hce.
    change (String c p +:+ "%") with (String c (p +:+ "%")).
    cbn [Sql.like_with].
    rewrite bool_decide_eq_false_2 by congruence.
    rewrite Hpc, Hus. destruct s as [|a s]; [reflexivity|].
    rewrite (IH s Hp He). simpl.
    destruct (Ascii.eqb_spec a c) as [->|Hne].
    + destruct (ascii_dec c c); [reflexivity|congruence].
    + destruct (ascii_dec c a); [congruence|reflexivity].
Qed.

Lemma in_term_query_md (tmp : I2b2Star.table I2b2Star.param_row)
    (escape : ascii) (db : I2b2Star.cdw) (r : DataExtract.term) :
  In r (fst (snd (DataExtract._term_query tmp escape)) db)
  <-> exists t md,
        In t (I2b2Star.rows tmp db)
        /\ In md (I2b2Star.modifier_dimension db)
        /\ Sql.like (I2b2Star.char_param1 t) (I2b2Star.md_modifier_path md)
                    None = true
        /\ r = Spec.modifier_term md.
Proof.
  simpl. rewrite in_remove_dups, in_map_iff. split.
  - intros ([t md] & <- & Hin). apply in_join in Hin as (Ht & Hmd & Hl).
    exists t, md. auto.
  - intros (t & md & Ht & Hmd & Hl & ->). exists (t, md).
    split; [reflexivity|]. apply in_join. auto.
Qed.

Lemma in_term_query_cd (tmp : I2b2Star.table I2b2Star.param_row)
    (escape : ascii) (db : I2b2Star.cdw) (r : DataExtract.term) :
  In r (fst (fst (DataExtract._term_query tmp escape)) db)
  <-> exists t cd,
        In t (I2b2Star.rows tmp db)
        /\ In cd (I2b2Star.concept_dimension db)
        /\ Sql.like (I2b2Star.cd_concept_path cd)
                    (I2b2Star.char_param1 t +:+ "%") (Some escape) = true
        /\ r = Spec.concept_term cd.
Proof.
  simpl. rewrite in_remove_dups, in_map_iff. split.
  - intros ([t cd] & <- & Hin). apply in_join in Hin as (Ht & Hcd & Hl).
    exists t, cd. auto.
  - intros (t & cd & Ht & Hcd & Hl & ->). exists (t, cd).
    split; [reflexivity|]. apply in_join. auto.
Qed.

(** C2, as the code has it: the modifier-dictionary selection holds, each
    once, the (path, code, label) rows of the modifier dictionary whose path,
    read as a LIKE pattern with nothing appended and no escape character,
    matches a staged path; a modifier path without wildcard so selects the
    staged paths equal to it.  The direction is the reverse of the
    concept-dictionary selection, where the dictionary path is matched
    against the staged path followed by the wildcard. *)
Theorem modifier_query_is_like (tmp : I2b2Star.table I2b2Star.param_row)
    (escape : ascii) (db : I2b2Star.cdw) :
  (forall r,
      In r (fst (snd (DataExtract._term_query tmp escape)) db)
      <-> exists t md,
            In t (I2b2Star.rows tmp db)
            /\ In md (I2b2Star.modifier_dimension db)
            /\ Sql.like (I2b2Star.char_param1 t)
                        (I2b2Star.md_modifier_path md) None = true
            /\ r = Spec.modifier_term md)
  /\ List.NoDup (fst (snd (DataExtract._term_query tmp escape)) db)
  /\ (forall t md,
         Spec.plain (I2b2Star.md_modifier_path md) = true ->
         (Sql.like (I2b2Star.char_param1 t) (I2b2Star.md_modifier_path md)
                   None = true
          <-> I2b2Star.char_param1 t = I2b2Star.md_modifier_path md))
  /\ (forall r,
         In r (fst (fst (DataExtract._term_query tmp escape)) db)
         <-> exists t cd,
               In t (I2b2Star.rows tmp db)
               /\ In cd (I2b2Star.concept_dimension db)
               /\ Sql.like (I2b2Star.cd_concept_path cd)
                           (I2b2Star.char_param1 t +:+ "%")
                           (Some escape) = true
               /\ r = Spec.concept_term cd).
Proof.
  split; [intros r; apply in_term_query_md|].
  split; [apply NoDup_ListNoDup, NoDup_remove_dups|].
  split; [intros t md Hp; apply like_plain, Hp|].
  intros r; apply in_term_query_cd.
Qed.

(** C2 as stated fails: the staged path [\a\b\] begins with the modifier
    path [\a\], and the selection does not hold the modifier's row. *)
Lemma modifier_query_not_prefix :
  ~ (In ("\a\", "M", "m")
        (fst (snd (DataExtract._term_query
                     I2b2Star.t_global_temp_fact_param_table
                     DataExtract.escape_default))
           Sample.modifier_above)
     <-> exists t md,
           In t (I2b2Star.rows I2b2Star.t_global_temp_fact_param_table
                   Sample.modifier_above)
           /\ In md (I2b2Star.modifier_dimension Sample.modifier_above)
           /\ String.prefix (I2b2Star.md_modifier_path md)
                            (I2b2Star.char_param1 t) = true
           /\ ("\a\", "M", "m") = Spec.modifier_term md).
Proof.
  intros [_ H].
  assert (Hin : In ("\a\", "M", "m")
                   (fst (snd (DataExtract._term_query
                                I2b2Star.t_global_temp_fact_param_table
                                DataExtract.escape_default))
                      Sample.modifier_above)).
  { apply H.
    exists {| I2b2Star.char_param1 := "\a\b\";
              I2b2Star.char_param2 := "n" |},
           {| I2b2Star.md_modifier_path := "\a\";
              I2b2Star.md_modifier_cd := "M";
              I2b2Star.md_name_char := "m" |}.
    repeat split; left; reflexivity. }
  vm_compute in Hin. exact Hin.
Qed.

(** ** The visit selected for a patient *)

Section Visits.
Import I2b2Star.
Variables (id : Z) (db : cdw).

Lemma in_last_rows (v : visit_row) :
  In v (map (fun '(vd, _, _) => vd)
          (List.filter
             (fun '(_, _, pset) => (pset_result_instance_id pset =? id)%Z)
             (DataExtract.join
                (DataExtract.join (visit_dimension db) (patient_dimension db)
                   (fun vd pd => (pd_patient_num pd =? vd_patient_num vd)%Z))
                (qt_patient_set_collection db)
                (fun '(_, pd) pset =>
                   (pset_patient_num pset =? pd_patient_num pd)%Z))))
  <-> In v (visit_dimension db)
      /\ Spec.patient_in_set db id (vd_patient_num v).
Proof.
  unfold Spec.patient_in_set, Spec.member. rewrite in_map_iff. split.
  - intros ([[v' pd] m] & <- & Hin).
    apply filter_In in Hin as [Hin Hid].
    apply in_join in Hin as (Hvp & Hm & Hon).
    apply in_join in Hvp as (Hv & Hpd & Hpv).
    apply Z.eqb_eq in Hid, Hon, Hpv.
    split; [exact Hv|]. split; [exists pd; auto|].
    exists m. split; [exact Hm|]. split; [congruence|exact Hid].
  - intros (Hv & (pd & Hpd & Hpv) & m & Hm & Hmp & Hid).
    exists (v, pd, m). split; [reflexivity|].
    apply filter_In. split; [|apply Z.eqb_eq; exact Hid].
    apply in_join. split; [|split; [exact Hm|apply Z.eqb_eq; congruence]].
    apply in_join. split; [exact Hv|]. split; [exact Hpd|].
    apply Z.eqb_eq. exact Hpv.
Qed.

(** [last]: for a patient of the set that has a visit, the greatest start
    time of the patient's visits. *)
Lemma in_last (p t : Z) :
  In (p, t) (DataExtract.last id db)
  <-> Spec.patient_in_set db id p
      /\ (exists v, In v (visit_dimension db)
                    /\ vd_patient_num v = p /\ vd_start_date v = t)
      /\ (forall w, In w (visit_dimension db) -> vd_patient_num w = p ->
                    (vd_start_date w <= t)%Z).
Proof.
  unfold DataExtract.last. rewrite in_flat_map. split.
  - intros ([k g] & Hg & Hin).
    apply in_group_by in Hg as [Hk ->].
    destruct (Sql.max_of _) as [m|] eqn:Hmax; [|destruct Hin].
    destruct Hin as [[= -> ->]|[]].
    apply max_of_spec in Hmax as [Hm Hle].
    apply in_map_iff in Hm as (v & Hvt & Hv).
    apply filter_In in Hv as [Hv Hvk].
    apply bool_decide_eq_true in Hvk.
    apply in_last_rows in Hv as [Hv Hset]. rewrite Hvk in Hset.
    split; [exact Hset|]. split; [exists v; auto|].
    intros w Hw Hwp. apply Hle. apply in_map. apply filter_In.
    split; [|apply bool_decide_eq_true; exact Hwp].
    apply in_last_rows. rewrite Hwp. auto.
  - intros (Hset & (v & Hv & Hvp & Hvt) & Hle).
    eexists (p, _). split.
    + apply in_group_by. split; [|reflexivity].
      apply in_map_iff. exists v. split; [exact Hvp|].
      apply in_last_rows. rewrite Hvp. auto.
    + assert (Hmax : Sql.max_of
                (map vd_start_date
                   (List.filter
                      (fun r => bool_decide (vd_patient_num r = p))
                      (map (fun '(vd, _, _) => vd)
                         (List.filter
                            (fun '(_, _, pset) =>
                               (pset_result_instance_id pset =? id)%Z)
                            (DataExtract.join
                               (DataExtract.join (visit_dimension db)
                                  (patient_dimension db)
                                  (fun vd pd =>
                                     (pd_patient_num pd
                                      =? vd_patient_num vd)%Z))
                               (qt_patient_set_collection db)
                               (fun '(_, pd) pset =>
                                  (pset_patient_num pset
                                   =? pd_patient_num pd)%Z))))))
              = Some t).
      { apply max_of_spec. split.
        - apply in_map_iff. exists v. split; [exact Hvt|].
          apply filter_In.
          split; [|apply bool_decide_eq_true; exact Hvp].
          apply in_last_rows. rewrite Hvp. auto.
        - intros y Hy. apply in_map_iff in Hy as (w & <- & Hw).
          apply filter_In in Hw as [Hw Hwp].
          apply bool_decide_eq_true in Hwp.
          apply in_last_rows in Hw as [Hw _]. auto. }
      rewrite Hmax. left. reflexivity.
Qed.

Lemma last_unique (p t t' : Z) :
  In (p, t) (DataExtract.last id db) -> In (p, t') (DataExtract.last id db) ->
  t = t'.
Proof.
  intros H H'. apply in_last in H as (_ & (v & Hv & Hvp & Hvt) & Hle).
  apply in_last in H' as (_ & (v' & Hv' & Hvp' & Hvt') & Hle').
  specialize (Hle _ Hv' Hvp'). specialize (Hle' _ Hv Hvp). lia.
Qed.

Lemma in_arb_rows (v : visit_row) :
  In v (map fst
          (DataExtract.join (visit_dimension db) (DataExtract.last id db)
             (fun vd l => (vd_patient_num vd =? fst l)%Z
                          && (vd_start_date vd =? snd l)%Z)))
  <-> In v (visit_dimension db)
      /\ In (vd_patient_num v, vd_start_date v) (DataExtract.last id db).
Proof.
  rewrite in_map_iff. split.
  - intros ([v' [p t]] & <- & Hin). apply in_join in Hin as (Hv & Hl & Hon).
    simpl in *. apply andb_true_iff in Hon as [Hp Ht].
    apply Z.eqb_eq in Hp, Ht. subst. auto.
  - intros [Hv Hl]. exists (v, (vd_patient_num v, vd_start_date v)).
    split; [reflexivity|]. apply in_join. split; [exact Hv|].
    split; [exact Hl|]. simpl. rewrite !Z.eqb_refl. reflexivity.
Qed.

(** [arb_visit]: among the visits of the patient at that greatest start
    time, the greatest encounter number. *)
Lemma in_arb_visit (e p : Z) :
  In (e, p) (DataExtract.arb_visit id db)
  <-> exists t,
        In (p, t) (DataExtract.last id db)
        /\ (exists v, In v (visit_dimension db) /\ vd_patient_num v = p
                      /\ vd_start_date v = t /\ vd_encounter_num v = e)
        /\ (forall w, In w (visit_dimension db) -> vd_patient_num w = p ->
                      vd_start_date w = t ->
                      (vd_encounter_num w <= e)%Z).
Proof.
  unfold DataExtract.arb_visit. rewrite in_flat_map. split.
  - intros ([k g] & Hg & Hin).
    apply in_group_by in Hg as [Hk ->].
    destruct (Sql.max_of _) as [m|] eqn:Hmax; [|destruct Hin].
    destruct Hin as [[= -> ->]|[]].
    apply max_of_spec in Hmax as [Hm Hle].
    apply in_map_iff in Hm as (v & Hve & Hv).
    apply filter_In in Hv as [Hv Hvk].
    apply bool_decide_eq_true in Hvk.
    apply in_arb_rows in Hv as [Hv Hl]. rewrite Hvk in Hl.
    exists (vd_start_date v). split; [exact Hl|].
    split; [exists v; auto|].
    intros w Hw Hwp Hwt. apply Hle. apply in_map. apply filter_In.
    split; [|apply bool_decide_eq_true; exact Hwp].
    apply in_arb_rows. rewrite Hwp, Hwt. auto.
  - intros (t & Hl & (v & Hv & Hvp & Hvt & Hve) & Hle).
    assert (Hvrow : In v (map fst
              (DataExtract.join (visit_dimension db) (DataExtract.last id db)
                 (fun vd l => (vd_patient_num vd =? fst l)%Z
                              && (vd_start_date vd =? snd l)%Z)))).
    { apply in_arb_rows. rewrite Hvp, Hvt. auto. }
    eexists (p, _). split.
    + apply in_group_by. split; [|reflexivity].
      apply in_map_iff. exists v. auto.
    + assert (Hmax : Sql.max_of
                (map vd_encounter_num
                   (List.filter
                      (fun r => bool_decide (vd_patient_num r = p))
                      (map fst
                         (DataExtract.join (visit_dimension db)
                            (DataExtract.last id db)
                            (fun vd l => (vd_patient_num vd =? fst l)%Z
                                         && (vd_start_date vd =? snd l)%Z)))))
              = Some e).
      { apply max_of_spec. split.
        - apply in_map_iff. exists v. split; [exact Hve|].
          apply filter_In.
          split; [exact Hvrow|apply bool_decide_eq_true; exact Hvp].
        - intros y Hy. apply in_map_iff in Hy as (w & <- & Hw).
          apply filter_In in Hw as [Hw Hwp].
          apply bool_decide_eq_true in Hwp.
          apply in_arb_rows in Hw as [Hw Hwl]. rewrite Hwp in Hwl.
          apply Hle; [exact Hw|exact Hwp|].
          exact (last_unique _ _ _ Hwl Hl). }
      rewrite Hmax. left. reflexivity.
Qed.

Lemma in_enc_q (v : visit_row) :
  In v (snd DataExtract.patients_query id db)
  <-> In v (visit_dimension db)
      /\ exists p, In (vd_encounter_num v, p) (DataExtract.arb_visit id db).
Proof.
  simpl. rewrite in_map_iff. split.
  - intros ([v' [e p]] & <- & Hin). apply in_join in Hin as (Hv & Ha & Hon).
    simpl in *. apply Z.eqb_eq in Hon. subst. eauto.
  - intros [Hv [p Ha]]. exists (v, (vd_encounter_num v, p)).
    split; [reflexivity|]. apply in_join. split; [exact Hv|].
    split; [exact Ha|]. simpl. apply Z.eqb_refl.
Qed.

End Visits.

Lemma map_injective_on {A B : Type} (f : A -> B) (l : list A) (x y : A) :
  List.NoDup (map f l) -> In x l -> In y l -> f x = f y -> x = y.
Proof.
  induction l as [|a l IH]; simpl; intros Hnd Hx Hy Hf; [destruct Hx|].
  inversion Hnd as [|? ? Ha Hl]; subst.
  destruct Hx as [->|Hx], Hy as [->|Hy]; [reflexivity| | |auto].
  - destruct Ha. rewrite Hf. apply in_map, Hy.
  - destruct Ha. rewrite <- Hf. apply in_map, Hx.
Qed.

(** C5: for a patient that has a patient-dimension row and is a member of
    the patient set, [v] a visit of the patient with the greatest start time
    among the patient's visits and, among those at that start time, the
    greatest encounter number: the encounter selection returns [v]; and when
    encounter numbers identify visits, [v] is the only visit it returns for
    the patient. *)
Theorem latest_visit_selected (id : Z) (db : I2b2Star.cdw) (p : Z)
    (v : I2b2Star.visit_row) :
  Spec.patient_in_set db id p ->
  In v (I2b2Star.visit_dimension db) ->
  I2b2Star.vd_patient_num v = p ->
  (forall w, In w (I2b2Star.visit_dimension db) ->
             I2b2Star.vd_patient_num w = p ->
             (I2b2Star.vd_start_date w <= I2b2Star.vd_start_date v)%Z) ->
  (forall w, In w (I2b2Star.visit_dimension db) ->
             I2b2Star.vd_patient_num w = p ->
             I2b2Star.vd_start_date w = I2b2Star.vd_start_date v ->
             (I2b2Star.vd_encounter_num w <= I2b2Star.vd_encounter_num v)%Z) ->
  In v (snd DataExtract.patients_query id db)
  /\ (List.NoDup (map I2b2Star.vd_encounter_num (I2b2Star.visit_dimension db))
      -> forall v', In v' (snd DataExtract.patients_query id db) ->
                    I2b2Star.vd_patient_num v' = p -> v' = v).
Proof.
  intros Hset Hv Hvp Hlatest Hgreatest.
  assert (Hlast : In (p, I2b2Star.vd_start_date v) (DataExtract.last id db)).
  { apply in_last. split; [exact Hset|]. split; [exists v; auto|].
    exact Hlatest. }
  split.
  - apply in_enc_q. split; [exact Hv|]. exists p.
    apply in_arb_visit. exists (I2b2Star.vd_start_date v).
    split; [exact Hlast|]. split; [exists v; auto|]. exact Hgreatest.
  - intros Hnd v' Hv' Hvp'.
    apply in_enc_q in Hv' as [Hv' [q Ha]].
    apply in_arb_visit in Ha as (t & Hl & (u & Hu & Huq & Hut & Hue) & Hle).
    assert (u = v') by (eapply map_injective_on; eauto). subst u.
    assert (Hq : q = p) by congruence. rewrite Hq in Hl, Hle.
    assert (Ht : t = I2b2Star.vd_start_date v)
      by exact (last_unique _ _ _ _ _ Hl Hlast).
    rewrite Ht in Hut, Hle.
    apply (map_injective_on I2b2Star.vd_encounter_num
             (I2b2Star.visit_dimension db)); auto.
    specialize (Hle v Hv Hvp eq_refl).
    specialize (Hgreatest v' Hv' Hvp' Hut). lia.
Qed.

(** ** strip_counts *)

Lemma match_needs_start (s : string) :
  Spec.starts_count s = false -> Re.match_here strip_counts_pattern s = None.
Proof.
  destruct s as [|a [|b [|d s]]]; simpl; unfold Re.chr; intros H;
    try reflexivity.
  - destruct (Ascii.eqb a " "); reflexivity.
  - destruct (Ascii.eqb a " "); [|reflexivity].
    destruct (Ascii.eqb b "["); reflexivity.
  - destruct (Ascii.eqb a " "); [|reflexivity].
    destruct (Ascii.eqb b "["); [|reflexivity].
    simpl in H. rewrite H. reflexivity.
Qed.

Lemma sub_from_empty (n : nat) (p : Re.pattern) (repl : string) :
  Re.sub_from n p repl "" = "".
Proof. destruct n; reflexivity. Qed.

Lemma sub_from_no_count (n : nat) (s : string) :
  Spec.has_count s = false -> Re.sub_from n strip_counts_pattern "" s = s.
Proof.
  revert s. induction n as [|n IH]; intros s H; [reflexivity|].
  destruct s as [|a s]; [reflexivity|].
  cbn [Spec.has_count] in H. apply orb_false_iff in H as [Hs Hc].
  cbn [Re.sub_from]. rewrite (match_needs_start _ Hs), (IH _ Hc).
  reflexivity.
Qed.

Lemma dot_star_to_bracket (r : string) :
  Py.contains "010" r = false ->
  Re.star_loop Re.dot (Re.match_here [(Re.chr "]", Re.One)]) (r +:+ "]")
  = Some "".
Proof.
  induction r as [|a r IH]; intros H; [reflexivity|].
  simpl in H. apply orb_false_iff in H as [Ha Hr].
  change (String a r +:+ "]") with (String a (r +:+ "]")).
  cbn [Re.star_loop]. unfold Re.dot at 1. rewrite Ha. cbn [negb].
  rewrite (IH Hr). reflexivity.
Qed.

Lemma digits_to_bracket (r : string) :
  Py.contains "010" r = false ->
  Re.star_loop Re.digit
    (Re.match_here [(Re.dot, Re.Star); (Re.chr "]", Re.One)]) (r +:+ "]")
  = Some "".
Proof.
  induction r as [|a r IH]; intros H; [reflexivity|].
  pose proof H as H'. simpl in H'. apply orb_false_iff in H' as [_ Hr].
  change (String a r +:+ "]") with (String a (r +:+ "]")).
  cbn [Re.star_loop]. rewrite (IH Hr).
  destruct (Re.digit a); [reflexivity|].
  cbn [Re.match_here].
  exact (dot_star_to_bracket (String a r) H).
Qed.

Lemma match_count (d : ascii) (r : string) :
  Re.digit d = true -> Py.contains "010" r = false ->
  Re.match_here strip_counts_pattern (" [" +:+ String d r +:+ "]") = Some "".
Proof.
  intros Hd Hr. simpl. rewrite Hd. apply digits_to_bracket, Hr.
Qed.

Lemma starts_count_before_space (a : ascii) (b X : string) :
  Spec.starts_count (String a (b +:+ String " " X))
  = Spec.starts_count (String a b) .
Proof.
  destruct b as [|c [|e b]]; simpl.
  - destruct X; [reflexivity|]. rewrite andb_false_r. reflexivity.
  - rewrite andb_false_r. reflexivity.
  - reflexivity.
Qed.

Lemma sub_from_count_suffix (base : string) (d : ascii) (r : string)
    (n : nat) :
  Spec.has_count base = false ->
  Re.digit d = true -> Py.contains "010" r = false ->
  String.length (base +:+ " [" +:+ String d r +:+ "]") <= n ->
  Re.sub_from n strip_counts_pattern ""
    (base +:+ " [" +:+ String d r +:+ "]") = base.
Proof.
  intros Hb Hd Hr. revert n Hb.
  induction base as [|a base IH]; intros n Hb Hn.
  - destruct n as [|n]; [simpl in Hn; lia|].
    change ("" +:+ " [" +:+ String d r +:+ "]")
      with (String " " ("[" +:+ String d r +:+ "]")).
    cbn [Re.sub_from].
    change (String " " ("[" +:+ String d r +:+ "]"))
      with (" [" +:+ String d r +:+ "]").
    rewrite (match_count d r Hd Hr). simpl.
    apply sub_from_empty.
  - destruct n as [|n]; [simpl in Hn; lia|].
    cbn [Spec.has_count] in Hb. apply orb_false_iff in Hb as [Hs Hc].
    change (String a base +:+ " [" +:+ String d r +:+ "]")
      with (String a (base +:+ String " " ("[" +:+ String d r +:+ "]"))).
    cbn [Re.sub_from].
    rewrite match_needs_start
      by (rewrite starts_count_before_space; exact Hs).
    f_equal. apply IH; [exact Hc|]. simpl in Hn. simpl. lia.
Qed.

(** C9, as the code has it: [strip_counts] removes what matches a space,
    an opening bracket, digits and the rest of the line up to its last
    closing bracket.  So "broken toe [200 facts]" gives "broken toe"; a
    label made of a base in which no " [" is followed by a digit, then
    " [", a digit, text without line feed and "]" gives the base; and a
    label in which no " [" is followed by a digit is returned unchanged. *)
Theorem strip_counts_removes_counts :
  strip_counts "broken toe [200 facts]" = "broken toe"
  /\ (forall base d r,
         Spec.has_count base = false ->
         Re.digit d = true ->
         Py.contains "010" r = false ->
         strip_counts (base +:+ " [" +:+ String d r +:+ "]") = base)
  /\ (forall txt, Spec.has_count txt = false -> strip_counts txt = txt).
Proof.
  split; [reflexivity|]. split.
  - intros base d r Hb Hd Hr. unfold strip_counts, Re.sub.
    apply sub_from_count_suffix; auto.
  - intros txt H. apply sub_from_no_count, H.
Qed.

(** C9 as stated fails: "a [1] b" has no bracketed suffix and is not
    returned unchanged. *)
Lemma strip_counts_changes_inner_count :
  ~ (Spec.bracketed_suffix "a [1] b" = false ->
     strip_counts "a [1] b" = "a [1] b").
Proof.
  intros H. specialize (H eq_refl). vm_compute in H. discriminate H.
Qed.

Example strip_counts_inner_count : strip_counts "a [1] b" = "a b".
Proof. reflexivity. Qed.

Example strip_counts_two_counts :
  strip_counts "x [1] y [2 facts]" = "x".
Proof. reflexivity. Qed.

(** ** The completion mail *)

(** C10: whatever the user name and the mail configuration, every mail
    [send_completion_mail] hands to the SMTP capability goes to exactly
    ["bos@uthscsa.edu"], the address that replaces the one made of the user
    name and the configured domain; and with a configuration that gives the
    domain and the sender, one such mail is handed over. *)
Theorem completion_mail_recipient (smtp : Mail.smtp)
    (email_config : Mail.email_config) (username : string)
    (gethostname : unit -> string) (filename home_dirs summary : string)
    (outbox : list Mail.mail) :
  (forall outbox',
      Mail.send_completion_mail smtp email_config username gethostname
        filename home_dirs summary outbox = Ok outbox' ->
      exists new,
        outbox' = outbox ++ new
        /\ Forall (fun m => Mail.mail_to m = ["bos@uthscsa.edu"]) new)
  /\ (forall domain sender,
         Mail.cfg_exists email_config = true ->
         Mail.cfg_get email_config "user_domain" = Ok domain ->
         Mail.cfg_get email_config "sender" = Ok sender ->
         exists m,
           Mail.send_completion_mail smtp email_config username gethostname
             filename home_dirs summary outbox = Ok (outbox ++ [m])
           /\ Mail.mail_to m = ["bos@uthscsa.edu"]
           /\ Mail.mail_from m = sender).
Proof.
  unfold Mail.send_completion_mail, Mail.sendEmail, Mail.sendmail. split.
  - intros outbox' H.
    destruct (Mail.cfg_exists email_config).
    + destruct (Mail.cfg_get email_config "user_domain") as [domain|ex];
        [|discriminate H].
      simpl in H.
      destruct (Mail.cfg_get email_config "sender") as [sender|ex];
        [|discriminate H].
      simpl in H. eexists [_].
      destruct (Mail.accepts smtp _); injection H as <-;
        (split; [reflexivity|repeat constructor]).
    + injection H as <-. exists []. rewrite app_nil_r. auto.
  - intros domain sender -> -> Hs. simpl. rewrite Hs. simpl.
    eexists. split; [destruct (Mail.accepts smtp _); reflexivity|].
    split; reflexivity.
Qed.

Lemma completion_mail_recipient_witness :
  exists m,
    Mail.send_completion_mail Sample.smtp_ok Sample.email_kumc "somebody"
      (fun _ => "mock_host") "data.db" "/home" "some summary" []
    = Ok ([] ++ [m])
    /\ Mail.mail_to m = ["bos@uthscsa.edu"]
    /\ Mail.mail_from m = "nobody@kumc.edu".
Proof.
  apply (proj2 (completion_mail_recipient Sample.smtp_ok Sample.email_kumc
                  "somebody" (fun _ => "mock_host") "data.db" "/home"
                  "some summary" [])
           "kumc.edu" "nobody@kumc.edu"); reflexivity.
Defined.

(** ** The destination database *)

Lemma bind_ok {A B : Type} (m : result A) (f : A -> result B) (b : B) :
  m ≫= f = Ok b -> exists a, m = Ok a /\ f a = Ok b.
Proof. destruct m as [a|ex]; [eauto|discriminate]. Qed.

Lemma taken_iff (name : string) (d : DestDb.db) :
  bool_decide (name ∈ dom (DestDb.tables d)) = true
  <-> Spec.has_table name d.
Proof.
  unfold Spec.has_table. rewrite bool_decide_eq_true. apply elem_of_dom.
Qed.

Lemma create_taken (name : string) (d : DestDb.db) :
  Spec.has_table name d ->
  DestDb.create name d = Raise (DestDb.already_exists name).
Proof.
  intros H. unfold DestDb.create.
  rewrite (proj2 (taken_iff name d) H). reflexivity.
Qed.

Lemma create_ok (name : string) (d d' : DestDb.db) :
  DestDb.create name d = Ok d' ->
  DestDb.tables d' = <[name := []]> (DestDb.tables d)
  /\ DestDb.views d' = DestDb.views d
  /\ ~ Spec.has_table name d.
Proof.
  unfold DestDb.create.
  destruct (bool_decide (name ∈ dom (DestDb.tables d))) eqn:E;
    [discriminate|].
  destruct (bool_decide (name ∈ DestDb.views d)); [discriminate|].
  intros [= <-]. split; [reflexivity|]. split; [reflexivity|].
  intros H. apply taken_iff in H. congruence.
Qed.

Lemma insert_ok (name : string) (new : list DestDb.row) (d d' : DestDb.db) :
  DestDb.insert name new d = Ok d' ->
  exists old, DestDb.tables d !! name = Some old
              /\ DestDb.tables d'
                 = <[name := old ++ DestDb.inserted new]> (DestDb.tables d)
              /\ DestDb.views d' = DestDb.views d.
Proof.
  unfold DestDb.insert. destruct (DestDb.tables d !! name) as [old|];
    [|discriminate].
  intros [= <-]. eauto.
Qed.

Lemma bind_integer_ok (z z' : Z) :
  DestDb.bind_integer z = Ok z' -> z' = z /\ DestDb.int64 z = true.
Proof.
  unfold DestDb.bind_integer. destruct (DestDb.int64 z); [|discriminate].
  intros [= <-]. auto.
Qed.

Lemma delete_from_ok (name : string) (d d' : DestDb.db) :
  DestDb.delete_from name d = Ok d' ->
  DestDb.tables d' = <[name := []]> (DestDb.tables d)
  /\ DestDb.views d' = DestDb.views d.
Proof.
  unfold DestDb.delete_from. destruct (DestDb.tables d !! name);
    [|discriminate].
  intros [= <-]. auto.
Qed.

Lemma has_table_insert (name n : string) (l : list DestDb.row)
    (d d' : DestDb.db) :
  DestDb.tables d' = <[n := l]> (DestDb.tables d) ->
  Spec.has_table name d -> Spec.has_table name d'.
Proof.
  unfold Spec.has_table. intros -> H.
  destruct (decide (n = name)) as [->|Hne].
  - rewrite lookup_insert_eq. eauto.
  - rewrite lookup_insert_ne by exact Hne. exact H.
Qed.

Lemma has_table_drop_all (name : string) (names : list string)
    (d : DestDb.db) :
  ~ In name names -> Spec.has_table name d ->
  Spec.has_table name (DestDb.drop_all names d).
Proof.
  unfold DestDb.drop_all. revert d.
  induction names as [|n names IH]; intros d Hn H; [exact H|].
  simpl. apply IH; [intros Hin; apply Hn; right; exact Hin|].
  unfold Spec.has_table, DestDb.drop_checkfirst. simpl.
  rewrite lookup_delete_ne; [exact H|]. intros ->. apply Hn. left.
  reflexivity.
Qed.

Lemma has_table_create_all (name : string) (names : list string)
    (d : DestDb.db) :
  Spec.has_table name d -> Spec.has_table name (DestDb.create_all names d).
Proof.
  unfold DestDb.create_all. revert d.
  induction names as [|n names IH]; intros d H; [exact H|].
  simpl. apply IH. destruct (DestDb.tables d !! n); [exact H|].
  eapply has_table_insert; [reflexivity|exact H].
Qed.

(** The copy in batches: the cursor is left exhausted, the table has
    received its rows in order, and nothing else has changed. *)
Lemma copy_loop_ok {R : Type} (inj : R -> DestDb.row) (t : string)
    (batch fuel : nat) (data : list R) (d d' : DestDb.db) (c' : list R) :
  0 < batch -> length data < fuel ->
  TableCopy.copy_loop fuel batch inj d data t = Ok (d', c') ->
  c' = []
  /\ DestDb.rows_of t d' = DestDb.rows_of t d ++ map inj data
  /\ (forall n, n <> t -> DestDb.tables d' !! n = DestDb.tables d !! n)
  /\ (forall n, Spec.has_table n d -> Spec.has_table n d')
  /\ DestDb.views d' = DestDb.views d.
Proof.
  intros Hb. revert data d.
  induction fuel as [|fuel IH]; intros data d Hlen H; [lia|].
  destruct data as [|x data].
  - destruct batch; simpl in H; injection H as <- <-;
      rewrite app_nil_r; auto.
  - destruct batch as [|b]; [lia|]. simpl in H.
    apply bind_ok in H as (d1 & Hins & H).
    apply insert_ok in Hins as (old & Hold & Ht & Hv).
    apply IH in H as (-> & Hrows & Hother & Hhas & Hviews).
    2:{ simpl in Hlen. rewrite length_skipn. lia. }
    split; [reflexivity|]. split; [|split; [|split]].
    + rewrite Hrows. unfold DestDb.rows_of. rewrite Ht, Hold.
      rewrite lookup_insert_eq. simpl. rewrite <- app_assoc. f_equal.
      simpl. f_equal. rewrite <- map_app, firstn_skipn. reflexivity.
    + intros n Hn. rewrite (Hother n Hn), Ht.
      apply lookup_insert_ne. congruence.
    + intros n Hn. apply Hhas. eapply has_table_insert; eauto.
    + congruence.
Qed.

Lemma copy_in_chunks_ok {R : Type} (inj : R -> DestDb.row) (t : string)
    (chunk_size : positive) (data : list R) (d d' : DestDb.db)
    (c' : list R) :
  TableCopy.copy_in_chunks chunk_size inj d data t = Ok (d', c') ->
  c' = []
  /\ DestDb.rows_of t d' = DestDb.rows_of t d ++ map inj data
  /\ (forall n, n <> t -> DestDb.tables d' !! n = DestDb.tables d !! n)
  /\ (forall n, Spec.has_table n d -> Spec.has_table n d')
  /\ DestDb.views d' = DestDb.views d.
Proof.
  unfold TableCopy.copy_in_chunks. apply copy_loop_ok; lia.
Qed.

(** ** The export *)

Section ExportSteps.
Variable create_unpacked_view : DestDb.db -> string -> result DestDb.db.
Variable chunk_size : positive.
Variable json_dumps_concepts : DataExtract.concepts -> string.

(** The view maker makes views: it leaves the tables as they are. *)
Hypothesis views_only : forall d t d',
  create_unpacked_view d t = Ok d' -> DestDb.tables d' = DestDb.tables d.

Lemma for_each_views_tables (names : list string) (d d' : DestDb.db) :
  DataDest.for_each create_unpacked_view names d = Ok d' ->
  DestDb.tables d' = DestDb.tables d.
Proof.
  revert d. induction names as [|n names IH]; intros d H.
  - injection H as <-. reflexivity.
  - simpl in H. apply bind_ok in H as (d1 & H1 & H).
    rewrite (IH _ H). apply (views_only _ _ _ H1).
Qed.

Lemma init_tables_keeps (name : string) (job : DataExtract.job)
    (d d' : DestDb.db) (dest_star : list string) :
  ~ In name DataExtract.data_tables ->
  DataDest.init_tables create_unpacked_view job d = Ok (dest_star, d') ->
  Spec.has_table name d -> Spec.has_table name d'.
Proof.
  unfold DataDest.init_tables. intros Hn H Hd.
  apply bind_ok in H as (d1 & H1 & H). injection H as _ <-.
  unfold Spec.has_table. rewrite (for_each_views_tables _ _ _ H1).
  apply has_table_create_all, has_table_drop_all; assumption.
Qed.

Lemma export_job_keeps (name : string) (dest_star : list string)
    (job : DataExtract.job) (d d' : DestDb.db) :
  name <> DataDest.job_table ->
  DataDest.export_job json_dumps_concepts dest_star job d = Ok d' ->
  Spec.has_table name d -> Spec.has_table name d'.
Proof.
  unfold DataDest.export_job. intros Hn H Hd.
  apply bind_ok in H as (d1 & H1 & H).
  apply create_ok in H1 as (Ht1 & _ & _).
  apply bind_ok in H as (pset & _ & H).
  apply insert_ok in H as (old & _ & Ht & _).
  eapply has_table_insert; [exact Ht|].
  eapply has_table_insert; [exact Ht1|].
  unfold Spec.has_table, DestDb.drop_checkfirst. simpl.
  rewrite lookup_delete_ne by congruence. exact Hd.
Qed.

Lemma export_data_keeps (name : string) (dest_star : list string)
    (job : DataExtract.job) (account account' : I2b2Star.cdw)
    (d d' : DestDb.db) :
  DataDest.export_data chunk_size dest_star job account d
  = Ok (account', d') ->
  Spec.has_table name d -> Spec.has_table name d'.
Proof.
  unfold DataDest.export_data. intros H Hd.
  destruct (DataExtract.patient_data job account) as [data acc].
  apply bind_ok in H as (d1 & H1 & H).
  apply delete_from_ok in H1 as (Ht1 & _).
  apply bind_ok in H as ([d2 c2] & H2 & H). injection H as _ <-.
  apply copy_in_chunks_ok in H2 as (_ & _ & _ & Hhas & _).
  apply Hhas. eapply has_table_insert; [exact Ht1|exact Hd].
Qed.

(** [export_terms] needs the table of variables to be absent and leaves
    it present; the concept table receives the rows of the cursor of the
    concept-dictionary selection, and the modifier table receives
    nothing. *)
Lemma export_terms_ok (dest_star : list string) (job : DataExtract.job)
    (account account' : I2b2Star.cdw) (d d' : DestDb.db) :
  DataDest.export_terms chunk_size dest_star job account d
  = Ok (account', d') ->
  ~ Spec.has_table DataDest.variable_table d
  /\ Spec.has_table DataDest.variable_table d'
  /\ DestDb.rows_of "modifier_dimension" d'
     = DestDb.rows_of "modifier_dimension" d
  /\ DestDb.rows_of "concept_dimension" d'
     = DestDb.rows_of "concept_dimension" d
       ++ map DestDb.RowTerm
            (fst (fst (DataExtract.term_info job account))).
Proof.
  unfold DataDest.export_terms. intros H.
  apply bind_ok in H as (d1 & H1 & H).
  apply create_ok in H1 as (Ht1 & _ & Hfresh).
  apply bind_ok in H as (d2 & H2 & H).
  apply insert_ok in H2 as (old & _ & Ht2 & _).
  destruct (DataExtract.term_info job account) as [[result_cd result_md] acc].
  apply bind_ok in H as ([d3 c3] & H3 & H).
  apply bind_ok in H as ([d4 c4] & H4 & H). injection H as _ <-.
  apply copy_in_chunks_ok in H3 as (-> & Hcd3 & Hother3 & Hhas3 & _).
  apply copy_in_chunks_ok in H4 as (_ & Hmd4 & Hother4 & Hhas4 & _).
  split; [exact Hfresh|]. split; [|split].
  - apply Hhas4, Hhas3. unfold Spec.has_table.
    rewrite Ht2, lookup_insert_eq. eauto.
  - rewrite Hmd4, app_nil_r. unfold DestDb.rows_of.
    rewrite Hother3 by discriminate.
    rewrite Ht2, lookup_insert_ne by discriminate.
    rewrite Ht1, lookup_insert_ne by discriminate. reflexivity.
  - simpl. unfold DestDb.rows_of in *.
    rewrite Hother4 by discriminate. rewrite Hcd3.
    rewrite Ht2, lookup_insert_ne by discriminate.
    rewrite Ht1, lookup_insert_ne by discriminate. reflexivity.
Qed.

Lemma export_patients_keeps (name : string) (dest_star : list string)
    (job : DataExtract.job) (account : I2b2Star.cdw) (n : nat)
    (d d' : DestDb.db) :
  DataDest.export_patients chunk_size dest_star job account d = Ok (n, d') ->
  Spec.has_table name d -> Spec.has_table name d'.
Proof.
  unfold DataDest.export_patients. intros H Hd.
  destruct (DataExtract.demographics job account) as [pat_data enc_data].
  apply bind_ok in H as ([d1 c1] & H1 & H).
  apply bind_ok in H as ([d2 c2] & H2 & H). injection H as _ <-.
  apply copy_in_chunks_ok in H1 as (_ & _ & _ & Hhas1 & _).
  apply copy_in_chunks_ok in H2 as (_ & _ & _ & Hhas2 & _).
  auto.
Qed.

Lemma export_summary_keeps (name : string)
    (rows : list DataDest.summary_row) (d d' : DestDb.db) :
  DataDest.export_summary d = Ok (rows, d') ->
  Spec.has_table name d -> Spec.has_table name d'.
Proof.
  unfold DataDest.export_summary, DestDb.create_view. intros H Hd.
  destruct (_ || _); [discriminate|].
  apply bind_ok in H as (d1 & [= <-] & H).
  apply bind_ok in H as (u & _ & H). injection H as _ <-. exact Hd.
Qed.

(** An export that completes leaves the table of variables behind. *)
Lemma export_leaves_variable (full_path : string) (job : DataExtract.job)
    (account account' : I2b2Star.cdw) (d d' : DestDb.db)
    (o : DataDest.out) :
  DataDest.export create_unpacked_view chunk_size json_dumps_concepts
    full_path job account d = Ok (o, account', d') ->
  Spec.has_table DataDest.variable_table d'.
Proof.
  unfold DataDest.export. intros H.
  apply bind_ok in H as ([dest_star d1] & _ & H).
  apply bind_ok in H as (d2 & _ & H).
  apply bind_ok in H as ([a3 d3] & _ & H).
  apply bind_ok in H as ([a4 d4] & H4 & H).
  apply bind_ok in H as ([n d5] & H5 & H).
  apply bind_ok in H as ([rows d6] & H6 & H). injection H as _ _ <-.
  apply export_terms_ok in H4 as (_ & Hv & _).
  eapply export_summary_keeps; [exact H6|].
  eapply export_patients_keeps; [exact H5|exact Hv].
Qed.

(** An export into a destination that has the table of variables does
    not complete. *)
Lemma export_over_variable (full_path : string) (job : DataExtract.job)
    (account : I2b2Star.cdw) (d : DestDb.db) :
  Spec.has_table DataDest.variable_table d ->
  exists ex,
    DataDest.export create_unpacked_view chunk_size json_dumps_concepts
      full_path job account d = Raise ex.
Proof.
  intros Hv. unfold DataDest.export.
  destruct (DataDest.init_tables create_unpacked_view job d)
    as [[dest_star d1]|ex] eqn:H1; [|eexists; reflexivity].
  assert (Hv1 : Spec.has_table DataDest.variable_table d1).
  { eapply init_tables_keeps; [|exact H1|exact Hv].
    unfold DataDest.variable_table, DataExtract.data_tables. simpl.
    intros [H|[H|[H|[H|[H|[]]]]]]; discriminate H. }
  simpl.
  destruct (DataDest.export_job json_dumps_concepts dest_star job d1)
    as [d2|ex] eqn:H2; [|eexists; reflexivity].
  assert (Hv2 : Spec.has_table DataDest.variable_table d2).
  { eapply export_job_keeps; [|exact H2|exact Hv1]. discriminate. }
  simpl.
  destruct (DataDest.export_data chunk_size dest_star job account d2)
    as [[a3 d3]|ex] eqn:H3; [|eexists; reflexivity].
  assert (Hv3 : Spec.has_table DataDest.variable_table d3).
  { eapply export_data_keeps; [exact H3|exact Hv2]. }
  simpl.
  destruct (DataDest.export_terms chunk_size dest_star job a3 d3)
    as [[a4 d4]|ex] eqn:H4; [|eexists; reflexivity].
  apply export_terms_ok in H4 as (Hfresh & _). destruct (Hfresh Hv3).
Qed.

End ExportSteps.

Lemma first_export_completes :
  exists o,
    Sample.first_export
    = Ok (o, fst Sample.after_first_export, snd Sample.after_first_export).
Proof.
  unfold Sample.after_first_export.
  destruct Sample.first_export as [[[o a] d]|ex] eqn:E;
    [eexists; reflexivity|].
  vm_compute in E. discriminate E.
Qed.

Lemma views_dt_views_only (d : DestDb.db) (t : string) (d' : DestDb.db) :
  Sample.views_dt d t = Ok d' -> DestDb.tables d' = DestDb.tables d.
Proof. intros [= <-]. reflexivity. Qed.

(** C6: the export does not run twice against one destination.  When the
    view maker leaves the tables alone and an export has completed, the same
    export against the destination as it was left raises: [init_tables]
    drops the tables of the star schema and [export_job] the job table, but
    the table of variables stays and [export_terms] creates it again. *)
Theorem export_second_run_raises
    (create_unpacked_view : DestDb.db -> string -> result DestDb.db)
    (chunk_size : positive)
    (json_dumps_concepts : DataExtract.concepts -> string)
    (full_path : string) (job : DataExtract.job)
    (account account' : I2b2Star.cdw) (d d' : DestDb.db)
    (o : DataDest.out) :
  (forall d t d', create_unpacked_view d t = Ok d' ->
                  DestDb.tables d' = DestDb.tables d) ->
  DataDest.export create_unpacked_view chunk_size json_dumps_concepts
    full_path job account d = Ok (o, account', d') ->
  exists ex,
    DataDest.export create_unpacked_view chunk_size json_dumps_concepts
      full_path job account' d' = Raise ex.
Proof.
  intros Hviews H.
  apply export_over_variable; [exact Hviews|].
  eapply export_leaves_variable; exact H.
Qed.

Lemma export_second_run_raises_witness :
  exists ex,
    DataDest.export Sample.views_dt 2 Sample.dumps_concepts
      "/home/me/job1.db" Sample.job1 (fst Sample.after_first_export)
      (snd Sample.after_first_export) = Raise ex.
Proof.
  destruct first_export_completes as [o E].
  exact (export_second_run_raises Sample.views_dt 2 Sample.dumps_concepts
           "/home/me/job1.db" Sample.job1 Sample.repo
           (fst Sample.after_first_export) DestDb.empty
           (snd Sample.after_first_export) o views_dt_views_only E).
Defined.

Example export_second_run_sample :
  DataDest.export Sample.views_dt 2 Sample.dumps_concepts
    "/home/me/job1.db" Sample.job1 (fst Sample.after_first_export)
    (snd Sample.after_first_export)
  = Raise (Exn OperationalError "table variable already exists").
Proof. vm_compute. reflexivity. Qed.

(** C8: in [export_terms] the rows of the cursor of the concept-dictionary
    selection are copied into the concept table, and the modifier table
    receives no row: the second copy is handed the cursor the first copy
    has exhausted, and the cursor of the modifier-dictionary selection is
    never read. *)
Theorem export_terms_copies_concept_rows_only (chunk_size : positive)
    (dest_star : list string) (job : DataExtract.job)
    (account account' : I2b2Star.cdw) (d d' : DestDb.db) :
  DataDest.export_terms chunk_size dest_star job account d
  = Ok (account', d') ->
  DestDb.rows_of "modifier_dimension" d'
  = DestDb.rows_of "modifier_dimension" d
  /\ DestDb.rows_of "concept_dimension" d'
     = DestDb.rows_of "concept_dimension" d
       ++ map DestDb.RowTerm
            (fst (fst (DataExtract.term_info job account))).
Proof.
  intros H. apply export_terms_ok in H as (_ & _ & Hmd & Hcd). auto.
Qed.

Lemma export_terms_copies_concept_rows_only_witness :
  exists account' d',
    DataDest.export_terms 2 DataExtract.data_tables Sample.job1 Sample.repo
      Sample.dest_ready = Ok (account', d')
    /\ snd (fst (DataExtract.term_info Sample.job1 Sample.repo))
       = [("\a\b\", "M", "m")]
    /\ DestDb.rows_of "modifier_dimension" d' = []
    /\ DestDb.rows_of "concept_dimension" d'
       = [DestDb.RowTerm ("\a\b\", "A", "ab");
          DestDb.RowTerm ("\a\b\c\", "C", "abc")].
Proof.
  destruct (DataDest.export_terms 2 DataExtract.data_tables Sample.job1
              Sample.repo Sample.dest_ready) as [[account' d']|ex] eqn:E.
  - exists account', d'. split; [reflexivity|]. split; [reflexivity|].
    destruct (export_terms_copies_concept_rows_only _ _ _ _ _ _ _ E)
      as [Hmd Hcd].
    split; [rewrite Hmd|rewrite Hcd]; reflexivity.
  - vm_compute in E. discriminate E.
Defined.

(** ** The entry point *)

(** C7, as the code has it: when the access is granted and the export
    raises, [__call__] returns the list of "error:" and the text of the
    exception for an instance of [IOError], and lets every other exception
    go up to its caller. *)
Theorem call_catches_IOError_only
    (create_unpacked_view : DestDb.db -> string -> result DestDb.db)
    (chunk_size : positive)
    (json_dumps_concepts : DataExtract.concepts -> string)
    (json_dumps : DataDest.out -> string)
    (self : BuilderApp.app) (username label : string)
    (concepts : DataExtract.concepts) (filename : string) (patient_set : Z)
    (account : I2b2Star.cdw)
    (job_storage : string -> result (DestDb.db * string))
    (db : DestDb.db) (storage : string) (ex : exn) :
  BuilderApp._access self username = Ok (account, job_storage) ->
  job_storage filename = Ok (db, storage) ->
  DataDest.export create_unpacked_view chunk_size json_dumps_concepts
    storage
    {| DataExtract.user_id := username;
       DataExtract.label := label;
       DataExtract.job_concepts := concepts;
       DataExtract.patient_set := patient_set;
       DataExtract.filename := filename |}
    account db = Raise ex ->
  BuilderApp.__call__ create_unpacked_view chunk_size json_dumps_concepts
    json_dumps self username label concepts filename patient_set
  = if isinstance_IOError ex then Ok ["error:"; exn_str ex] else Raise ex.
Proof.
  intros Ha Hs He. unfold BuilderApp.__call__.
  rewrite Ha. simpl. rewrite Hs. simpl. rewrite He. reflexivity.
Qed.

Lemma call_catches_IOError_only_witness :
  BuilderApp.__call__ Sample.views_io_error 2 Sample.dumps_concepts
    Sample.dumps_out Sample.app_fresh "me" "Interesting Query"
    Sample.concepts1 "job1" 123
  = Ok ["error:"; "disk I/O error"].
Proof.
  exact (call_catches_IOError_only Sample.views_io_error 2
           Sample.dumps_concepts Sample.dumps_out Sample.app_fresh "me"
           "Interesting Query" Sample.concepts1 "job1" 123 Sample.repo
           (fun _ => Ok (DestDb.empty, "/home/me/job1.db")) DestDb.empty
           "/home/me/job1.db" (Exn IOError "disk I/O error")
           eq_refl eq_refl eq_refl).
Defined.

(** C7 as stated fails: the second export of a job into its destination
    raises a database error, and [__call__] returns no failure result for
    it. *)
Lemma call_propagates_database_error :
  ~ (forall ex,
        DataDest.export Sample.views_dt 2 Sample.dumps_concepts
          "/home/me/job1.db" Sample.job1 (fst Sample.after_first_export)
          (snd Sample.after_first_export) = Raise ex ->
        exists msg,
          BuilderApp.__call__ Sample.views_dt 2 Sample.dumps_concepts
            Sample.dumps_out Sample.app_after_first_export "me"
            "Interesting Query" Sample.concepts1 "job1" 123
          = Ok ["error:"; msg]).
Proof.
  intros H. destruct (H _ export_second_run_sample) as [msg Hmsg].
  vm_compute in Hmsg. discriminate Hmsg.
Qed.

Example call_second_run_sample :
  BuilderApp.__call__ Sample.views_dt 2 Sample.dumps_concepts
    Sample.dumps_out Sample.app_after_first_export "me"
    "Interesting Query" Sample.concepts1 "job1" 123
  = Raise (Exn OperationalError "table variable already exists").
Proof. vm_compute. reflexivity. Qed.

(** ** The statements at the sample repository *)

Lemma fact_selection_exact_witness :
  snd (DataExtract.patient_data_queries
         I2b2Star.t_global_temp_fact_param_table) 123%Z
      (snd (DataExtract.patient_data Sample.job1 Sample.repo))
  = List.filter
      (Spec.selected (snd (DataExtract.patient_data Sample.job1 Sample.repo))
                     123%Z)
      (I2b2Star.observation_fact
         (snd (DataExtract.patient_data Sample.job1 Sample.repo))).
Proof.
  apply (proj2 (proj2 (fact_selection_exact
                         I2b2Star.t_global_temp_fact_param_table 123%Z
                         (snd (DataExtract.patient_data Sample.job1
                                 Sample.repo))))).
  - apply patient_data_codes_distinct.
  - intros p. unfold Spec.member_count. cbn -[Z.eqb].
    destruct (Z.eqb_spec 1 p), (Z.eqb_spec 2 p); simpl; lia.
Defined.

Example fact_selection_sample :
  snd (DataExtract.patient_data_queries
         I2b2Star.t_global_temp_fact_param_table) 123%Z
      (snd (DataExtract.patient_data Sample.job1 Sample.repo))
  = [{| I2b2Star.f_encounter_num := 1; I2b2Star.f_patient_num := 1;
        I2b2Star.f_concept_cd := "A"; I2b2Star.f_start_date := 5;
        I2b2Star.f_values := [] |};
     {| I2b2Star.f_encounter_num := 2; I2b2Star.f_patient_num := 2;
        I2b2Star.f_concept_cd := "C"; I2b2Star.f_start_date := 5;
        I2b2Star.f_values := [] |}].
Proof. vm_compute. reflexivity. Qed.

Lemma latest_visit_selected_witness :
  In {| I2b2Star.vd_encounter_num := 5; I2b2Star.vd_patient_num := 1;
        I2b2Star.vd_start_date := 10; I2b2Star.vd_values := [] |}
     (snd DataExtract.patients_query 123%Z Sample.repo).
Proof.
  apply (latest_visit_selected 123 Sample.repo 1%Z
           {| I2b2Star.vd_encounter_num := 5; I2b2Star.vd_patient_num := 1;
              I2b2Star.vd_start_date := 10; I2b2Star.vd_values := [] |}).
  - split.
    + exists {| I2b2Star.pd_patient_num := 1; I2b2Star.pd_values := [] |}.
      split; [left; reflexivity|reflexivity].
    + exists {| I2b2Star.pset_result_instance_id := 123;
                I2b2Star.pset_patient_num := 1 |}.
      split; [left; reflexivity|split; reflexivity].
  - right. left. reflexivity.
  - reflexivity.
  - intros w [<-|[<-|[<-|[<-|[]]]]] Hp; simpl in *; lia.
  - intros w [<-|[<-|[<-|[<-|[]]]]] Hp Ht; simpl in *; lia.
Defined.

(** Two visits of patient 1 start at the greatest time 10; the one with
    the greater encounter number is returned, with the visit of patient
    2. *)
Example latest_visit_sample :
  snd DataExtract.patients_query 123%Z Sample.repo
  = [{| I2b2Star.vd_encounter_num := 5; I2b2Star.vd_patient_num := 1;
        I2b2Star.vd_start_date := 10; I2b2Star.vd_values := [] |};
     {| I2b2Star.vd_encounter_num := 2; I2b2Star.vd_patient_num := 2;
        I2b2Star.vd_start_date := 4; I2b2Star.vd_values := [] |}].
Proof. vm_compute. reflexivity. Qed.

(** When two patients share an encounter number, the join on the encounter
    number alone also returns the other visit with that number: patient 1
    has visits 5 and 3 at the greatest start time, patient 2 has visit 3. *)
Example latest_visit_shared_encounter_number :
  map I2b2Star.vd_encounter_num
    (List.filter
       (fun v => (I2b2Star.vd_patient_num v =? 1)%Z)
       (snd DataExtract.patients_query 7%Z
          {| I2b2Star.global_temp_fact_param_table := [];
             I2b2Star.query_global_temp := [];
             I2b2Star.concept_dimension := [];
             I2b2Star.modifier_dimension := [];
             I2b2Star.observation_fact := [];
             I2b2Star.patient_dimension :=
               [{| I2b2Star.pd_patient_num := 1; I2b2Star.pd_values := [] |};
                {| I2b2Star.pd_patient_num := 2; I2b2Star.pd_values := [] |}];
             I2b2Star.visit_dimension :=
               [{| I2b2Star.vd_encounter_num := 5;
                   I2b2Star.vd_patient_num := 1;
                   I2b2Star.vd_start_date := 10;
                   I2b2Star.vd_values := [] |};
                {| I2b2Star.vd_encounter_num := 3;
                   I2b2Star.vd_patient_num := 1;
                   I2b2Star.vd_start_date := 10;
                   I2b2Star.vd_values := [] |};
                {| I2b2Star.vd_encounter_num := 3;
                   I2b2Star.vd_patient_num := 2;
                   I2b2Star.vd_start_date := 20;
                   I2b2Star.vd_values := [] |}];
             I2b2Star.qt_patient_set_collection :=
               [{| I2b2Star.pset_result_instance_id := 7;
                   I2b2Star.pset_patient_num := 1 |};
                {| I2b2Star.pset_result_instance_id := 7;
                   I2b2Star.pset_patient_num := 2 |}] |}))
  = [5%Z; 3%Z].
Proof. vm_compute. reflexivity. Qed.

(** C5 as stated fails for a member of the set that has no
    patient-dimension row: the innermost selection joins the patient
    dimension, and no visit is returned for the patient.  It fails too when
    a visit of the patient carries the encounter number selected for
    another patient: the outer join is on the encounter number alone, and
    the older visit 7 of patient 1 is returned beside the latest, 5. *)
Lemma latest_visit_not_for_every_member :
  ~ Spec.latest_visit_claim Sample.member_unlisted 7 1
  /\ ~ Spec.latest_visit_claim Sample.shared_encounter 7 1.
Proof.
  split; intros H.
  - destruct (H (ex_intro _ {| I2b2Star.pset_result_instance_id := 7;
                              I2b2Star.pset_patient_num := 1 |}
                   (conj (or_introl eq_refl) (conj eq_refl eq_refl)))
                {| I2b2Star.vd_encounter_num := 5;
                   I2b2Star.vd_patient_num := 1;
                   I2b2Star.vd_start_date := 10;
                   I2b2Star.vd_values := [] |}) as [Hin _].
    + split; [left; reflexivity|]. split; [reflexivity|].
      split; intros w [<-|[]]; simpl; lia.
    + vm_compute in Hin. exact Hin.
  - destruct (H (ex_intro _ {| I2b2Star.pset_result_instance_id := 7;
                              I2b2Star.pset_patient_num := 1 |}
                   (conj (or_introl eq_refl) (conj eq_refl eq_refl)))
                {| I2b2Star.vd_encounter_num := 5;
                   I2b2Star.vd_patient_num := 1;
                   I2b2Star.vd_start_date := 10;
                   I2b2Star.vd_values := [] |}) as [_ Honly].
    + split; [left; reflexivity|]. split; [reflexivity|].
      split; intros w [<-|[<-|[<-|[]]]]; simpl; intros; lia.
    + specialize (Honly {| I2b2Star.vd_encounter_num := 7;
                           I2b2Star.vd_patient_num := 1;
                           I2b2Star.vd_start_date := 3;
                           I2b2Star.vd_values := [] |}).
      assert (Hne : {| I2b2Star.vd_encounter_num := 7;
                       I2b2Star.vd_patient_num := 1;
                       I2b2Star.vd_start_date := 3;
                       I2b2Star.vd_values := [] |}
                    = {| I2b2Star.vd_encounter_num := 5;
                         I2b2Star.vd_patient_num := 1;
                         I2b2Star.vd_start_date := 10;
                         I2b2Star.vd_values := [] |}).
      { apply Honly; [|reflexivity]. vm_compute. right. left. reflexivity. }
      discriminate Hne.
Qed.

(** What the encounter selection returns on the two repositories. *)
Example latest_visit_member_unlisted :
  snd DataExtract.patients_query 7%Z Sample.member_unlisted = [].
Proof. vm_compute. reflexivity. Qed.

Example latest_visit_shared_encounter :
  map (fun v => (I2b2Star.vd_encounter_num v, I2b2Star.vd_patient_num v,
                 I2b2Star.vd_start_date v))
      (snd DataExtract.patients_query 7%Z Sample.shared_encounter)
  = [(5, 1, 10); (7, 1, 3); (7, 2, 20)]%Z.
Proof. vm_compute. reflexivity. Qed.

Lemma modifier_query_is_like_witness :
  Sql.like "\a\b\" "\a\b\" None = true <-> "\a\b\" = "\a\b\".
Proof.
  exact (proj1 (proj2 (proj2 (modifier_query_is_like
                                I2b2Star.t_global_temp_fact_param_table
                                DataExtract.escape_default Sample.repo)))
           {| I2b2Star.char_param1 := "\a\b\";
              I2b2Star.char_param2 := "n1 [3 facts]" |}
           {| I2b2Star.md_modifier_path := "\a\b\";
              I2b2Star.md_modifier_cd := "M";
              I2b2Star.md_name_char := "m" |}
           eq_refl).
Defined.

Lemma strip_counts_removes_counts_witness :
  strip_counts ("broken toe" +:+ " [" +:+ String "2" "00 facts" +:+ "]")
  = "broken toe".
Proof.
  exact (proj1 (proj2 strip_counts_removes_counts)
           "broken toe" "2"%char "00 facts" eq_refl eq_refl eq_refl).
Defined.

(** * Further properties of the queries *)

Lemma in_pat_q (id : Z) (db : I2b2Star.cdw)
    (pd : I2b2Star.patient_row) :
  In pd (fst DataExtract.patients_query id db)
  <-> In pd (I2b2Star.patient_dimension db)
      /\ Spec.member (I2b2Star.qt_patient_set_collection db) id
                     (I2b2Star.pd_patient_num pd).
Proof.
  simpl. unfold Spec.member. rewrite in_map_iff. split.
  - intros ([pd' m] & <- & Hin). apply filter_In in Hin as [Hin Hid].
    apply in_join in Hin as (Hpd & Hm & Hon).
    apply Z.eqb_eq in Hid, Hon. simpl. eauto 6.
  - intros (Hpd & m & Hm & Hp & Hid). exists (pd, m).
    split; [reflexivity|]. apply filter_In.
    split; [|apply Z.eqb_eq; exact Hid].
    apply in_join. split; [exact Hpd|]. split; [exact Hm|].
    apply Z.eqb_eq. exact Hp.
Qed.

(** X1: the selection of patients returns a patient-dimension row exactly
    when its patient is a member of the bound patient set. *)
Theorem patients_selected (id : Z) (db : I2b2Star.cdw)
    (pd : I2b2Star.patient_row) :
  In pd (fst DataExtract.patients_query id db)
  <-> In pd (I2b2Star.patient_dimension db)
      /\ Spec.member (I2b2Star.qt_patient_set_collection db) id
                     (I2b2Star.pd_patient_num pd).
Proof. apply in_pat_q. Qed.

Lemma nothing_in_nil {A : Type} (l : list A) :
  (forall x, ~ In x l) -> l = [].
Proof.
  destruct l as [|a l]; [reflexivity|].
  intros H. destruct (H a). left. reflexivity.
Qed.

(** X2: for a patient set without members, the selection of patients and
    the selection of visits both return no row. *)
Theorem empty_set_selects_nobody (id : Z) (db : I2b2Star.cdw) :
  (forall p, ~ Spec.member (I2b2Star.qt_patient_set_collection db) id p) ->
  fst DataExtract.patients_query id db = []
  /\ snd DataExtract.patients_query id db = [].
Proof.
  intros Hnone. split; apply nothing_in_nil.
  - intros pd Hin. apply in_pat_q in Hin as [_ Hm].
    exact (Hnone _ Hm).
  - intros v Hin. apply in_enc_q in Hin as [_ [p Ha]].
    apply in_arb_visit in Ha as (t & Hl & _).
    apply in_last in Hl as ([_ Hm] & _). exact (Hnone _ Hm).
Qed.

Lemma empty_set_selects_nobody_witness :
  fst DataExtract.patients_query 999%Z Sample.repo = []
  /\ snd DataExtract.patients_query 999%Z Sample.repo = [].
Proof.
  apply (empty_set_selects_nobody 999 Sample.repo).
  intros p (m & [<-|[<-|[]]] & _ & Hid); discriminate Hid.
Defined.

(** X3: when encounter numbers identify visits, every visit the encounter
    selection returns is a visit of a patient of the set, at the greatest
    start time of that patient's visits and with the greatest encounter
    number among the patient's visits at that time. *)
Theorem selected_visit_is_latest (id : Z) (db : I2b2Star.cdw)
    (v : I2b2Star.visit_row) :
  List.NoDup (map I2b2Star.vd_encounter_num (I2b2Star.visit_dimension db)) ->
  In v (snd DataExtract.patients_query id db) ->
  Spec.patient_in_set db id (I2b2Star.vd_patient_num v)
  /\ (forall w, In w (I2b2Star.visit_dimension db) ->
                I2b2Star.vd_patient_num w = I2b2Star.vd_patient_num v ->
                (I2b2Star.vd_start_date w <= I2b2Star.vd_start_date v)%Z)
  /\ (forall w, In w (I2b2Star.visit_dimension db) ->
                I2b2Star.vd_patient_num w = I2b2Star.vd_patient_num v ->
                I2b2Star.vd_start_date w = I2b2Star.vd_start_date v ->
                (I2b2Star.vd_encounter_num w
                 <= I2b2Star.vd_encounter_num v)%Z).
Proof.
  intros Hnd Hin. apply in_enc_q in Hin as [Hv [q Ha]].
  apply in_arb_visit in Ha as (t & Hl & (u & Hu & Huq & Hut & Hue) & Hle).
  assert (Huv : u = v) by (eapply map_injective_on; eauto).
  rewrite Huv in Huq, Hut. rewrite <- Huq, <- Hut in Hl, Hle.
  apply in_last in Hl as (Hset & _ & Hmax). auto.
Qed.

Lemma selected_visit_is_latest_witness :
  Spec.patient_in_set Sample.repo 123 2
  /\ (forall w, In w (I2b2Star.visit_dimension Sample.repo) ->
                I2b2Star.vd_patient_num w = 2%Z ->
                (I2b2Star.vd_start_date w <= 4)%Z)
  /\ (forall w, In w (I2b2Star.visit_dimension Sample.repo) ->
                I2b2Star.vd_patient_num w = 2%Z ->
                I2b2Star.vd_start_date w = 4%Z ->
                (I2b2Star.vd_encounter_num w <= 2)%Z).
Proof.
  apply (selected_visit_is_latest 123 Sample.repo
           {| I2b2Star.vd_encounter_num := 2; I2b2Star.vd_patient_num := 2;
              I2b2Star.vd_start_date := 4; I2b2Star.vd_values := [] |}).
  - repeat constructor; simpl; intuition discriminate.
  - right. left. reflexivity.
Defined.

(** X4: when no staged path holds a LIKE wildcard or the escape character,
    the concept-dictionary selection returns the (path, code, label) rows of
    the concept dictionary whose path begins with a staged path. *)
Theorem concept_query_is_prefix (tmp : I2b2Star.table I2b2Star.param_row)
    (db : I2b2Star.cdw) :
  (forall t, In t (I2b2Star.rows tmp db) ->
             Spec.plain (I2b2Star.char_param1 t) = true
             /\ Py.contains DataExtract.escape_default
                            (I2b2Star.char_param1 t) = false) ->
  forall r,
    In r (fst (fst (DataExtract._term_query tmp DataExtract.escape_default))
            db)
    <-> exists t cd,
          In t (I2b2Star.rows tmp db)
          /\ In cd (I2b2Star.concept_dimension db)
          /\ String.prefix (I2b2Star.char_param1 t)
                           (I2b2Star.cd_concept_path cd) = true
          /\ r = Spec.concept_term cd.
Proof.
  intros Hplain r. rewrite in_term_query_cd. split.
  - intros (t & cd & Ht & Hcd & Hl & ->). exists t, cd.
    destruct (Hplain t Ht) as [Hp He].
    rewrite like_prefix in Hl by (auto; discriminate). auto.
  - intros (t & cd & Ht & Hcd & Hl & ->). exists t, cd.
    destruct (Hplain t Ht) as [Hp He].
    rewrite like_prefix by (auto; discriminate). auto.
Qed.

Lemma concept_query_is_prefix_witness :
  In ("\a\b\c\", "C", "abc")
     (fst (fst (DataExtract._term_query
                  I2b2Star.t_global_temp_fact_param_table
                  DataExtract.escape_default))
        (SpecX.staged Sample.concepts1 Sample.repo))
  <-> exists t cd,
        In t (I2b2Star.rows I2b2Star.t_global_temp_fact_param_table
                (SpecX.staged Sample.concepts1 Sample.repo))
        /\ In cd (I2b2Star.concept_dimension
                    (SpecX.staged Sample.concepts1 Sample.repo))
        /\ String.prefix (I2b2Star.char_param1 t)
                         (I2b2Star.cd_concept_path cd) = true
        /\ ("\a\b\c\", "C", "abc") = Spec.concept_term cd.
Proof.
  apply (concept_query_is_prefix I2b2Star.t_global_temp_fact_param_table
           (SpecX.staged Sample.concepts1 Sample.repo)).
  intros t [<-|[]]. split; reflexivity.
Defined.

(** What [term_info] and [patient_data] compute, in one piece. *)
Lemma bound_rows (l : list (string * string)) :
  map (fun b => {| I2b2Star.char_param1 := DataExtract.path b;
                   I2b2Star.char_param2 := DataExtract.name b |})
      (map (fun '(path, name) => {| DataExtract.name := name;
                                    DataExtract.path := path |}) l)
  = map (fun '(path, name) => {| I2b2Star.char_param1 := path;
                                 I2b2Star.char_param2 := name |}) l.
Proof.
  rewrite map_map. apply map_ext. intros [p n]. reflexivity.
Qed.

Lemma term_info_unfold (j : DataExtract.job) (db : I2b2Star.cdw) :
  DataExtract.term_info j db
  = ((Sql.order_by DataExtract.term_path
        (SpecX.q_cd (SpecX.staged (DataExtract.job_concepts j) db)),
      Sql.order_by DataExtract.term_path
        (SpecX.q_md (SpecX.staged (DataExtract.job_concepts j) db))),
     SpecX.staged (DataExtract.job_concepts j) db).
Proof.
  unfold DataExtract.term_info, DataExtract._save_concepts, SpecX.staged,
    Spec.staged_rows, SpecX.q_cd, SpecX.q_md.
  destruct (combine _ _) as [|[p n] l]; [reflexivity|].
  cbn [map length Nat.ltb Nat.leb].
  unfold I2b2Star.insert, I2b2Star.delete. cbn [I2b2Star.rows
    I2b2Star.with_rows I2b2Star.t_global_temp_fact_param_table
    I2b2Star.global_temp_fact_param_table app].
  rewrite bound_rows. reflexivity.
Qed.

Lemma patient_data_unfold (j : DataExtract.job) (db : I2b2Star.cdw) :
  DataExtract.patient_data j db
  = (let account :=
       I2b2Star.with_rows I2b2Star.t_query_global_temp
         (remove_dups
            (map DataExtract.term_code
               (SpecX.q_cd (SpecX.staged (DataExtract.job_concepts j) db))))
         (SpecX.staged (DataExtract.job_concepts j) db) in
     (snd (DataExtract.patient_data_queries
             I2b2Star.t_global_temp_fact_param_table)
        (DataExtract.patient_set j) account, account)).
Proof.
  unfold DataExtract.patient_data, DataExtract._save_concepts, SpecX.staged,
    Spec.staged_rows, SpecX.q_cd.
  destruct (combine _ _) as [|[p n] l]; [reflexivity|].
  cbn [map length Nat.ltb Nat.leb].
  unfold I2b2Star.insert, I2b2Star.delete. cbn [I2b2Star.rows
    I2b2Star.with_rows I2b2Star.t_global_temp_fact_param_table
    I2b2Star.global_temp_fact_param_table app].
  rewrite bound_rows. reflexivity.
Qed.

Lemma combine_empty_side (c : DataExtract.concepts) :
  DataExtract.names c = [] \/ DataExtract.keys c = [] ->
  Spec.staged_rows c = [].
Proof.
  unfold Spec.staged_rows. intros [-> | ->].
  - rewrite combine_nil. reflexivity.
  - reflexivity.
Qed.

(** X5: for a job without names or without keys, [term_info] returns two
    empty cursors and [patient_data] no fact, and the staged paths and codes
    of an earlier job are gone from both temporary tables. *)
Theorem empty_concepts_select_nothing (j : DataExtract.job)
    (db : I2b2Star.cdw) :
  DataExtract.names (DataExtract.job_concepts j) = []
  \/ DataExtract.keys (DataExtract.job_concepts j) = [] ->
  fst (DataExtract.term_info j db) = ([], [])
  /\ fst (DataExtract.patient_data j db) = []
  /\ I2b2Star.global_temp_fact_param_table
       (snd (DataExtract.patient_data j db)) = []
  /\ I2b2Star.query_global_temp (snd (DataExtract.patient_data j db)) = [].
Proof.
  intros H. apply combine_empty_side in H.
  rewrite term_info_unfold, patient_data_unfold.
  unfold SpecX.staged. rewrite H.
  split; [reflexivity|]. split; [|split; reflexivity].
  apply nothing_in_nil. intros f Hin. cbn [fst] in Hin.
  apply in_sel in Hin as (_ & Hc & _). exact Hc.
Qed.

Lemma empty_concepts_select_nothing_witness :
  fst (DataExtract.term_info
         {| DataExtract.user_id := "me"; DataExtract.label := "l";
            DataExtract.job_concepts :=
              {| DataExtract.names := []; DataExtract.keys := ["\\tk\z\"] |};
            DataExtract.patient_set := 123;
            DataExtract.filename := "job0" |} Sample.repo) = ([], []).
Proof.
  apply (empty_concepts_select_nothing
           {| DataExtract.user_id := "me"; DataExtract.label := "l";
              DataExtract.job_concepts :=
                {| DataExtract.names := [];
                   DataExtract.keys := ["\\tk\z\"] |};
              DataExtract.patient_set := 123;
              DataExtract.filename := "job0" |} Sample.repo).
  left. reflexivity.
Defined.

(** ** ORDER BY *)

Lemma insert_by_permutation {R : Type} (col : R -> string) (r : R)
    (l : list R) :
  Permutation (Sql.insert_by col r l) (r :: l).
Proof.
  induction l as [|x l IH]; simpl; [reflexivity|].
  destruct (String.leb (col r) (col x)); [reflexivity|].
  rewrite IH. apply perm_swap.
Qed.

Lemma order_by_permutation {R : Type} (col : R -> string) (l : list R) :
  Permutation (Sql.order_by col l) l.
Proof.
  induction l as [|x l IH]; simpl; [reflexivity|].
  rewrite insert_by_permutation. apply perm_skip, IH.
Qed.

Lemma insert_by_sorted {R : Type} (col : R -> string) (r : R) (l : list R) :
  Sorted (fun a b => String.leb (col a) (col b) = true) l ->
  Sorted (fun a b => String.leb (col a) (col b) = true)
         (Sql.insert_by col r l).
Proof.
  induction 1 as [|x l Hl IH Hx]; simpl; [repeat constructor|].
  destruct (String.leb (col r) (col x)) eqn:E.
  - constructor; [constructor; assumption|]. constructor. exact E.
  - constructor; [exact IH|].
    destruct (String.leb_total (col r) (col x)) as [H|H]; [congruence|].
    destruct Hx as [|y l' Hxy]; simpl.
    + constructor. exact H.
    + destruct (String.leb (col r) (col y)); constructor; assumption.
Qed.

Lemma order_by_sorted {R : Type} (col : R -> string) (l : list R) :
  Sorted (fun a b => String.leb (col a) (col b) = true) (Sql.order_by col l).
Proof.
  induction l as [|x l IH]; simpl; [constructor|].
  apply insert_by_sorted, IH.
Qed.

(** X6: the two cursors [term_info] returns hold the rows of the
    concept-dictionary and of the modifier-dictionary selection over the
    rows staged by this call, each row as often as the selection has it, in
    nondecreasing order of the path. *)
Theorem term_info_cursors_ordered (j : DataExtract.job) (db : I2b2Star.cdw) :
  Permutation (fst (fst (DataExtract.term_info j db)))
              (SpecX.q_cd (SpecX.staged (DataExtract.job_concepts j) db))
  /\ Sorted SpecX.by_path (fst (fst (DataExtract.term_info j db)))
  /\ Permutation (snd (fst (DataExtract.term_info j db)))
                 (SpecX.q_md (SpecX.staged (DataExtract.job_concepts j) db))
  /\ Sorted SpecX.by_path (snd (fst (DataExtract.term_info j db))).
Proof.
  rewrite term_info_unfold. cbn [fst snd].
  split; [apply order_by_permutation|].
  split; [apply order_by_sorted|].
  split; [apply order_by_permutation|apply order_by_sorted].
Qed.

(** ** The facts of a job *)

(** X7: [patient_data] returns a fact row exactly when the row is in the
    fact table, its patient is a member of the job's patient set, and its
    code is the code of a concept-dictionary row whose path matches a path
    staged by this job followed by the wildcard; what the two temporary
    tables held before makes no difference. *)
Theorem patient_data_facts (j : DataExtract.job) (db : I2b2Star.cdw)
    (f : I2b2Star.fact_row) :
  In f (fst (DataExtract.patient_data j db))
  <-> In f (I2b2Star.observation_fact db)
      /\ Spec.member (I2b2Star.qt_patient_set_collection db)
                     (DataExtract.patient_set j) (I2b2Star.f_patient_num f)
      /\ exists t cd,
           In t (Spec.staged_rows (DataExtract.job_concepts j))
           /\ In cd (I2b2Star.concept_dimension db)
           /\ Sql.like (I2b2Star.cd_concept_path cd)
                       (I2b2Star.char_param1 t +:+ "%")
                       (Some DataExtract.escape_default) = true
           /\ I2b2Star.cd_concept_cd cd = I2b2Star.f_concept_cd f.
Proof.
  rewrite patient_data_unfold. cbn [fst]. rewrite in_sel.
  cbn [I2b2Star.with_rows I2b2Star.t_query_global_temp
       I2b2Star.query_global_temp I2b2Star.observation_fact
       I2b2Star.qt_patient_set_collection SpecX.staged
       I2b2Star.t_global_temp_fact_param_table].
  rewrite in_remove_dups, in_map_iff. split.
  - intros (Hf & (r & Hcode & Hr) & Hm).
    apply in_term_query_cd in Hr as (t & cd & Ht & Hcd & Hl & ->).
    split; [exact Hf|]. split; [exact Hm|]. exists t, cd. auto.
  - intros (Hf & Hm & t & cd & Ht & Hcd & Hl & Hcode).
    split; [exact Hf|]. split; [|exact Hm].
    exists (Spec.concept_term cd). split; [exact Hcode|].
    apply in_term_query_cd. exists t, cd. auto.
Qed.

(** * Further properties of the export *)

Lemma copy_in_chunks_tables {R : Type} (inj : R -> DestDb.row) (t : string)
    (chunk_size : positive) (data : list R) (d d' : DestDb.db)
    (c' : list R) :
  Spec.has_table t d ->
  TableCopy.copy_in_chunks chunk_size inj d data t = Ok (d', c') ->
  DestDb.tables d'
  = <[t := DestDb.rows_of t d ++ map inj data]> (DestDb.tables d)
  /\ DestDb.views d' = DestDb.views d.
Proof.
  intros Ht H.
  apply copy_in_chunks_ok in H as (_ & Hrows & Hother & Hhas & Hviews).
  split; [|exact Hviews]. apply map_eq. intros n.
  destruct (decide (n = t)) as [->|Hne].
  - rewrite lookup_insert_eq. destruct (Hhas _ Ht) as [l Hl].
    unfold DestDb.rows_of in Hrows. rewrite Hl in Hrows. simpl in Hrows.
    rewrite Hl. f_equal. exact Hrows.
  - rewrite lookup_insert_ne by congruence. apply Hother, Hne.
Qed.

Lemma lookup_drop_all (names : list string) (d : DestDb.db) (n : string) :
  DestDb.tables (DestDb.drop_all names d) !! n
  = if bool_decide (n ∈ names) then None else DestDb.tables d !! n.
Proof.
  unfold DestDb.drop_all. revert d.
  induction names as [|x names IH]; intros d; cbn [fold_left].
  - rewrite bool_decide_eq_false_2 by apply not_elem_of_nil. reflexivity.
  - rewrite IH. unfold DestDb.drop_checkfirst at 1. cbn [DestDb.tables].
    destruct (decide (n ∈ names)) as [Hin|Hin].
    + rewrite !bool_decide_eq_true_2; [reflexivity| |exact Hin].
      apply elem_of_cons. auto.
    + rewrite (bool_decide_eq_false_2 _ Hin).
      destruct (decide (x = n)) as [->|Hne].
      * rewrite bool_decide_eq_true_2 by apply list_elem_of_here.
        apply lookup_delete_eq.
      * rewrite bool_decide_eq_false_2.
        -- apply lookup_delete_ne, Hne.
        -- intros H. apply elem_of_cons in H as [H|H]; congruence.
Qed.

Lemma lookup_create_all (names : list string) (d : DestDb.db) (n : string) :
  DestDb.tables (DestDb.create_all names d) !! n
  = match DestDb.tables d !! n with
    | Some l => Some l
    | None => if bool_decide (n ∈ names) then Some [] else None
    end.
Proof.
  unfold DestDb.create_all. revert d.
  induction names as [|x names IH]; intros d; cbn [fold_left].
  - rewrite bool_decide_eq_false_2 by apply not_elem_of_nil.
    destruct (DestDb.tables d !! n); reflexivity.
  - rewrite IH. destruct (DestDb.tables d !! x) as [lx|] eqn:Ex.
    + destruct (DestDb.tables d !! n) as [l|] eqn:En; [reflexivity|].
      assert (Hne : n <> x) by congruence.
      destruct (decide (n ∈ names)) as [Hin|Hin].
      * rewrite !bool_decide_eq_true_2; [reflexivity| |exact Hin].
        apply elem_of_cons. auto.
      * rewrite !bool_decide_eq_false_2; [reflexivity| |exact Hin].
        intros H. apply elem_of_cons in H as [H|H]; congruence.
    + cbn [DestDb.tables]. destruct (decide (x = n)) as [->|Hne].
      * rewrite lookup_insert_eq, Ex.
        rewrite bool_decide_eq_true_2 by apply list_elem_of_here.
        reflexivity.
      * rewrite lookup_insert_ne by exact Hne.
        destruct (DestDb.tables d !! n); [reflexivity|].
        destruct (decide (n ∈ names)) as [Hin|Hin].
        -- rewrite !bool_decide_eq_true_2; [reflexivity| |exact Hin].
           apply elem_of_cons. auto.
        -- rewrite !bool_decide_eq_false_2; [reflexivity| |exact Hin].
           intros H. apply elem_of_cons in H as [H|H]; congruence.
Qed.

(** X8: when the view maker leaves the tables alone, [init_tables] leaves
    each of the five tables of the star schema present and empty, whatever
    it held, and every other table of the destination as it was. *)
Theorem init_tables_resets_star
    (create_unpacked_view : DestDb.db -> string -> result DestDb.db)
    (job : DataExtract.job) (d d' : DestDb.db) (dest_star : list string) :
  (forall d t d', create_unpacked_view d t = Ok d' ->
                  DestDb.tables d' = DestDb.tables d) ->
  DataDest.init_tables create_unpacked_view job d = Ok (dest_star, d') ->
  (forall t, In t DataExtract.data_tables ->
             DestDb.tables d' !! t = Some [])
  /\ (forall n, ~ In n DataExtract.data_tables ->
                DestDb.tables d' !! n = DestDb.tables d !! n).
Proof.
  intros Hviews H. unfold DataDest.init_tables in H.
  apply bind_ok in H as (d1 & H1 & H). injection H as _ <-.
  rewrite (for_each_views_tables _ Hviews _ _ _ H1).
  split; intros n Hn; rewrite lookup_create_all, lookup_drop_all.
  - rewrite !bool_decide_eq_true_2 by (apply list_elem_of_In; exact Hn).
    reflexivity.
  - rewrite !bool_decide_eq_false_2
      by (intros H; apply Hn, list_elem_of_In, H).
    destruct (DestDb.tables d !! n); reflexivity.
Qed.

Lemma init_tables_resets_star_witness :
  exists dest_star d',
    DataDest.init_tables Sample.views_dt Sample.job1
      (snd Sample.after_first_export) = Ok (dest_star, d')
    /\ (forall t, In t DataExtract.data_tables ->
                  DestDb.tables d' !! t = Some [])
    /\ (forall n, ~ In n DataExtract.data_tables ->
                  DestDb.tables d' !! n
                  = DestDb.tables (snd Sample.after_first_export) !! n).
Proof.
  destruct (DataDest.init_tables Sample.views_dt Sample.job1
              (snd Sample.after_first_export)) as [[ds d']|ex] eqn:E.
  - exists ds, d'. split; [reflexivity|].
    exact (init_tables_resets_star Sample.views_dt Sample.job1 _ _ _
             views_dt_views_only E).
  - vm_compute in E. discriminate E.
Defined.

Lemma export_job_tables
    (json_dumps_concepts : DataExtract.concepts -> string)
    (dest_star : list string) (job : DataExtract.job) (d d' : DestDb.db) :
  DataDest.export_job json_dumps_concepts dest_star job d = Ok d' ->
  DestDb.tables d'
  = <[DataDest.job_table := [SpecX.job_row_of json_dumps_concepts job]]>
      (DestDb.tables d)
  /\ DestDb.views d' = DestDb.views d.
Proof.
  unfold DataDest.export_job. intros H.
  apply bind_ok in H as (d1 & H1 & H).
  apply create_ok in H1 as (Ht1 & Hv1 & _).
  apply bind_ok in H as (pset & Hp & H).
  apply bind_integer_ok in Hp as [-> _].
  apply insert_ok in H as (old & Hold & Ht & Hv).
  rewrite Ht1, lookup_insert_eq in Hold. injection Hold as <-.
  split; [|rewrite Hv, Hv1; reflexivity].
  rewrite Ht, Ht1. unfold DestDb.drop_checkfirst. cbn [DestDb.tables].
  rewrite insert_insert_eq, insert_delete_eq. reflexivity.
Qed.

(** X9: after [export_job] the job table holds one row, the row of this
    job, whatever the destination held, and no other table has changed. *)
Theorem export_job_writes_one_row
    (json_dumps_concepts : DataExtract.concepts -> string)
    (dest_star : list string) (job : DataExtract.job) (d d' : DestDb.db) :
  DataDest.export_job json_dumps_concepts dest_star job d = Ok d' ->
  DestDb.rows_of "job" d' = [SpecX.job_row_of json_dumps_concepts job]
  /\ (forall n, n <> "job" -> DestDb.tables d' !! n = DestDb.tables d !! n).
Proof.
  intros H. apply export_job_tables in H as [Ht _].
  unfold DestDb.rows_of. rewrite Ht. split.
  - unfold DataDest.job_table. rewrite lookup_insert_eq. reflexivity.
  - intros n Hn. apply lookup_insert_ne. unfold DataDest.job_table.
    congruence.
Qed.

Lemma export_job_writes_one_row_witness :
  exists d',
    DataDest.export_job Sample.dumps_concepts DataExtract.data_tables
      Sample.job1 (snd Sample.after_first_export) = Ok d'
    /\ DestDb.rows_of "job" d'
       = [SpecX.job_row_of Sample.dumps_concepts Sample.job1].
Proof.
  destruct (DataDest.export_job Sample.dumps_concepts
              DataExtract.data_tables Sample.job1
              (snd Sample.after_first_export)) as [d'|ex] eqn:E.
  - exists d'. split; [reflexivity|].
    exact (proj1 (export_job_writes_one_row _ _ _ _ _ E)).
  - vm_compute in E. discriminate E.
Defined.

Lemma export_data_tables (chunk_size : positive) (dest_star : list string)
    (job : DataExtract.job) (account account' : I2b2Star.cdw)
    (d d' : DestDb.db) :
  DataDest.export_data chunk_size dest_star job account d
  = Ok (account', d') ->
  account' = snd (DataExtract.patient_data job account)
  /\ DestDb.tables d'
     = <["observation_fact" :=
           map DestDb.RowFact (fst (DataExtract.patient_data job account))]>
         (DestDb.tables d)
  /\ DestDb.views d' = DestDb.views d.
Proof.
  unfold DataDest.export_data. intros H.
  destruct (DataExtract.patient_data job account) as [data acc].
  apply bind_ok in H as (d1 & H1 & H).
  apply delete_from_ok in H1 as (Ht1 & Hv1).
  apply bind_ok in H as ([d2 c2] & H2 & H). injection H as <- <-.
  apply copy_in_chunks_tables in H2 as [Ht2 Hv2].
  2:{ unfold Spec.has_table. rewrite Ht1, lookup_insert_eq. eauto. }
  split; [reflexivity|]. split; [|congruence].
  rewrite Ht2. unfold DestDb.rows_of. rewrite Ht1, lookup_insert_eq.
  rewrite insert_insert_eq. reflexivity.
Qed.

(** X10: after [export_data] the fact table of the destination holds the
    facts [patient_data] selected, in the order of the cursor, and none of
    the rows it held before; no other table has changed. *)
Theorem export_data_replaces_facts (chunk_size : positive)
    (dest_star : list string) (job : DataExtract.job)
    (account account' : I2b2Star.cdw) (d d' : DestDb.db) :
  DataDest.export_data chunk_size dest_star job account d
  = Ok (account', d') ->
  DestDb.rows_of "observation_fact" d'
  = map DestDb.RowFact (fst (DataExtract.patient_data job account))
  /\ (forall n, n <> "observation_fact" ->
                DestDb.tables d' !! n = DestDb.tables d !! n).
Proof.
  intros H. apply export_data_tables in H as (_ & Ht & _).
  unfold DestDb.rows_of. rewrite Ht. split.
  - rewrite lookup_insert_eq. reflexivity.
  - intros n Hn. apply lookup_insert_ne. congruence.
Qed.

Lemma export_data_replaces_facts_witness :
  exists account' d',
    DataDest.export_data 2 DataExtract.data_tables Sample.job1 Sample.repo
      (snd Sample.after_first_export) = Ok (account', d')
    /\ DestDb.rows_of "observation_fact" d'
       = map DestDb.RowFact
           (fst (DataExtract.patient_data Sample.job1 Sample.repo)).
Proof.
  destruct (DataDest.export_data 2 DataExtract.data_tables Sample.job1
              Sample.repo (snd Sample.after_first_export))
    as [[account' d']|ex] eqn:E.
  - exists account', d'. split; [reflexivity|].
    exact (proj1 (export_data_replaces_facts _ _ _ _ _ _ _ E)).
  - vm_compute in E. discriminate E.
Defined.

Lemma copy_in_chunks_nil {R : Type} (inj : R -> DestDb.row) (t : string)
    (chunk_size : positive) (d : DestDb.db) :
  TableCopy.copy_in_chunks chunk_size inj d [] t = Ok (d, []).
Proof.
  unfold TableCopy.copy_in_chunks. simpl.
  destruct (Pos.to_nat chunk_size); reflexivity.
Qed.

Lemma export_terms_tables (chunk_size : positive) (dest_star : list string)
    (job : DataExtract.job) (account account' : I2b2Star.cdw)
    (d d' : DestDb.db) :
  Spec.has_table "concept_dimension" d ->
  DataDest.export_terms chunk_size dest_star job account d
  = Ok (account', d') ->
  account' = snd (DataExtract.term_info job account)
  /\ DestDb.tables d'
     = <["concept_dimension" :=
           DestDb.rows_of "concept_dimension" d
           ++ map DestDb.RowTerm
                (fst (fst (DataExtract.term_info job account)))]>
         (<[DataDest.variable_table :=
              DestDb.inserted
                (imap (fun i '(path, (key, name)) =>
                         DestDb.RowVariable
                           {| DestDb.v_id := i;
                              DestDb.v_item_key := key;
                              DestDb.v_concept_path := path;
                              DestDb.v_name_char := name;
                              DestDb.v_name := strip_counts name |})
                   (combine
                      (I2B2MetaData.keys_to_paths
                         (DataExtract.keys (DataExtract.job_concepts job)))
                      (combine
                         (DataExtract.keys (DataExtract.job_concepts job))
                         (DataExtract.names
                            (DataExtract.job_concepts job)))))]>
            (DestDb.tables d))
  /\ DestDb.views d' = DestDb.views d.
Proof.
  unfold DataDest.export_terms. intros Hcd H.
  apply bind_ok in H as (d1 & H1 & H).
  apply create_ok in H1 as (Ht1 & Hv1 & _).
  apply bind_ok in H as (d2 & H2 & H).
  apply insert_ok in H2 as (old & Hold & Ht2 & Hv2).
  rewrite Ht1, lookup_insert_eq in Hold. injection Hold as <-.
  destruct (DataExtract.term_info job account) as [[result_cd result_md] acc].
  apply bind_ok in H as ([d3 c3] & H3 & H).
  pose proof H3 as H3'.
  apply copy_in_chunks_ok in H3' as (-> & _).
  rewrite copy_in_chunks_nil in H. injection H as <- <-.
  assert (Hcd2 : DestDb.tables d2 !! "concept_dimension"
                 = DestDb.tables d !! "concept_dimension").
  { rewrite Ht2, lookup_insert_ne by discriminate.
    rewrite Ht1, lookup_insert_ne by discriminate. reflexivity. }
  apply copy_in_chunks_tables in H3 as [Ht3 Hv3].
  2:{ unfold Spec.has_table. rewrite Hcd2. exact Hcd. }
  split; [reflexivity|]. split; [|congruence].
  rewrite Ht3. unfold DestDb.rows_of. rewrite Hcd2, Ht2, Ht1.
  rewrite insert_insert_eq. reflexivity.
Qed.

Lemma lookup_map {A B : Type} (f : A -> B) (l : list A) (i : nat) :
  map f l !! i = f <$> (l !! i).
Proof.
  revert i. induction l as [|a l IH]; intros [|i]; simpl; auto.
Qed.

Lemma lookup_combine {A B : Type} (l : list A) (k : list B) (i : nat)
    (a : A) (b : B) :
  l !! i = Some a -> k !! i = Some b -> combine l k !! i = Some (a, b).
Proof.
  revert k i. induction l as [|x l IH]; intros [|y k] [|i]; simpl;
    try discriminate.
  - intros [= ->] [= ->]. reflexivity.
  - apply IH.
Qed.

Lemma export_terms_variable_table (chunk_size : positive)
    (dest_star : list string) (job : DataExtract.job)
    (account account' : I2b2Star.cdw) (d d' : DestDb.db) :
  DataDest.export_terms chunk_size dest_star job account d
  = Ok (account', d') ->
  DestDb.rows_of "variable" d'
  = DestDb.inserted
      (imap (fun i '(path, (key, name)) =>
               DestDb.RowVariable
                 {| DestDb.v_id := i;
                    DestDb.v_item_key := key;
                    DestDb.v_concept_path := path;
                    DestDb.v_name_char := name;
                    DestDb.v_name := strip_counts name |})
         (combine
            (I2B2MetaData.keys_to_paths
               (DataExtract.keys (DataExtract.job_concepts job)))
            (combine (DataExtract.keys (DataExtract.job_concepts job))
                     (DataExtract.names (DataExtract.job_concepts job))))).
Proof.
  unfold DataDest.export_terms, DataDest.variable_table. intros H.
  apply bind_ok in H as (d1 & H1 & H).
  apply create_ok in H1 as (Ht1 & _ & _).
  apply bind_ok in H as (d2 & H2 & H).
  apply insert_ok in H2 as (old & Hold & Ht2 & _).
  rewrite Ht1, lookup_insert_eq in Hold. injection Hold as <-.
  destruct (DataExtract.term_info job account) as [[result_cd result_md] acc].
  apply bind_ok in H as ([d3 c3] & H3 & H).
  apply bind_ok in H as ([d4 c4] & H4 & H). injection H as _ <-.
  apply copy_in_chunks_ok in H3 as (_ & _ & Hother3 & _).
  apply copy_in_chunks_ok in H4 as (_ & _ & Hother4 & _).
  unfold DestDb.rows_of.
  rewrite Hother4 by discriminate. rewrite Hother3 by discriminate.
  rewrite Ht2, lookup_insert_eq. reflexivity.
Qed.

Lemma inserted_rows (new : list DestDb.row) :
  new <> [] -> DestDb.inserted new = new.
Proof. destruct new; [congruence|reflexivity]. Qed.

(** X11: after [export_terms] the table of variables holds, when the job
    has a key and a name, one row for each position that has both and no
    other row: the row at position [i] has the id [i], the key, the path
    resolved from the key, the name, and the name with its count stripped.
    When the job has no key or no name, the insertion of the empty list of
    rows leaves one row, with NULL in every column. *)
Theorem export_terms_variable_rows (chunk_size : positive)
    (dest_star : list string) (job : DataExtract.job)
    (account account' : I2b2Star.cdw) (d d' : DestDb.db) :
  DataDest.export_terms chunk_size dest_star job account d
  = Ok (account', d') ->
  (DataExtract.keys (DataExtract.job_concepts job) = []
   \/ DataExtract.names (DataExtract.job_concepts job) = [] ->
   DestDb.rows_of "variable" d' = [DestDb.RowNull])
  /\ (DataExtract.keys (DataExtract.job_concepts job) <> [] ->
      DataExtract.names (DataExtract.job_concepts job) <> [] ->
      length (DestDb.rows_of "variable" d')
      = Nat.min (length (DataExtract.keys (DataExtract.job_concepts job)))
                (length (DataExtract.names (DataExtract.job_concepts job))))
  /\ forall i key name,
       DataExtract.keys (DataExtract.job_concepts job) !! i = Some key ->
       DataExtract.names (DataExtract.job_concepts job) !! i = Some name ->
       DestDb.rows_of "variable" d' !! i
       = Some (SpecX.variable_row_of i key name).
Proof.
  intros H. rewrite (export_terms_variable_table _ _ _ _ _ _ _ H).
  destruct (DataExtract.keys (DataExtract.job_concepts job)) as [|k keys];
    [|destruct (DataExtract.names (DataExtract.job_concepts job))
        as [|n names]].
  - split; [reflexivity|]. split; [congruence|]. intros i ? ? Hk.
    rewrite lookup_nil in Hk. discriminate Hk.
  - split; [reflexivity|]. split; [congruence|]. intros i ? ? _ Hn.
    rewrite lookup_nil in Hn. discriminate Hn.
  - split; [intros [Hk|Hn]; discriminate|].
    rewrite inserted_rows by discriminate. split.
    + intros _ _. rewrite length_imap, !length_combine.
      unfold I2B2MetaData.keys_to_paths. rewrite length_map. lia.
    + intros i key name Hk Hn. rewrite list_lookup_imap.
      rewrite (lookup_combine _ _ i
                 (String I2B2MetaData.bs
                    (Py.join (String I2B2MetaData.bs "")
                       (skipn 3 (Py.split I2B2MetaData.bs key))))
                 (key, name)).
      * reflexivity.
      * unfold I2B2MetaData.keys_to_paths. rewrite lookup_map, Hk.
        reflexivity.
      * apply lookup_combine; assumption.
Qed.

Lemma export_terms_variable_rows_witness :
  (exists account' d',
      DataDest.export_terms 2 DataExtract.data_tables Sample.job_no_concepts
        Sample.repo Sample.dest_ready = Ok (account', d')
      /\ DestDb.rows_of "variable" d' = [DestDb.RowNull])
  /\ (exists account' d',
         DataDest.export_terms 2 DataExtract.data_tables Sample.job1
           Sample.repo Sample.dest_ready = Ok (account', d')
         /\ length (DestDb.rows_of "variable" d') = 1
         /\ DestDb.rows_of "variable" d' !! 0
            = Some (DestDb.RowVariable
                      {| DestDb.v_id := 0;
                         DestDb.v_item_key := "\\tk\a\b\";
                         DestDb.v_concept_path := "\a\b\";
                         DestDb.v_name_char := "n1 [3 facts]";
                         DestDb.v_name := "n1" |})).
Proof.
  split.
  - destruct (DataDest.export_terms 2 DataExtract.data_tables
                Sample.job_no_concepts Sample.repo Sample.dest_ready)
      as [[account' d']|ex] eqn:E.
    + exists account', d'. split; [reflexivity|].
      apply (proj1 (export_terms_variable_rows _ _ _ _ _ _ _ E)).
      left. reflexivity.
    + vm_compute in E. discriminate E.
  - destruct (DataDest.export_terms 2 DataExtract.data_tables Sample.job1
                Sample.repo Sample.dest_ready) as [[account' d']|ex] eqn:E.
    + exists account', d'. split; [reflexivity|].
      destruct (export_terms_variable_rows _ _ _ _ _ _ _ E)
        as (_ & Hl & Hr).
      split; [apply Hl; discriminate|].
      exact (Hr 0 "\\tk\a\b\" "n1 [3 facts]" eq_refl eq_refl).
    + vm_compute in E. discriminate E.
Defined.

Lemma init_tables_star
    (create_unpacked_view : DestDb.db -> string -> result DestDb.db)
    (job : DataExtract.job) (d d' : DestDb.db) (dest_star : list string)
    (t : string) :
  (forall d t d', create_unpacked_view d t = Ok d' ->
                  DestDb.tables d' = DestDb.tables d) ->
  DataDest.init_tables create_unpacked_view job d = Ok (dest_star, d') ->
  In t DataExtract.data_tables ->
  DestDb.tables d' !! t = Some [].
Proof.
  intros Hviews H Ht. unfold DataDest.init_tables in H.
  apply bind_ok in H as (d1 & H1 & H). injection H as _ <-.
  rewrite (for_each_views_tables _ Hviews _ _ _ H1).
  rewrite lookup_create_all, lookup_drop_all.
  rewrite !bool_decide_eq_true_2 by (apply list_elem_of_In; exact Ht).
  reflexivity.
Qed.

Lemma export_patients_tables (chunk_size : positive)
    (dest_star : list string) (job : DataExtract.job)
    (account : I2b2Star.cdw) (n : nat) (d d' : DestDb.db) :
  Spec.has_table "patient_dimension" d ->
  Spec.has_table "visit_dimension" d ->
  DataDest.export_patients chunk_size dest_star job account d = Ok (n, d') ->
  DestDb.tables d'
  = <["visit_dimension" :=
        DestDb.rows_of "visit_dimension" d
        ++ map DestDb.RowVisit
             (snd DataExtract.patients_query (DataExtract.patient_set job)
                account)]>
      (<["patient_dimension" :=
           DestDb.rows_of "patient_dimension" d
           ++ map DestDb.RowPatient
                (fst DataExtract.patients_query
                   (DataExtract.patient_set job) account)]>
         (DestDb.tables d))
  /\ n = length (DestDb.rows_of "patient_dimension" d
                 ++ map DestDb.RowPatient
                      (fst DataExtract.patients_query
                         (DataExtract.patient_set job) account))
  /\ DestDb.views d' = DestDb.views d.
Proof.
  unfold DataDest.export_patients, DataExtract.demographics.
  intros Hpd Hvd H.
  destruct DataExtract.patients_query as [pat_q enc_q]. cbn [fst snd].
  apply bind_ok in H as ([d1 c1] & H1 & H).
  apply bind_ok in H as ([d2 c2] & H2 & H). injection H as <- <-.
  apply copy_in_chunks_tables in H1 as [Ht1 Hv1]; [|exact Hpd].
  assert (Hvd1 : DestDb.tables d1 !! "visit_dimension"
                 = DestDb.tables d !! "visit_dimension")
    by (rewrite Ht1; apply lookup_insert_ne; discriminate).
  apply copy_in_chunks_tables in H2 as [Ht2 Hv2].
  2:{ unfold Spec.has_table. rewrite Hvd1. exact Hvd. }
  split; [|split; [|congruence]].
  - rewrite Ht2. unfold DestDb.rows_of. rewrite Hvd1, Ht1. reflexivity.
  - unfold DestDb.rows_of. rewrite Ht2.
    rewrite lookup_insert_ne by discriminate.
    rewrite Ht1, lookup_insert_eq. reflexivity.
Qed.

Lemma export_summary_tables (rows : list DataDest.summary_row)
    (d d' : DestDb.db) :
  DataDest.export_summary d = Ok (rows, d') ->
  DestDb.tables d' = DestDb.tables d
  /\ DestDb.views d' = {["data_summary"]} ∪ DestDb.views d
  /\ rows = DataDest.data_summary d'.
Proof.
  unfold DataDest.export_summary, DestDb.create_view. intros H.
  destruct (_ || _); [discriminate|].
  apply bind_ok in H as (d1 & [= <-] & H).
  apply bind_ok in H as (u & _ & H). injection H as <- <-. auto.
Qed.

Ltac lookup_tables :=
  repeat first
    [ rewrite lookup_insert_eq
    | rewrite lookup_insert_ne by discriminate ].

(** X12: when the view maker leaves the tables alone, an export that
    completes leaves in the destination, whatever it held before: the row
    of the job; the facts [patient_data] selected; the rows of the cursor of
    the concept-dictionary selection; an empty modifier table; the patients
    and the visits the two demographic selections return on the repository;
    and it reports the patient-set identifier, the path of the destination
    and the number of those patients. *)
Theorem export_fills_destination
    (create_unpacked_view : DestDb.db -> string -> result DestDb.db)
    (chunk_size : positive)
    (json_dumps_concepts : DataExtract.concepts -> string)
    (full_path : string) (job : DataExtract.job)
    (account account' : I2b2Star.cdw) (d d' : DestDb.db)
    (o : DataDest.out) :
  (forall d t d', create_unpacked_view d t = Ok d' ->
                  DestDb.tables d' = DestDb.tables d) ->
  DataDest.export create_unpacked_view chunk_size json_dumps_concepts
    full_path job account d = Ok (o, account', d') ->
  DataDest.id o = DataExtract.patient_set job
  /\ DataDest.out_filename o = full_path
  /\ DataDest.n_patient o
     = length (fst DataExtract.patients_query (DataExtract.patient_set job)
                 account)
  /\ DestDb.rows_of "job" d' = [SpecX.job_row_of json_dumps_concepts job]
  /\ DestDb.rows_of "observation_fact" d'
     = map DestDb.RowFact (fst (DataExtract.patient_data job account))
  /\ DestDb.rows_of "concept_dimension" d'
     = map DestDb.RowTerm (fst (fst (DataExtract.term_info job account)))
  /\ DestDb.rows_of "modifier_dimension" d' = []
  /\ DestDb.rows_of "patient_dimension" d'
     = map DestDb.RowPatient
         (fst DataExtract.patients_query (DataExtract.patient_set job)
            account)
  /\ DestDb.rows_of "visit_dimension" d'
     = map DestDb.RowVisit
         (snd DataExtract.patients_query (DataExtract.patient_set job)
            account).
Proof.
  intros Hviews H. unfold DataDest.export in H.
  apply bind_ok in H as ([dest_star d1] & H1 & H).
  apply bind_ok in H as (d2 & H2 & H).
  apply bind_ok in H as ([a3 d3] & H3 & H).
  apply bind_ok in H as ([a4 d4] & H4 & H).
  apply bind_ok in H as ([n d5] & H5 & H).
  apply bind_ok in H as ([rows d6] & H6 & H). injection H as <- <- <-.
  assert (Hstar : forall t, In t DataExtract.data_tables ->
                            DestDb.tables d1 !! t = Some [])
    by (intros t; eapply init_tables_star; eassumption).
  assert (Hpd := Hstar "patient_dimension" ltac:(simpl; tauto)).
  assert (Hvd := Hstar "visit_dimension" ltac:(simpl; tauto)).
  assert (Hcd := Hstar "concept_dimension" ltac:(simpl; tauto)).
  assert (Hmd := Hstar "modifier_dimension" ltac:(simpl; tauto)).
  apply export_job_tables in H2 as [Ht2 _].
  apply export_data_tables in H3 as (-> & Ht3 & _).
  unfold DataDest.job_table in Ht2.
  apply export_terms_tables in H4 as (-> & Ht4 & _).
  2:{ unfold Spec.has_table. rewrite Ht3, Ht2. lookup_tables.
      rewrite Hcd. eauto. }
  unfold DataDest.variable_table in Ht4.
  apply export_patients_tables in H5 as (Ht5 & -> & _).
  2:{ unfold Spec.has_table. rewrite Ht4, Ht3, Ht2. lookup_tables.
      rewrite Hpd. eauto. }
  2:{ unfold Spec.has_table. rewrite Ht4, Ht3, Ht2. lookup_tables.
      rewrite Hvd. eauto. }
  apply export_summary_tables in H6 as (Ht6 & _).
  assert (Hpd4 : DestDb.rows_of "patient_dimension" d4 = []).
  { unfold DestDb.rows_of. rewrite Ht4, Ht3, Ht2. lookup_tables.
    rewrite Hpd. reflexivity. }
  assert (Hvd4 : DestDb.rows_of "visit_dimension" d4 = []).
  { unfold DestDb.rows_of. rewrite Ht4, Ht3, Ht2. lookup_tables.
    rewrite Hvd. reflexivity. }
  assert (Hcd3 : DestDb.rows_of "concept_dimension" d3 = []).
  { unfold DestDb.rows_of. rewrite Ht3, Ht2. lookup_tables.
    rewrite Hcd. reflexivity. }
  rewrite Hpd4, Hvd4 in Ht5. rewrite Hpd4. rewrite Hcd3 in Ht4.
  cbn [app DataDest.id DataDest.out_filename DataDest.n_patient] in *.
  rewrite !term_info_unfold, !patient_data_unfold in Ht4, Ht5.
  rewrite !patient_data_unfold in Ht3.
  rewrite !term_info_unfold, !patient_data_unfold.
  cbn [fst snd] in *.
  unfold DestDb.rows_of. rewrite Ht6, Ht5, Ht4, Ht3, Ht2.
  split; [reflexivity|]. split; [reflexivity|].
  split; [rewrite length_map; reflexivity|].
  lookup_tables. rewrite Hmd. repeat split; reflexivity.
Qed.

Lemma export_fills_destination_witness :
  exists o,
    Sample.first_export
    = Ok (o, fst Sample.after_first_export, snd Sample.after_first_export)
    /\ DataDest.n_patient o = 2
    /\ DestDb.rows_of "modifier_dimension" (snd Sample.after_first_export)
       = []
    /\ DestDb.rows_of "observation_fact" (snd Sample.after_first_export)
       = map DestDb.RowFact
           (fst (DataExtract.patient_data Sample.job1 Sample.repo)).
Proof.
  destruct first_export_completes as [o E]. exists o.
  split; [exact E|].
  destruct (export_fills_destination Sample.views_dt 2 Sample.dumps_concepts
              "/home/me/job1.db" Sample.job1 Sample.repo _ DestDb.empty _ o
              views_dt_views_only E)
    as (_ & _ & Hn & _ & Hf & _ & Hm & _).
  split; [exact Hn|]. split; [exact Hm|exact Hf].
Defined.

(** ** The summary *)

Lemma remove_dups_length {A : Type} `{EqDecision A} (l : list A) :
  length (remove_dups l) <= length l.
Proof.
  induction l as [|a l IH]; simpl; [lia|].
  destruct (decide_rel elem_of a l); simpl; lia.
Qed.

Lemma remove_dups_inhabited {A : Type} `{EqDecision A} (l : list A) (x : A) :
  In x l -> 1 <= length (remove_dups l).
Proof.
  intros H. apply in_remove_dups in H.
  destruct (remove_dups l); [destruct H|simpl; lia].
Qed.

(** X13: the summary has at most one row for each (path, label) of a
    variable, and in every row the number of patients is at least one and
    at most the number of facts. *)
Theorem data_summary_counts (d : DestDb.db) :
  (forall row, In row (DataDest.data_summary d) ->
               1 <= DataDest.pat_qty row <= DataDest.fact_qty row)
  /\ List.NoDup
       (map (fun row => (DataDest.s_concept_path row,
                         DataDest.s_name_char row))
            (DataDest.data_summary d)).
Proof.
  unfold DataDest.data_summary, Sql.group_by. split.
  - intros row Hin. apply in_map_iff in Hin as ([[cp nc] g] & <- & Hin).
    apply in_map_iff in Hin as (k & Heq & Hk).
    injection Heq as -> <-.
    apply (proj1 (in_remove_dups _ _)) in Hk.
    apply in_map_iff in Hk as (r & Hr & Hin).
    cbn [DataDest.pat_qty DataDest.fact_qty]. split.
    + apply (remove_dups_inhabited _ (I2b2Star.f_patient_num (fst r))).
      apply in_map_iff. exists r. split; [reflexivity|].
      apply filter_In. split; [exact Hin|].
      apply bool_decide_eq_true. exact Hr.
    + etransitivity; [apply remove_dups_length|].
      rewrite length_map. reflexivity.
  - rewrite !map_map. apply NoDup_ListNoDup.
    erewrite map_ext; [rewrite map_id; apply NoDup_remove_dups|].
    intros [cp nc]. reflexivity.
Qed.

(** X14: [export_summary] does not run twice on one destination: the view
    it has created is in the way of the second run. *)
Theorem export_summary_second_run_raises (rows : list DataDest.summary_row)
    (d d' : DestDb.db) :
  DataDest.export_summary d = Ok (rows, d') ->
  DataDest.export_summary d'
  = Raise (DestDb.already_exists "data_summary").
Proof.
  intros H. apply export_summary_tables in H as (_ & Hv & _).
  unfold DataDest.export_summary, DestDb.create_view.
  rewrite (bool_decide_eq_true_2 ("data_summary" ∈ DestDb.views d')).
  - rewrite orb_true_r. reflexivity.
  - rewrite Hv. apply elem_of_union_l, elem_of_singleton. reflexivity.
Qed.

Lemma export_summary_second_run_raises_witness :
  exists rows d',
    DataDest.export_summary Sample.dest_before_summary = Ok (rows, d')
    /\ DataDest.export_summary d'
       = Raise (DestDb.already_exists "data_summary").
Proof.
  destruct (DataDest.export_summary Sample.dest_before_summary)
    as [[rows d']|ex] eqn:E.
  - exists rows, d'. split; [reflexivity|].
    exact (export_summary_second_run_raises _ _ _ E).
  - vm_compute in E. discriminate E.
Defined.

(** On a destination that lacks the table of variables the view is
    created and the read of it raises. *)
Example export_summary_without_variable :
  exists msg,
    DataDest.export_summary Sample.dest_ready
    = Raise (Exn OperationalError msg).
Proof. eexists. vm_compute. reflexivity. Qed.

(** [export_job] raises for a patient-set identifier that is no signed
    integer of 64 bits. *)
Lemma export_job_overflow
    (json_dumps_concepts : DataExtract.concepts -> string)
    (dest_star : list string) (job : DataExtract.job) (d : DestDb.db) :
  "job" ∉ DestDb.views d ->
  DestDb.int64 (DataExtract.patient_set job) = false ->
  DataDest.export_job json_dumps_concepts dest_star job d
  = Raise DestDb.overflow.
Proof.
  intros Hv Hint. unfold DataDest.export_job, DataDest.job_table.
  unfold DestDb.create, DestDb.drop_checkfirst.
  cbn [DestDb.tables DestDb.views].
  rewrite (bool_decide_eq_false_2 ("job" ∈ DestDb.views d) Hv).
  rewrite bool_decide_eq_false_2.
  - cbn [orb mbind result_bind]. unfold DestDb.bind_integer.
    rewrite Hint. reflexivity.
  - rewrite elem_of_dom, lookup_delete_eq. intros [x Hx]. discriminate Hx.
Qed.

(** ** The first export *)

Lemma create_succeeds (name : string) (d : DestDb.db) :
  SpecX.name_free name d -> exists d', DestDb.create name d = Ok d'.
Proof.
  intros [Ht Hv]. unfold DestDb.create.
  rewrite (bool_decide_eq_false_2 (name ∈ DestDb.views d) Hv).
  destruct (bool_decide (name ∈ dom (DestDb.tables d))) eqn:E.
  - apply taken_iff in E. destruct (Ht E).
  - eexists. reflexivity.
Qed.

Lemma insert_succeeds (name : string) (new : list DestDb.row)
    (d : DestDb.db) :
  Spec.has_table name d -> exists d', DestDb.insert name new d = Ok d'.
Proof.
  intros [old H]. unfold DestDb.insert. rewrite H. eexists. reflexivity.
Qed.

Lemma copy_loop_succeeds {R : Type} (inj : R -> DestDb.row) (t : string)
    (batch fuel : nat) (data : list R) (d : DestDb.db) :
  Spec.has_table t d ->
  exists r, TableCopy.copy_loop fuel batch inj d data t = Ok r.
Proof.
  revert data d. induction fuel as [|fuel IH]; intros data d Ht; simpl.
  - eexists. reflexivity.
  - destruct (firstn batch data) as [|x chunk]; [eexists; reflexivity|].
    destruct (insert_succeeds t (inj x :: map inj chunk) d Ht) as [d1 H1].
    rewrite H1. simpl. apply IH.
    apply insert_ok in H1 as (old & _ & Ht1 & _).
    eapply has_table_insert; [exact Ht1|exact Ht].
Qed.

Lemma copy_in_chunks_succeeds {R : Type} (inj : R -> DestDb.row)
    (t : string) (chunk_size : positive) (data : list R) (d : DestDb.db) :
  Spec.has_table t d ->
  exists r, TableCopy.copy_in_chunks chunk_size inj d data t = Ok r.
Proof. apply copy_loop_succeeds. Qed.

Lemma views_drop_all (names : list string) (d : DestDb.db) :
  DestDb.views (DestDb.drop_all names d) = DestDb.views d.
Proof.
  unfold DestDb.drop_all. revert d.
  induction names as [|n names IH]; intros d; [reflexivity|].
  simpl. rewrite IH. reflexivity.
Qed.

Lemma views_create_all (names : list string) (d : DestDb.db) :
  DestDb.views (DestDb.create_all names d) = DestDb.views d.
Proof.
  unfold DestDb.create_all. revert d.
  induction names as [|n names IH]; intros d; [reflexivity|].
  simpl. rewrite IH. destruct (DestDb.tables d !! n); reflexivity.
Qed.

Lemma for_each_makes_views
    (create_unpacked_view : DestDb.db -> string -> result DestDb.db)
    (names : list string) (d : DestDb.db) :
  SpecX.makes_views create_unpacked_view ->
  exists d',
    DataDest.for_each create_unpacked_view names d = Ok d'
    /\ DestDb.tables d' = DestDb.tables d
    /\ forall n, n ∈ DestDb.views d' ->
                 n ∈ DestDb.views d
                 \/ exists t, In t names /\ n = t +:+ "_dt".
Proof.
  intros Hm. revert d. induction names as [|t names IH]; intros d.
  - exists d. split; [reflexivity|]. split; [reflexivity|]. auto.
  - destruct (Hm d t) as (d1 & H1 & Ht1 & Hv1).
    destruct (IH d1) as (d' & H & Ht & Hv).
    exists d'. simpl. rewrite H1. simpl.
    split; [exact H|]. split; [congruence|].
    intros n Hn. destruct (Hv n Hn) as [Hn1|(t' & Ht' & ->)].
    + destruct (Hv1 n Hn1) as [Hd| ->]; [left; exact Hd|].
      right. exists t. split; [left; reflexivity|reflexivity].
    + right. exists t'. split; [right; exact Ht'|reflexivity].
Qed.

(** X15: with a view maker that succeeds, leaves the tables alone and adds
    at most the view named after each table, the export of a job whose
    patient-set identifier is a signed integer of 64 bits completes whenever
    the destination has no table and no view named [variable] or
    [data_summary] and no view named [job] or as a table of the star
    schema; an empty destination is one.  (For an identifier out of that
    range [export_job] raises, see [export_job_overflow].) *)
Theorem export_completes_on_fresh_destination
    (create_unpacked_view : DestDb.db -> string -> result DestDb.db)
    (chunk_size : positive)
    (json_dumps_concepts : DataExtract.concepts -> string)
    (full_path : string) (job : DataExtract.job) (account : I2b2Star.cdw)
    (d : DestDb.db) :
  SpecX.makes_views create_unpacked_view ->
  DestDb.int64 (DataExtract.patient_set job) = true ->
  SpecX.name_free "variable" d ->
  SpecX.name_free "data_summary" d ->
  "job" ∉ DestDb.views d ->
  (forall t, In t DataExtract.data_tables -> t ∉ DestDb.views d) ->
  exists r,
    DataDest.export create_unpacked_view chunk_size json_dumps_concepts
      full_path job account d = Ok r.
Proof.
  intros Hm Hint [Hvar_t Hvar_v] [Hsum_t Hsum_v] Hjob_v _.
  assert (Hviews : forall d t d', create_unpacked_view d t = Ok d' ->
                                  DestDb.tables d' = DestDb.tables d).
  { intros d0 t d0' H. destruct (Hm d0 t) as (d1 & H1 & Ht & _).
    congruence. }
  unfold DataDest.export.
  (* init_tables *)
  destruct (for_each_makes_views create_unpacked_view DataExtract.data_tables
              (DestDb.create_all DataExtract.data_tables
                 (DestDb.drop_all DataExtract.data_tables d)) Hm)
    as (d1 & H1 & Ht1 & Hv1).
  assert (Hinit : DataDest.init_tables create_unpacked_view job d
                  = Ok (DataExtract.data_tables, d1)).
  { unfold DataDest.init_tables. rewrite H1. reflexivity. }
  rewrite Hinit. simpl.
  assert (Hfresh1 : forall n, n ∈ DestDb.views d1 ->
                              n ∈ DestDb.views d
                              \/ exists t, In t DataExtract.data_tables
                                           /\ n = t +:+ "_dt").
  { intros n Hn. rewrite <- (views_drop_all DataExtract.data_tables d).
    rewrite <- (views_create_all DataExtract.data_tables). exact (Hv1 n Hn). }
  assert (Hother : forall n, ~ In n DataExtract.data_tables ->
                             DestDb.tables d1 !! n = DestDb.tables d !! n).
  { intros n Hn. rewrite Ht1, lookup_create_all, lookup_drop_all.
    rewrite !bool_decide_eq_false_2
      by (intros H; apply Hn, list_elem_of_In, H).
    destruct (DestDb.tables d !! n); reflexivity. }
  assert (Hstar : forall t, In t DataExtract.data_tables ->
                            DestDb.tables d1 !! t = Some [])
    by (intros t; eapply init_tables_star; eassumption).
  assert (Hno : forall n,
             n ∉ DestDb.views d ->
             (forall t, In t DataExtract.data_tables -> n <> t +:+ "_dt") ->
             n ∉ DestDb.views d1).
  { intros n Hn Hdt Hin. destruct (Hfresh1 n Hin) as [H|(t & Ht & ->)];
      [exact (Hn H)|exact (Hdt t Ht eq_refl)]. }
  assert (Hjob1 : "job" ∉ DestDb.views d1).
  { apply Hno; [exact Hjob_v|].
    intros t [<-|[<-|[<-|[<-|[<-|[]]]]]]; discriminate. }
  assert (Hvar1 : "variable" ∉ DestDb.views d1).
  { apply Hno; [exact Hvar_v|].
    intros t [<-|[<-|[<-|[<-|[<-|[]]]]]]; discriminate. }
  assert (Hsum1 : "data_summary" ∉ DestDb.views d1).
  { apply Hno; [exact Hsum_v|].
    intros t [<-|[<-|[<-|[<-|[<-|[]]]]]]; discriminate. }
  (* export_job *)
  destruct (create_succeeds "job" (DestDb.drop_checkfirst "job" d1))
    as [dj Hj].
  { split; [|exact Hjob1]. unfold Spec.has_table, DestDb.drop_checkfirst.
    simpl. rewrite lookup_delete_eq. intros [? ?]. discriminate. }
  destruct (insert_succeeds "job"
              [SpecX.job_row_of json_dumps_concepts job] dj) as [d2 H2].
  { apply create_ok in Hj as (Htj & _). unfold Spec.has_table.
    rewrite Htj, lookup_insert_eq. eauto. }
  assert (Hjobstep : DataDest.export_job json_dumps_concepts
                       DataExtract.data_tables job d1 = Ok d2).
  { unfold DataDest.export_job, DataDest.job_table. rewrite Hj. simpl.
    unfold DestDb.bind_integer. rewrite Hint. exact H2. }
  rewrite Hjobstep. simpl.
  pose proof (export_job_tables _ _ _ _ _ Hjobstep) as [Ht2 Hv2].
  unfold DataDest.job_table in Ht2.
  (* export_data *)
  assert (Hdata : exists r,
             DataDest.export_data chunk_size DataExtract.data_tables job
               account d2 = Ok r).
  { unfold DataDest.export_data.
    destruct (DataExtract.patient_data job account) as [data acc].
    unfold DestDb.delete_from. rewrite Ht2. lookup_tables.
    rewrite (Hstar "observation_fact") by (simpl; tauto). simpl.
    edestruct (copy_in_chunks_succeeds DestDb.RowFact "observation_fact"
                 chunk_size data) as [[d3 c3] H3];
      [|rewrite H3; simpl; eexists; reflexivity].
    unfold Spec.has_table. simpl. rewrite lookup_insert_eq. eauto. }
  destruct Hdata as [[a3 d3] H3]. rewrite H3. simpl.
  pose proof (export_data_tables _ _ _ _ _ _ _ H3) as (_ & Ht3 & Hv3).
  (* export_terms *)
  assert (Hterms : exists r,
             DataDest.export_terms chunk_size DataExtract.data_tables job
               a3 d3 = Ok r).
  { unfold DataDest.export_terms, DataDest.variable_table.
    destruct (DataExtract.term_info job a3) as [[rcd rmd] a4].
    destruct (create_succeeds "variable" d3) as [dv Hdv].
    { split.
      - unfold Spec.has_table. rewrite Ht3, Ht2. lookup_tables.
        rewrite Hother; [exact Hvar_t|].
        simpl. intros [H|[H|[H|[H|[H|[]]]]]]; discriminate H.
      - rewrite Hv3, Hv2. exact Hvar1. }
    rewrite Hdv. simpl.
    apply create_ok in Hdv as (Htv & _).
    edestruct (insert_succeeds "variable") as [dw Hdw];
      [|rewrite Hdw; simpl].
    { unfold Spec.has_table. rewrite Htv, lookup_insert_eq. eauto. }
    apply insert_ok in Hdw as (old & _ & Htw & _).
    edestruct (copy_in_chunks_succeeds DestDb.RowTerm "concept_dimension"
                 chunk_size rcd dw) as [[dc cc] Hdc].
    { unfold Spec.has_table. rewrite Htw, Htv, Ht3, Ht2. lookup_tables.
      rewrite (Hstar "concept_dimension") by (simpl; tauto). eauto. }
    rewrite Hdc. simpl.
    pose proof Hdc as Hdc'.
    apply copy_in_chunks_ok in Hdc' as (-> & _).
    rewrite copy_in_chunks_nil. simpl. eexists. reflexivity. }
  destruct Hterms as [[a4 d4] H4]. rewrite H4. simpl.
  pose proof H4 as H4'.
  apply export_terms_tables in H4' as (_ & Ht4 & Hv4).
  2:{ unfold Spec.has_table. rewrite Ht3, Ht2. lookup_tables.
      rewrite (Hstar "concept_dimension") by (simpl; tauto). eauto. }
  unfold DataDest.variable_table in Ht4.
  (* export_patients *)
  assert (Hpat : exists r,
             DataDest.export_patients chunk_size DataExtract.data_tables job
               a4 d4 = Ok r).
  { unfold DataDest.export_patients.
    destruct (DataExtract.demographics job a4) as [pat enc].
    edestruct (copy_in_chunks_succeeds DestDb.RowPatient "patient_dimension"
                 chunk_size pat d4) as [[dp cp] Hdp].
    { unfold Spec.has_table. rewrite Ht4, Ht3, Ht2. lookup_tables.
      rewrite (Hstar "patient_dimension") by (simpl; tauto). eauto. }
    rewrite Hdp. simpl.
    apply copy_in_chunks_ok in Hdp as (_ & _ & _ & Hhas & _).
    edestruct (copy_in_chunks_succeeds DestDb.RowVisit "visit_dimension"
                 chunk_size enc dp) as [[de ce] Hde].
    { apply Hhas. unfold Spec.has_table. rewrite Ht4, Ht3, Ht2.
      lookup_tables.
      rewrite (Hstar "visit_dimension") by (simpl; tauto). eauto. }
    rewrite Hde. simpl. eexists. reflexivity. }
  destruct Hpat as [[n d5] H5]. rewrite H5. simpl.
  pose proof H5 as H5'.
  apply export_patients_tables in H5' as (Ht5 & _ & Hv5).
  2:{ unfold Spec.has_table. rewrite Ht4, Ht3, Ht2. lookup_tables.
      rewrite (Hstar "patient_dimension") by (simpl; tauto). eauto. }
  2:{ unfold Spec.has_table. rewrite Ht4, Ht3, Ht2. lookup_tables.
      rewrite (Hstar "visit_dimension") by (simpl; tauto). eauto. }
  (* export_summary *)
  unfold DataDest.export_summary, DestDb.create_view.
  rewrite (bool_decide_eq_false_2 ("data_summary" ∈ dom (DestDb.tables d5))).
  2:{ intros H. apply elem_of_dom in H. revert H.
      rewrite Ht5, Ht4, Ht3, Ht2. lookup_tables.
      rewrite Hother; [exact Hsum_t|].
      simpl. intros [H|[H|[H|[H|[H|[]]]]]]; discriminate H. }
  rewrite (bool_decide_eq_false_2 ("data_summary" ∈ DestDb.views d5)).
  2:{ rewrite Hv5, Hv4, Hv3, Hv2. exact Hsum1. }
  cbn [orb mbind result_bind DestDb.from_tables DestDb.tables].
  rewrite Ht5, Ht4, Ht3. lookup_tables.
  cbn [mbind result_bind]. eexists. reflexivity.
Qed.

Lemma views_dt_makes_views : SpecX.makes_views Sample.views_dt.
Proof.
  intros d t. eexists. split; [reflexivity|]. split; [reflexivity|].
  intros n Hn. simpl in Hn. apply elem_of_union in Hn as [Hn|Hn].
  - right. apply elem_of_singleton in Hn. exact Hn.
  - left. exact Hn.
Qed.

Lemma export_completes_on_fresh_destination_witness :
  exists r,
    DataDest.export Sample.views_dt 2 Sample.dumps_concepts
      "/home/me/job1.db" Sample.job1 Sample.repo DestDb.empty = Ok r.
Proof.
  apply (export_completes_on_fresh_destination Sample.views_dt 2
           Sample.dumps_concepts "/home/me/job1.db" Sample.job1 Sample.repo
           DestDb.empty views_dt_makes_views).
  - reflexivity.
  - split; [intros [x H]; discriminate H|apply not_elem_of_empty].
  - split; [intros [x H]; discriminate H|apply not_elem_of_empty].
  - apply not_elem_of_empty.
  - intros t _. apply not_elem_of_empty.
Defined.

(** * Further properties of the keys and the labels *)

Lemma split_length (sep : ascii) (s : string) :
  length (Py.split sep s)
  = S ((fix count (s : string) : nat :=
          match s with
          | EmptyString => 0
          | String c s' => (if Ascii.eqb c sep then 1 else 0) + count s'
          end) s).
Proof.
  induction s as [|c s IH]; [reflexivity|]. simpl.
  destruct (Ascii.eqb c sep); simpl; [rewrite IH; reflexivity|].
  destruct (Py.split sep s) as [|h t]; simpl in *; lia.
Qed.

(** X16: a key with at most two separators, which has no segment after
    the table-access prefix, is resolved to the bare separator; nothing is
    raised for it. *)
Theorem short_keys_resolve_to_separator (keys : list string) :
  Forall (fun key => SpecX.separators key <= 2) keys ->
  I2B2MetaData.keys_to_paths keys = map (fun _ => "\") keys.
Proof.
  intros H. unfold I2B2MetaData.keys_to_paths. apply map_ext_in.
  intros key Hin. rewrite List.Forall_forall in H. specialize (H _ Hin).
  rewrite skipn_all2; [reflexivity|].
  rewrite split_length. change (S (SpecX.separators key) <= 3). lia.
Qed.

Lemma short_keys_resolve_to_separator_witness :
  I2B2MetaData.keys_to_paths ["\\tk"; "abc"; ""]
  = map (fun _ => "\") ["\\tk"; "abc"; ""].
Proof.
  apply (short_keys_resolve_to_separator ["\\tk"; "abc"; ""]).
  repeat constructor.
Defined.

(** ** The migration of the names *)

Lemma prefix_space_bracket (a : ascii) (s : string) :
  String.prefix " [" (String a s) = true ->
  exists s', s = String "[" s'.
Proof.
  cbn [String.prefix]. destruct (ascii_dec " " a); [|discriminate].
  destruct s as [|b s]; cbn [String.prefix]; [discriminate|].
  destruct (ascii_dec "[" b) as [<-|]; [eauto|discriminate].
Qed.

Lemma prefix_space_bracket_needs_bracket (a : ascii) (base rest : string) :
  Py.contains "[" (String a base) = false ->
  String.prefix " [" (String a base +:+ " [" +:+ rest) = false.
Proof.
  intros H. cbn [Py.contains] in H. apply orb_false_iff in H as [Ha Hb].
  destruct (String.prefix " [" (String a base +:+ " [" +:+ rest)) eqn:E;
    [|reflexivity].
  change (String a base +:+ " [" +:+ rest)
    with (String a (base +:+ " [" +:+ rest)) in E.
  apply prefix_space_bracket in E as [s' E].
  destruct base as [|b base]; [discriminate E|].
  injection E as -> _. cbn [Py.contains] in Hb.
  rewrite Ascii.eqb_refl in Hb. discriminate Hb.
Qed.

Lemma instr_after_base (base rest : string) :
  Py.contains "[" base = false ->
  DestDb.instr (base +:+ " [" +:+ rest) " [" = S (String.length base).
Proof.
  induction base as [|a base IH]; intros H; [destruct rest; reflexivity|].
  change (String a base +:+ " [" +:+ rest)
    with (String a (base +:+ " [" +:+ rest)).
  cbn [DestDb.instr].
  change (String a (base +:+ " [" +:+ rest))
    with (String a base +:+ " [" +:+ rest).
  rewrite (prefix_space_bracket_needs_bracket a base rest H).
  simpl in H. apply orb_false_iff in H as [_ Hb].
  rewrite (IH Hb). reflexivity.
Qed.

Lemma instr_no_bracket (s : string) :
  Py.contains "[" s = false -> DestDb.instr s " [" = 0.
Proof.
  induction s as [|a s IH]; intros H; [reflexivity|].
  pose proof H as H'. cbn [Py.contains] in H'.
  apply orb_false_iff in H' as [Ha Hs].
  cbn [DestDb.instr]. rewrite (IH Hs).
  destruct (String.prefix " [" (String a s)) eqn:E; [|reflexivity].
  apply prefix_space_bracket in E as [s' ->].
  cbn [Py.contains] in Hs. rewrite Ascii.eqb_refl in Hs. discriminate Hs.
Qed.

Lemma substring_base (base rest : string) :
  String.substring 0 (String.length base) (base +:+ rest) = base.
Proof.
  induction base as [|a base IH]; simpl.
  - destruct rest; reflexivity.
  - rewrite IH. reflexivity.
Qed.

Lemma strip_name_before_bracket (v : DestDb.variable_row)
    (base rest : string) :
  DestDb.v_name_char v = base +:+ " [" +:+ rest ->
  Py.contains "[" base = false ->
  exists v',
    DataDest.strip_name (DestDb.RowVariable v) = DestDb.RowVariable v'
    /\ DestDb.v_name v' = base
    /\ DestDb.v_name_char v' = DestDb.v_name_char v
    /\ DestDb.v_id v' = DestDb.v_id v.
Proof.
  intros Hn Hb. eexists. split; [reflexivity|]. cbn.
  split; [|split; reflexivity].
  rewrite Hn, instr_after_base by exact Hb.
  unfold DestDb.substr_1.
  replace (Z.of_nat (S (String.length base)) - 1)%Z
    with (Z.of_nat (String.length base)) by lia.
  rewrite (proj2 (Z.leb_le _ _)) by lia.
  rewrite Nat2Z.id. apply substring_base.
Qed.

Lemma strip_name_no_bracket (v : DestDb.variable_row) :
  Py.contains "[" (DestDb.v_name_char v) = false ->
  exists v',
    DataDest.strip_name (DestDb.RowVariable v) = DestDb.RowVariable v'
    /\ DestDb.v_name v' = ""
    /\ DestDb.v_name_char v' = DestDb.v_name_char v
    /\ DestDb.v_id v' = DestDb.v_id v.
Proof.
  intros Hb. eexists. split; [reflexivity|]. cbn.
  split; [|split; reflexivity].
  rewrite instr_no_bracket by exact Hb. reflexivity.
Qed.

(** X17: [variable_strip_counts] raises when the destination has no table
    of variables; otherwise it keeps the rows in place and gives each
    variable a new name: the text before " [" when the label is a text
    without bracket followed by " [", and the empty text when the label has
    no bracket at all. *)
Theorem variable_strip_counts_names (d : DestDb.db) :
  (~ Spec.has_table "variable" d ->
   DataDest.variable_strip_counts d
   = Raise (DestDb.no_such_table "variable"))
  /\ (forall rows d',
         DataDest.variable_strip_counts d = Ok (rows, d') ->
         DestDb.rows_of "variable" d' = rows
         /\ length rows = length (DestDb.rows_of "variable" d)
         /\ forall i v,
              DestDb.rows_of "variable" d !! i = Some (DestDb.RowVariable v) ->
              exists v',
                rows !! i = Some (DestDb.RowVariable v')
                /\ DestDb.v_id v' = DestDb.v_id v
                /\ DestDb.v_name_char v' = DestDb.v_name_char v
                /\ (forall base rest,
                       DestDb.v_name_char v = base +:+ " [" +:+ rest ->
                       Py.contains "[" base = false ->
                       DestDb.v_name v' = base)
                /\ (Py.contains "[" (DestDb.v_name_char v) = false ->
                    DestDb.v_name v' = "")).
Proof.
  unfold DataDest.variable_strip_counts, DestDb.rows_of, Spec.has_table.
  destruct (DestDb.tables d !! "variable") as [old|]; split.
  - intros H. destruct H. eauto.
  - intros rows d' [= <- <-]. cbn [DestDb.tables].
    rewrite lookup_insert_eq. unfold default, from_option, id.
    split; [reflexivity|]. split; [apply length_map|].
    intros i v Hi. rewrite lookup_map, Hi. cbn [fmap option_fmap option_map].
    eexists. split; [reflexivity|]. cbn.
    split; [reflexivity|]. split; [reflexivity|]. split.
    + intros base rest Hn Hb.
      destruct (strip_name_before_bracket v base rest Hn Hb)
        as (v' & [= <-] & Hv' & _). exact Hv'.
    + intros Hb.
      destruct (strip_name_no_bracket v Hb) as (v' & [= <-] & Hv' & _).
      exact Hv'.
  - reflexivity.
  - intros rows d' H. discriminate H.
Qed.

Lemma variable_strip_counts_names_witness :
  DataDest.variable_strip_counts DestDb.empty
  = Raise (DestDb.no_such_table "variable").
Proof.
  apply (proj1 (variable_strip_counts_names DestDb.empty)).
  intros [x H]. discriminate H.
Defined.

Lemma no_bracket_no_count (s : string) :
  Py.contains "[" s = false -> Spec.has_count s = false.
Proof.
  induction s as [|a s IH]; intros H; [reflexivity|].
  simpl in H. apply orb_false_iff in H as [Ha Hs].
  cbn [Spec.has_count]. rewrite (IH Hs), orb_false_r.
  destruct s as [|b [|c s]]; try reflexivity.
  simpl in Hs. apply orb_false_iff in Hs as [Hb _].
  simpl. rewrite Hb, andb_false_r. reflexivity.
Qed.

(** X18: on a label made of a text without bracket, " [", a digit, text
    without line feed and "]", the name the migration gives is the name
    [strip_counts] gives; on a label without bracket the two differ unless
    the label is empty: [strip_counts] returns the label, the migration the
    empty text. *)
Theorem migration_against_strip_counts (v : DestDb.variable_row) :
  (forall base d r,
      DestDb.v_name_char v = base +:+ " [" +:+ String d r +:+ "]" ->
      Py.contains "[" base = false ->
      Re.digit d = true ->
      Py.contains "010" r = false ->
      DataDest.strip_name (DestDb.RowVariable v)
      = DestDb.RowVariable
          {| DestDb.v_id := DestDb.v_id v;
             DestDb.v_item_key := DestDb.v_item_key v;
             DestDb.v_concept_path := DestDb.v_concept_path v;
             DestDb.v_name_char := DestDb.v_name_char v;
             DestDb.v_name := strip_counts (DestDb.v_name_char v) |})
  /\ (Py.contains "[" (DestDb.v_name_char v) = false ->
      strip_counts (DestDb.v_name_char v) = DestDb.v_name_char v
      /\ exists v',
           DataDest.strip_name (DestDb.RowVariable v) = DestDb.RowVariable v'
           /\ DestDb.v_name v' = "").
Proof.
  split.
  - intros base d r Hn Hb Hd Hr.
    destruct (strip_name_before_bracket v base (String d r +:+ "]") Hn Hb)
      as (v' & Hs & Hv' & _).
    unfold DataDest.strip_name in *. injection Hs as <-. f_equal. f_equal.
    cbn [DestDb.v_name] in Hv'. rewrite Hv', Hn.
    unfold strip_counts, Re.sub. symmetry.
    apply sub_from_count_suffix; auto using no_bracket_no_count.
  - intros Hb. split.
    + unfold strip_counts, Re.sub.
      apply sub_from_no_count, no_bracket_no_count, Hb.
    + destruct (strip_name_no_bracket v Hb) as (v' & Hs & Hv' & _). eauto.
Qed.

Lemma migration_against_strip_counts_witness :
  DataDest.strip_name
    (DestDb.RowVariable
       {| DestDb.v_id := 0; DestDb.v_item_key := "\\tk\a\b\";
          DestDb.v_concept_path := "\a\b\";
          DestDb.v_name_char := "broken toe [200 facts]";
          DestDb.v_name := "" |})
  = DestDb.RowVariable
      {| DestDb.v_id := 0; DestDb.v_item_key := "\\tk\a\b\";
         DestDb.v_concept_path := "\a\b\";
         DestDb.v_name_char := "broken toe [200 facts]";
         DestDb.v_name := strip_counts "broken toe [200 facts]" |}.
Proof.
  exact (proj1 (migration_against_strip_counts
                  {| DestDb.v_id := 0; DestDb.v_item_key := "\\tk\a\b\";
                     DestDb.v_concept_path := "\a\b\";
                     DestDb.v_name_char := "broken toe [200 facts]";
                     DestDb.v_name := "" |})
           "broken toe" "2"%char "00 facts" eq_refl eq_refl eq_refl eq_refl).
Defined.

(** * Further properties of the entry point and the mail *)

(** X19: what [__call__] does outside its [try]: an exception raised while
    the access or the job storage is obtained goes up to the caller whatever
    its class, an [IOError] too; and when the export completes the result is
    the one-element list of the result's JSON text. *)
Theorem call_outside_try
    (create_unpacked_view : DestDb.db -> string -> result DestDb.db)
    (chunk_size : positive)
    (json_dumps_concepts : DataExtract.concepts -> string)
    (json_dumps : DataDest.out -> string)
    (self : BuilderApp.app) (username label : string)
    (concepts : DataExtract.concepts) (filename : string)
    (patient_set : Z) :
  (forall ex,
      BuilderApp._access self username = Raise ex ->
      BuilderApp.__call__ create_unpacked_view chunk_size
        json_dumps_concepts json_dumps self username label concepts
        filename patient_set = Raise ex)
  /\ (forall account job_storage ex,
         BuilderApp._access self username = Ok (account, job_storage) ->
         job_storage filename = Raise ex ->
         BuilderApp.__call__ create_unpacked_view chunk_size
           json_dumps_concepts json_dumps self username label concepts
           filename patient_set = Raise ex)
  /\ (forall account job_storage db storage o account' db',
         BuilderApp._access self username = Ok (account, job_storage) ->
         job_storage filename = Ok (db, storage) ->
         DataDest.export create_unpacked_view chunk_size json_dumps_concepts
           storage
           {| DataExtract.user_id := username;
              DataExtract.label := label;
              DataExtract.job_concepts := concepts;
              DataExtract.patient_set := patient_set;
              DataExtract.filename := filename |}
           account db = Ok (o, account', db') ->
         BuilderApp.__call__ create_unpacked_view chunk_size
           json_dumps_concepts json_dumps self username label concepts
           filename patient_set = Ok [json_dumps o]).
Proof.
  unfold BuilderApp.__call__. split; [|split].
  - intros ex ->. reflexivity.
  - intros account job_storage ex -> Hs. simpl. rewrite Hs. reflexivity.
  - intros account job_storage db storage o account' db' -> Hs He.
    simpl. rewrite Hs. simpl. rewrite He. reflexivity.
Qed.

Lemma call_outside_try_witness :
  BuilderApp.__call__ Sample.views_dt 2 Sample.dumps_concepts
    Sample.dumps_out Sample.app_no_access "me" "Interesting Query"
    Sample.concepts1 "job1" 123
  = Raise (Exn IOError "no home directory").
Proof.
  exact (proj1 (call_outside_try Sample.views_dt 2 Sample.dumps_concepts
                  Sample.dumps_out Sample.app_no_access "me"
                  "Interesting Query" Sample.concepts1 "job1" 123)
           (Exn IOError "no home directory") eq_refl).
Defined.

(** X20: whether the SMTP capability accepts the mail or raises makes no
    difference to what [send_completion_mail] returns; without an email
    section nothing is sent; and the call raises only what reading the
    domain or the sender from an existing section raises. *)
Theorem completion_mail_failures (smtp smtp' : Mail.smtp)
    (email_config : Mail.email_config) (username : string)
    (gethostname : unit -> string) (filename home_dirs summary : string)
    (outbox : list Mail.mail) :
  Mail.send_completion_mail smtp email_config username gethostname filename
    home_dirs summary outbox
  = Mail.send_completion_mail smtp' email_config username gethostname
      filename home_dirs summary outbox
  /\ (Mail.cfg_exists email_config = false ->
      Mail.send_completion_mail smtp email_config username gethostname
        filename home_dirs summary outbox = Ok outbox)
  /\ (forall ex,
         Mail.send_completion_mail smtp email_config username gethostname
           filename home_dirs summary outbox = Raise ex ->
         Mail.cfg_exists email_config = true
         /\ (Mail.cfg_get email_config "user_domain" = Raise ex
             \/ Mail.cfg_get email_config "sender" = Raise ex)).
Proof.
  unfold Mail.send_completion_mail, Mail.sendEmail, Mail.sendmail.
  split; [|split].
  - destruct (Mail.cfg_exists email_config); [|reflexivity].
    destruct (Mail.cfg_get email_config "user_domain"); [|reflexivity].
    simpl. destruct (Mail.cfg_get email_config "sender"); [|reflexivity].
    simpl. destruct (Mail.accepts smtp _), (Mail.accepts smtp' _);
      reflexivity.
  - intros ->. reflexivity.
  - intros ex H. destruct (Mail.cfg_exists email_config); [|discriminate H].
    split; [reflexivity|].
    destruct (Mail.cfg_get email_config "user_domain") as [domain|ex1];
      simpl in H; [|left; congruence].
    destruct (Mail.cfg_get email_config "sender") as [sender|ex2];
      simpl in H; [|right; congruence].
    destruct (Mail.accepts smtp _); discriminate H.
Qed.

Lemma completion_mail_failures_witness :
  Mail.send_completion_mail Sample.smtp_ok
    {| Mail.cfg_exists := false;
       Mail.cfg_get := fun k => Raise (Exn (OtherError "NoSectionError") k) |}
    "somebody" (fun _ => "mock_host") "data.db" "/home" "some summary" []
  = Ok [].
Proof.
  apply (proj1 (proj2 (completion_mail_failures Sample.smtp_ok Sample.smtp_ok
                         {| Mail.cfg_exists := false;
                            Mail.cfg_get := fun k =>
                              Raise (Exn (OtherError "NoSectionError") k) |}
                         "somebody" (fun _ => "mock_host") "data.db" "/home"
                         "some summary" []))).
  reflexivity.
Defined.

Lemma sub_from_length (n : nat) (s : string) :
  String.length (Re.sub_from n strip_counts_pattern "" s) <= String.length s.
Proof.
  revert s. induction n as [|n IH]; intros s; [simpl; lia|].
  destruct s as [|a s]; [simpl; lia|]. cbn [Re.sub_from].
  destruct (Re.match_here strip_counts_pattern (String a s)) as [rest|].
  - destruct (String.length rest <? String.length (String a s))%nat eqn:E.
    + apply Nat.ltb_lt in E. specialize (IH rest).
      change ("" +:+ Re.sub_from n strip_counts_pattern "" rest)
        with (Re.sub_from n strip_counts_pattern "" rest).
      cbn [String.length] in *. lia.
    + specialize (IH s). cbn [String.length]. lia.
  - specialize (IH s). cbn [String.length]. lia.
Qed.

(** X21: [strip_counts] never returns a text longer than the label. *)
Theorem strip_counts_never_longer (txt : string) :
  String.length (strip_counts txt) <= String.length txt.
Proof. apply sub_from_length. Qed.
